(** * web_reader: a shallow embedding of [web_reader_plugin.py]

    The plugin fetches a page with the [requests] HTTP client, parses it
    with BeautifulSoup and renders a textual report.  The embedding keeps
    the structure of the Python source:

    - Python [str] values are sequences of Unicode code points;
    - the third-party collaborators ([requests], [bs4], [urllib.parse],
      the regular expressions of the simplified mode, [str.lower]) are
      interfaces, each with a small reference instance used to run the
      code on concrete pages;
    - exceptions are an error monad, the outbound requests are logged in
      a trace, and the in-place [decompose] of the parsed document is
      threaded through as explicit state. *)

From Stdlib Require Import ZArith NArith List Lia Bool String Ascii.
From Stdlib Require Import Numbers.DecimalString.
From stdpp Require Import base list gmap sets.
Import ListNotations.

Local Open Scope Z_scope.
Set Warnings "-register-all".

(** ** Python strings *)

(** A Python [str]: the list of its code points. *)
Abbreviation pystr := (list N) (only parsing).

Module Py.

(** UTF-8 decoding, used only to write the literals of the source. *)
Fixpoint utf8 (bs : list N) (need : nat) (acc : N) : pystr :=
  match bs with
  | [] => []
  | b :: bs' =>
    match need with
    | O => if (b <? 128)%N then b :: utf8 bs' 0 0%N
           else if (b <? 224)%N then utf8 bs' 1 (b mod 32)%N
           else if (b <? 240)%N then utf8 bs' 2 (b mod 16)%N
           else utf8 bs' 3 (b mod 8)%N
    | S n => let acc' := (acc * 64 + b mod 64)%N in
             match n with
             | O => acc' :: utf8 bs' 0 0%N
             | _ => utf8 bs' n acc'
             end
    end
  end.

Definition lit (s : string) : pystr :=
  utf8 (map N_of_ascii (list_ascii_of_string s)) 0 0%N.

Definition nl : N := 10%N.
Definition space : N := 32%N.
Definition dquote : N := 34%N.

(** [len(s)] *)
Definition len (s : pystr) : Z := Z.of_nat (length s).

(** [len(l)] for a list. *)
Definition len_list {A : Type} (l : list A) : Z := Z.of_nat (length l).

(** Truth value of a string: non-empty. *)
Definition truthy (s : pystr) : bool :=
  match s with [] => false | _ => true end.

(** [a or b] on strings. *)
Definition or_else (a b : pystr) : pystr := if truthy a then a else b.

(** [s[:n]], with Python's reading of a negative bound. *)
Definition slice_to (s : pystr) (n : Z) : pystr :=
  if 0 <=? n then take (Z.to_nat n) s
  else take (length s - Z.to_nat (- n))%nat s.

(** [s.startswith(p)] *)
Fixpoint startswith (p s : pystr) : bool :=
  match p, s with
  | [], _ => true
  | _ :: _, [] => false
  | a :: p', b :: s' => (a =? b)%N && startswith p' s'
  end.

(** [x in s] *)
Fixpoint contains (x s : pystr) : bool :=
  startswith x s ||
  match s with
  | [] => false
  | _ :: s' => contains x s'
  end.

(** [sep.join(parts)] *)
Fixpoint join (sep : pystr) (parts : list pystr) : pystr :=
  match parts with
  | [] => []
  | [p] => p
  | p :: rest => p ++ sep ++ join sep rest
  end.

(** [c * n] for a one-character string. *)
Definition times (c : pystr) (n : nat) : pystr := concat (replicate n c).

(** [str(n)] for an [int]. *)
Definition str_of_int (z : Z) : pystr :=
  map N_of_ascii (list_ascii_of_string (NilZero.string_of_int (Z.to_int z))).

(** Unicode white space: what [str.isspace], [str.strip] and the
    pattern [\s] of [re] on [str] all use. *)
Definition isspace (c : N) : bool :=
  (((9 <=? c) && (c <=? 13)) || ((28 <=? c) && (c <=? 32)) ||
   (c =? 133) || (c =? 160) || (c =? 5760) ||
   ((8192 <=? c) && (c <=? 8202)) ||
   (c =? 8232) || (c =? 8233) || (c =? 8239) || (c =? 8287) ||
   (c =? 12288))%N.

Fixpoint lstrip (s : pystr) : pystr :=
  match s with
  | [] => []
  | c :: s' => if isspace c then lstrip s' else s
  end.

Definition rstrip (s : pystr) : pystr := rev (lstrip (rev s)).

(** [s.strip()] *)
Definition strip (s : pystr) : pystr := rstrip (lstrip s).

(** [re.sub(r'\s+', ' ', s)]: every maximal run of white space becomes
    one space.  [in_run] records that the previous character was white
    space. *)
Fixpoint sub_ws (in_run : bool) (s : pystr) : pystr :=
  match s with
  | [] => []
  | c :: s' =>
    if isspace c
    then (if in_run then sub_ws true s' else space :: sub_ws true s')
    else c :: sub_ws false s'
  end.

(** The longest prefix of [s] without a character that [stop] accepts,
    and what follows it. *)
Fixpoint before (stop : N -> bool) (s : pystr) : pystr :=
  match s with
  | [] => []
  | c :: s' => if stop c then [] else c :: before stop s'
  end.

Fixpoint from (stop : N -> bool) (s : pystr) : pystr :=
  match s with
  | [] => []
  | c :: s' => if stop c then s else from stop s'
  end.

(** Lower-casing of the ASCII letters. *)
Definition ascii_lower (c : N) : N :=
  if ((65 <=? c) && (c <=? 90))%N then (c + 32)%N else c.

Definition is_ascii (s : pystr) : Prop := Forall (fun c => (c < 128)%N) s.

End Py.

(** The literal [s] of the source, as its code points. *)
Notation "'py' s" :=
  (ltac:(let v := eval vm_compute in (Py.lit s%string) in exact v))
  (at level 1, s at level 0, only parsing).

(** ** Exceptions and the error monad *)

(** The exception classes [fetch_webpage] tells apart, in the order of
    its [except] clauses.  [requests] raises [HTTPError] from
    [raise_for_status], which attaches the response: the constructor
    carries its [status_code].  [Exception] stands for every other
    exception class, with [type(e).__name__] and [str(e)]. *)
Inductive exn : Type :=
| Timeout (msg : pystr)
| ConnectionError (msg : pystr)
| HTTPError (msg : pystr) (response_status_code : Z)
| RequestException (msg : pystr)
| Exception (type_name msg : pystr).

(** [str(e)] *)
Definition exn_str (e : exn) : pystr :=
  match e with
  | Timeout m | ConnectionError m | HTTPError m _
  | RequestException m | Exception _ m => m
  end.

Inductive result (A : Type) : Type :=
| Ok (a : A)
| Raise (e : exn).
Arguments Ok {A} a.
Arguments Raise {A} e.

#[global] Instance result_ret : MRet result := fun _ a => Ok a.
#[global] Instance result_bind : MBind result := fun _ _ f c =>
  match c with
  | Ok a => f a
  | Raise e => Raise e
  end.

(** ** Configuration ([WebReaderConfig]) *)

Record WebReaderConfig : Type := {
  DEFAULT_TIMEOUT : Z;
  MAX_CONTENT_LENGTH : Z;
  USER_AGENT : pystr;
  EXTRACT_LINKS : bool;
  EXTRACT_IMAGES : bool
}.

(** The bounds of the [Field] declarations ([ge], [le]). *)
Definition config_ok (config : WebReaderConfig) : Prop :=
  5 <= DEFAULT_TIMEOUT config <= 300 /\
  1000 <= MAX_CONTENT_LENGTH config <= 100000.

Definition default_config : WebReaderConfig := {|
  DEFAULT_TIMEOUT := 30;
  MAX_CONTENT_LENGTH := 15000;
  USER_AGENT := py"Mozilla/5.0 (Windows NT 10.0; Win64; x64) AppleWebKit/537.36 (KHTML, like Gecko) Chrome/120.0.0.0 Safari/537.36";
  EXTRACT_LINKS := true;
  EXTRACT_IMAGES := true
|}.

(** ** The collaborators, as interfaces *)

(** One call [requests.get(url, timeout=..., headers=..., allow_redirects=...)]. *)
Record Request : Type := {
  req_url : pystr;
  req_timeout : Z;
  req_headers : list (pystr * pystr);
  req_allow_redirects : bool
}.

(** What the plugin reads of a [requests.Response]; [text] is the body
    decoded under the encoding set on the response. *)
Record Response : Type := {
  status_code : Z;
  encoding : option pystr;
  apparent_encoding : option pystr;
  text : pystr -> pystr
}.

(** The [requests] module. *)
Record Requests : Type := {
  get : Request -> result Response;
  raise_for_status : Response -> result unit
}.

(** [urllib.parse] *)
Record ParseResult : Type := { scheme : pystr; netloc : pystr }.

Class Urllib : Type := {
  urlparse : pystr -> result ParseResult;
  urljoin : pystr -> pystr -> result pystr
}.

(** [str.lower]; on ASCII text it lowers the letters A-Z and nothing else. *)
Class Unicode : Type := {
  lower : pystr -> pystr;
  lower_ascii : forall s, Py.is_ascii s -> lower s = map Py.ascii_lower s
}.

(** The patterns of the simplified mode, each with its flags:
    [re.search(r'<title[^>]*>([^<]+)</title>', s, re.IGNORECASE)] with its
    group 1, and the three [re.sub(pattern, '', s)]. *)
Class Re : Type := {
  search_title : pystr -> option pystr;
  sub_script : pystr -> pystr;
  sub_style : pystr -> pystr;
  sub_tags : pystr -> pystr
}.

(** The part of a BeautifulSoup document the plugin uses.
    [find s name attrs] is [s.find(name, attrs=attrs)];
    [find_all s name with_attr] is [s.find_all(name)], or
    [s.find_all(name, attr=True)] when [with_attr] names an attribute;
    [decompose_all s names] is [for tag in s(names): tag.decompose()];
    [get_text t sep strip] is [t.get_text(separator=sep, strip=strip)];
    [attr t name] is [t.get(name)]. *)
Class DocumentTree (soup tag : Type) : Type := {
  find : soup -> pystr -> list (pystr * pystr) -> option tag;
  find_all : soup -> pystr -> option pystr -> list tag;
  decompose_all : soup -> list pystr -> soup;
  select_one : soup -> pystr -> option tag;
  get_text : tag -> pystr -> bool -> pystr;
  attr : tag -> pystr -> option pystr
}.

(** ** The plugin *)

(** [extract_metadata] returns a dict with exactly these four keys. *)
Record Metadata : Type := {
  title : pystr;
  description : pystr;
  keywords : pystr;
  author : pystr
}.

(** An entry of the list [extract_links] returns: [{'text': ..., 'url': ...}]. *)
Record Link : Type := { link_text : pystr; link_url : pystr }.

(** [a or b] where [a] and [b] are [None] or a tag: a tag is always true. *)
Definition tag_or {tag : Type} (a b : option tag) : option tag :=
  match a with
  | Some _ => a
  | None => b
  end.

(** [a or b] where [a] and [b] are [None] or a string. *)
Definition str_or (a b : option pystr) : option pystr :=
  match a with
  | Some s => if Py.truthy s then a else b
  | None => b
  end.

(** [not src] for [src] that is [None] or a string. *)
Definition falsy (src : option pystr) : bool :=
  match src with
  | Some s => negb (Py.truthy s)
  | None => true
  end.

(** [absolute_url.startswith(('http://', 'https://'))] *)
Definition is_http (absolute_url : pystr) : bool :=
  Py.startswith (py"http://") absolute_url ||
  Py.startswith (py"https://") absolute_url.

Section WebReader.
Context {soup tag : Type}.
Context `{!DocumentTree soup tag} `{!Urllib} `{!Unicode} `{!Re}.

(** *** [WebContentExtractor] *)

Definition clean_text (text : pystr) : pystr :=
  let text := Py.sub_ws false text in
  let text := Py.strip text in
  text.

(** [tag.get('content', '').strip()] when there is a tag, else the empty string. *)
Definition content_of (t : option tag) : pystr :=
  match t with
  | Some t => Py.strip (default [] (attr t (py"content")))
  | None => []
  end.

Definition extract_metadata (s : soup) : Metadata :=
  let title_tag := find s (py"title") [] in
  let desc_tag :=
    tag_or (find s (py"meta") [(py"name", py"description")])
           (find s (py"meta") [(py"property", py"og:description")]) in
  let keywords_tag := find s (py"meta") [(py"name", py"keywords")] in
  let author_tag :=
    tag_or (find s (py"meta") [(py"name", py"author")])
           (find s (py"meta") [(py"property", py"article:author")]) in
  {| title := match title_tag with
              | Some t => Py.strip (get_text t [] false)
              | None => py"无标题"
              end;
     description := content_of desc_tag;
     keywords := content_of keywords_tag;
     author := content_of author_tag |}.

Definition removed_tags : list pystr :=
  [py"script"; py"style"; py"nav"; py"header"; py"footer"; py"aside";
   py"iframe"; py"noscript"].

Definition content_selectors : list pystr :=
  [py"article"; py"[role=" ++ [Py.dquote] ++ py"main" ++ [Py.dquote] ++ py"]"; py"main"; py".article-content";
   py".post-content"; py".entry-content"; py"#content"; py".content"].

(** The loop over [content_selectors]: the first selector that matches
    ends it; without a match [main_content] is left [None]. *)
Fixpoint select_first (s : soup) (selectors : list pystr) : option tag :=
  match selectors with
  | [] => None
  | selector :: rest =>
    match select_one s selector with
    | Some main_content => Some main_content
    | None => select_first s rest
    end
  end.

(** [extract_main_content] changes the document it is given: the result
    carries the document without the removed tags. *)
Definition extract_main_content (s : soup) : soup * pystr :=
  let s := decompose_all s removed_tags in
  let main_content := select_first s content_selectors in
  let main_content :=
    match main_content with
    | Some _ => main_content
    | None => find s (py"body") []
    end in
  match main_content with
  | None => (s, [])
  | Some main_content =>
    let text := get_text main_content [Py.nl] true in
    (s, clean_text text)
  end.

(** The loop of [extract_links], with its state [links], [seen_urls]. *)
Fixpoint links_loop (base_url : pystr) (limit : Z) (tags : list tag)
    (links : list Link) (seen_urls : gset pystr) : result (list Link) :=
  match tags with
  | [] => Ok links
  | a_tag :: rest =>
    if Py.len_list links >=? limit then Ok links
    else
      let href := Py.strip (default [] (attr a_tag (py"href"))) in
      let text := Py.strip (get_text a_tag [] false) in
      if negb (Py.truthy href) || Py.startswith (py"#") href
         || Py.startswith (py"javascript:") href
      then links_loop base_url limit rest links seen_urls
      else
        absolute_url ← urljoin base_url href;
        if decide (absolute_url ∈ seen_urls)
        then links_loop base_url limit rest links seen_urls
        else
          let seen_urls := {[absolute_url]} ∪ seen_urls in
          if is_http absolute_url
          then links_loop base_url limit rest
                 (links ++ [{| link_text := if Py.truthy text
                                            then Py.slice_to text 50
                                            else py"无文本";
                               link_url := absolute_url |}])
                 seen_urls
          else links_loop base_url limit rest links seen_urls
  end.

Definition extract_links (s : soup) (base_url : pystr) (limit : Z)
    : result (list Link) :=
  links_loop base_url limit (find_all s (py"a") (Some (py"href"))) [] ∅.

Definition excluded_words : list pystr :=
  [py"icon"; py"logo"; py"1x1"; py"pixel"].

(** [img_tag.get('src') or img_tag.get('data-src') or img_tag.get('data-lazy-src')] *)
Definition image_src (img_tag : tag) : option pystr :=
  str_or (str_or (attr img_tag (py"src")) (attr img_tag (py"data-src")))
         (attr img_tag (py"data-lazy-src")).

(** The loop of [extract_images], with its state [images], [seen_urls]. *)
Fixpoint images_loop (base_url : pystr) (limit : Z) (tags : list tag)
    (images : list pystr) (seen_urls : gset pystr) : result (list pystr) :=
  match tags with
  | [] => Ok images
  | img_tag :: rest =>
    if Py.len_list images >=? limit then Ok images
    else
      let src := image_src img_tag in
      if falsy src
      then images_loop base_url limit rest images seen_urls
      else
        absolute_url ← urljoin base_url (Py.strip (default [] src));
        if bool_decide (absolute_url ∈ seen_urls) || negb (is_http absolute_url)
        then images_loop base_url limit rest images seen_urls
        else if existsb (fun x => Py.contains x (lower absolute_url))
                        excluded_words
        then images_loop base_url limit rest images seen_urls
        else images_loop base_url limit rest
               (images ++ [absolute_url]) ({[absolute_url]} ∪ seen_urls)
  end.

Definition extract_images (s : soup) (base_url : pystr) (limit : Z)
    : result (list pystr) :=
  images_loop base_url limit (find_all s (py"img") None) [] ∅.

End WebReader.

(** *** [fetch_webpage] *)

(** ["=" * 60] *)
Definition rule : pystr := Py.times (py"=") 60.

(** The notice appended to a cut text: two line feeds and the words. *)
Definition truncation_marker : pystr :=
  [Py.nl; Py.nl] ++ py"... (内容已截断)".

Definition no_content_placeholder : pystr := py"（未找到主要内容）".

(** [timeout or config.DEFAULT_TIMEOUT] *)
Definition effective_timeout (config : WebReaderConfig) (timeout : option Z) : Z :=
  match timeout with
  | Some t => if t =? 0 then DEFAULT_TIMEOUT config else t
  | None => DEFAULT_TIMEOUT config
  end.

(** The encoding left on the response by
    [if response.encoding: ... else: response.encoding = response.apparent_encoding or 'utf-8']. *)
Definition response_encoding (response : Response) : pystr :=
  let fallback :=
    match apparent_encoding response with
    | Some a => Py.or_else a (py"utf-8")
    | None => py"utf-8"
    end in
  match encoding response with
  | Some e => if Py.truthy e then e else fallback
  | None => fallback
  end.

(** [for i, x in enumerate(l, start): output_parts.extend(f i x)] *)
Fixpoint enumerate_from {A : Type} (f : Z -> A -> list pystr) (start : Z)
    (l : list A) : list pystr :=
  match l with
  | [] => []
  | x :: rest => f start x ++ enumerate_from f (start + 1) rest
  end.

(** The first lines of the report: the facts about the page. *)
Definition report_info (url : pystr) (metadata : Metadata)
    (response_status_code : Z) (response_encoding : pystr) : list pystr :=
  [rule; py"📄 网页信息"; rule;
   py"🔗 URL: " ++ url;
   py"📌 标题: " ++ title metadata;
   py"✅ 状态码: " ++ Py.str_of_int response_status_code;
   py"🌐 编码: " ++ response_encoding]
  ++ (if Py.truthy (description metadata)
      then [py"📝 描述: " ++ description metadata] else [])
  ++ (if Py.truthy (author metadata)
      then [py"✍️ 作者: " ++ author metadata] else [])
  ++ (if Py.truthy (keywords metadata)
      then [py"🏷️ 关键词: " ++ keywords metadata] else []).

(** The lines up to and including the heading of the main content. *)
Definition report_head (url : pystr) (metadata : Metadata)
    (response_status_code : Z) (response_encoding : pystr) : list pystr :=
  report_info url metadata response_status_code response_encoding
  ++ [[]; rule; py"📖 主要内容"; rule].

(** The entry of [output_parts] that shows the main text: the text cut at
    [max_length], with the notice when something was cut, or the
    placeholder when there is no text. *)
Definition content_preview (max_length : Z) (main_text : pystr) : pystr :=
  if Py.truthy main_text
  then
    let preview := Py.slice_to main_text max_length in
    if Py.len main_text >? max_length
    then preview ++ truncation_marker
    else preview
  else no_content_placeholder.

(** [f"\n📊 总字数: {len(main_text)}"] *)
Definition total_line (main_text : pystr) : pystr :=
  [Py.nl] ++ py"📊 总字数: " ++ Py.str_of_int (Py.len main_text).

Definition report_links (links : list Link) : list pystr :=
  match links with
  | [] => []
  | _ =>
    [[]; rule;
     py"🔗 重要链接 (共" ++ Py.str_of_int (Py.len_list links) ++ py"个)";
     rule]
    ++ enumerate_from
         (fun i link => [Py.str_of_int i ++ py". " ++ link_text link;
                         py"   " ++ link_url link]) 1 links
  end.

Definition report_images (images : list pystr) : list pystr :=
  match images with
  | [] => []
  | _ =>
    [[]; rule;
     py"🖼️ 图片资源 (共" ++ Py.str_of_int (Py.len_list images) ++ py"个)";
     rule]
    ++ enumerate_from
         (fun i img_url => [Py.str_of_int i ++ py". " ++ img_url]) 1 images
  end.

(** [output_parts] as it stands at ["\n".join(output_parts)]. *)
Definition output_parts (config : WebReaderConfig) (url : pystr)
    (metadata : Metadata) (response_status_code : Z)
    (response_encoding : pystr) (main_text : pystr)
    (links : list Link) (images : list pystr) : list pystr :=
  report_head url metadata response_status_code response_encoding
  ++ [content_preview (MAX_CONTENT_LENGTH config) main_text]
  ++ [total_line main_text]
  ++ report_links links
  ++ report_images images.

Definition format_report (config : WebReaderConfig) (url : pystr)
    (metadata : Metadata) (response_status_code : Z)
    (response_encoding : pystr) (main_text : pystr)
    (links : list Link) (images : list pystr) : pystr :=
  Py.join [Py.nl]
    (output_parts config url metadata response_status_code
       response_encoding main_text links images).

(** The report of the simplified mode (the [else] branch of [if bs4:]). *)
Definition format_simplified (max_length : Z) (url title : pystr)
    (response_status_code : Z) (response_encoding : pystr) (text : pystr)
    : pystr :=
  let preview := Py.slice_to text max_length in
  let preview :=
    if Py.len text >? max_length then preview ++ truncation_marker
    else preview in
  Py.join [Py.nl]
    [rule; py"📄 网页信息 (简化模式)"; rule;
     py"🔗 URL: " ++ url;
     py"📌 标题: " ++ title;
     py"✅ 状态码: " ++ Py.str_of_int response_status_code;
     py"🌐 编码: " ++ response_encoding;
     [];
     rule; py"📖 内容"; rule;
     preview;
     [];
     py"📊 总字数: " ++ Py.str_of_int (Py.len text);
     [];
     py"⚠️ 提示: 安装 beautifulsoup4 以获得更好的解析效果"].

Definition msg_no_requests : pystr := py"❌ 错误：requests包未安装".
Definition msg_no_bs4 : pystr := py"⚠️ 警告：BeautifulSoup未安装，将使用简化模式".
Definition msg_empty_url : pystr := py"❌ 错误：URL不能为空".
Definition msg_invalid_url (url : pystr) : pystr :=
  py"❌ 错误：无效的URL '" ++ url ++ py"'，需要包含 http:// 或 https://".
Definition msg_parse_failed (e : exn) : pystr :=
  py"❌ 错误：URL解析失败 - " ++ exn_str e.

(** [f"{timeout}"] for the local [timeout], an [int] or [None]. *)
Definition fmt_timeout (timeout : option Z) : pystr :=
  match timeout with
  | Some t => Py.str_of_int t
  | None => py"None"
  end.

(** The [except] clauses at the end of [fetch_webpage]; [timeout] is the
    local variable as the [try] block left it. *)
Definition on_exception (timeout : option Z) (e : exn) : pystr :=
  match e with
  | Timeout _ =>
    py"❌ 错误：请求超时（" ++ fmt_timeout timeout ++ py"秒），目标网站响应过慢"
  | ConnectionError _ =>
    py"❌ 错误：连接失败，请检查网络或目标网站是否可访问"
  | HTTPError _ status =>
    py"❌ 错误：HTTP " ++ Py.str_of_int status ++ py" - 服务器返回错误"
  | RequestException _ =>
    py"❌ 错误：请求异常 - " ++ exn_str e
  | Exception type_name _ =>
    py"❌ 错误：" ++ type_name ++ py": " ++ exn_str e
  end.

(** What a run of the [try] block leaves behind: the local [timeout], the
    requests sent, and the value returned or the exception raised. *)
Record Run : Type := {
  run_timeout : option Z;
  run_requests : list Request;
  run_result : result pystr
}.

Section FetchWebpage.
Context {soup tag : Type}.
Context `{!DocumentTree soup tag} `{!Urllib} `{!Unicode} `{!Re}.

(** The two modules of [dynamic_import_pkg]: [None] when the package is
    missing.  [bs4] is given by its constructor
    [BeautifulSoup(content, 'html.parser')]. *)
Variable requests : option Requests.
Variable bs4 : option (pystr -> pystr -> result soup).
Variable config : WebReaderConfig.

(** [links = []; if config.EXTRACT_LINKS: links = extractor.extract_links(soup, url, limit=10)] *)
Definition fetch_links (s : soup) (url : pystr) : result (list Link) :=
  if EXTRACT_LINKS config then extract_links s url 10 else Ok [].

(** [images = []; if config.EXTRACT_IMAGES: images = extractor.extract_images(soup, url, limit=5)] *)
Definition fetch_images (s : soup) (url : pystr) : result (list pystr) :=
  if EXTRACT_IMAGES config then extract_images s url 5 else Ok [].

(** The page as the parser branch reports it. *)
Definition parsed_report (BeautifulSoup : pystr -> pystr -> result soup)
    (url content : pystr) (response : Response) : result pystr :=
  s ← BeautifulSoup content (py"html.parser");
  let metadata := extract_metadata s in
  let '(s, main_text) := extract_main_content s in
  links ← fetch_links s url;
  images ← fetch_images s url;
  Ok (format_report config url metadata (status_code response)
        (response_encoding response) main_text links images).

(** The page as the simplified mode reports it. *)
Definition simplified_report (url content : pystr) (response : Response)
    : result pystr :=
  let title :=
    match search_title content with
    | Some group1 => Py.strip group1
    | None => py"无标题"
    end in
  let clean := sub_script content in
  let clean := sub_style clean in
  let text := sub_tags clean in
  let text := Py.strip (Py.sub_ws false text) in
  Ok (format_simplified (MAX_CONTENT_LENGTH config) url title
        (status_code response) (response_encoding response) text).

(** The [try] block. *)
Definition fetch_webpage_try (url : pystr) (timeout : option Z) : Run :=
  match requests with
  | None => {| run_timeout := timeout; run_requests := [];
               run_result := Ok msg_no_requests |}
  | Some requests =>
    match bs4 with
    | None => {| run_timeout := timeout; run_requests := [];
                 run_result := Ok msg_no_bs4 |}
    | Some _ =>
      if negb (Py.truthy url)
      then {| run_timeout := timeout; run_requests := [];
              run_result := Ok msg_empty_url |}
      else
        match urlparse url with
        | Raise e => {| run_timeout := timeout; run_requests := [];
                        run_result := Ok (msg_parse_failed e) |}
        | Ok parsed =>
          if negb (Py.truthy (scheme parsed) && Py.truthy (netloc parsed))
          then {| run_timeout := timeout; run_requests := [];
                  run_result := Ok (msg_invalid_url url) |}
          else
            let timeout := effective_timeout config timeout in
            let headers := [(py"User-Agent", USER_AGENT config)] in
            let request := {| req_url := url; req_timeout := timeout;
                              req_headers := headers;
                              req_allow_redirects := true |} in
            {| run_timeout := Some timeout;
               run_requests := [request];
               run_result :=
                 response ← get requests request;
                 _ ← raise_for_status requests response;
                 let content := text response (response_encoding response) in
                 match bs4 with
                 | Some BeautifulSoup =>
                   parsed_report BeautifulSoup url content response
                 | None => simplified_report url content response
                 end |}
        end
    end
  end.

(** [fetch_webpage]: the requests it sent and the string it returns. *)
Definition fetch_webpage (url : pystr) (timeout : option Z)
    : list Request * pystr :=
  let run := fetch_webpage_try url timeout in
  (run_requests run,
   match run_result run with
   | Ok report => report
   | Raise e => on_exception (run_timeout run) e
   end).

End FetchWebpage.

(** ** Reference instances of the collaborators

    Small executable stand-ins, enough to run the plugin on concrete
    documents: a document tree with the lookups the plugin uses, a part
    of [urllib.parse], ASCII lower-casing, the patterns of the
    simplified mode, and a client that refuses what [requests] refuses.
    The properties are proved over the interfaces; the stand-ins only
    run them on the sample pages. *)

Module Html.

Inductive node : Type :=
| Text (s : pystr)
| Element (name : pystr) (attrs : list (pystr * pystr)) (children : list node).

(** The parsed document: the children of the BeautifulSoup object. *)
Definition document : Type := list node.

Definition str_eqb (a b : pystr) : bool := bool_decide (a = b).

Fixpoint lookup_attr (k : pystr) (attrs : list (pystr * pystr)) : option pystr :=
  match attrs with
  | [] => None
  | (k', v) :: rest => if str_eqb k k' then Some v else lookup_attr k rest
  end.

Definition node_name (n : node) : pystr :=
  match n with
  | Text _ => []
  | Element name _ _ => name
  end.

Definition node_attr (n : node) (k : pystr) : option pystr :=
  match n with
  | Text _ => None
  | Element _ attrs _ => lookup_attr k attrs
  end.

(** The elements below and including [n], in document order. *)
Fixpoint elements (n : node) : list node :=
  match n with
  | Text _ => []
  | Element _ _ children => n :: flat_map elements children
  end.

Definition descendants (d : document) : list node := flat_map elements d.

(** The strings below [n], in document order. *)
Fixpoint strings (n : node) : list pystr :=
  match n with
  | Text s => [s]
  | Element _ _ children => flat_map strings children
  end.

Definition node_text (n : node) (separator : pystr) (strip : bool) : pystr :=
  if strip
  then Py.join separator (List.filter Py.truthy (map Py.strip (strings n)))
  else Py.join separator (strings n).

(** [n] without the elements named in [names]. *)
Fixpoint prune (names : list pystr) (n : node) : list node :=
  match n with
  | Text _ => [n]
  | Element name attrs children =>
    if existsb (str_eqb name) names then []
    else [Element name attrs (flat_map (prune names) children)]
  end.

Definition has_attrs (n : node) (attrs : list (pystr * pystr)) : bool :=
  forallb (fun kv => match node_attr n (fst kv) with
                     | Some v => str_eqb v (snd kv)
                     | None => false
                     end) attrs.

(** The words of a white-space separated attribute value. *)
Fixpoint words (acc : pystr) (s : pystr) : list pystr :=
  match s with
  | [] => match acc with [] => [] | _ => [rev acc] end
  | c :: s' =>
    if Py.isspace c
    then match acc with [] => words [] s' | _ => rev acc :: words [] s' end
    else words (c :: acc) s'
  end.

Definition has_class (n : node) (cls : pystr) : bool :=
  match node_attr n (py"class") with
  | Some v => existsb (str_eqb cls) (words [] v)
  | None => false
  end.

(** The selectors the plugin uses: [#id], [.class], [[attr="value"]]
    and a tag name. *)
Definition matches (selector : pystr) (n : node) : bool :=
  match selector with
  | 35%N :: id =>
    match node_attr n (py"id") with
    | Some v => str_eqb v id
    | None => false
    end
  | 46%N :: cls => has_class n cls
  | 91%N :: rest =>
    let k := Py.before (N.eqb 61) rest in
    let v := Py.before (N.eqb Py.dquote) (drop (S (S (length k))) rest) in
    has_attrs n [(k, v)]
  | name => str_eqb (node_name n) name
  end.

#[global] Instance tree : DocumentTree document node := {|
  find d name attrs :=
    List.find (fun n => str_eqb (node_name n) name && has_attrs n attrs)
              (descendants d);
  find_all d name with_attr :=
    List.filter (fun n => str_eqb (node_name n) name &&
                          match with_attr with
                          | Some k => bool_decide (is_Some (node_attr n k))
                          | None => true
                          end)
                (descendants d);
  decompose_all d names := flat_map (prune names) d;
  select_one d selector := List.find (matches selector) (descendants d);
  get_text := node_text;
  attr := node_attr
|}.

End Html.

Module Ref.

Definition is_alpha (c : N) : bool :=
  (((65 <=? c) && (c <=? 90)) || ((97 <=? c) && (c <=? 122)))%N.

Definition is_scheme_char (c : N) : bool :=
  (is_alpha c || ((48 <=? c) && (c <=? 57)) ||
   (c =? 43) || (c =? 45) || (c =? 46))%N.

Definition mem_char (c : N) (s : pystr) : bool := existsb (N.eqb c) s.

(** The scheme of [url], lowered, and what follows its colon. *)
Definition split_scheme (url : pystr) : pystr * pystr :=
  let head := Py.before (N.eqb 58) url in
  match head, Py.from (N.eqb 58) url with
  | c :: _, _ :: rest =>
    if is_alpha c && forallb is_scheme_char head
    then (map Py.ascii_lower head, rest)
    else ([], url)
  | _, _ => ([], url)
  end.

(** The network location after [//], and the path and the rest. *)
Definition split_netloc (rest : pystr) : pystr * pystr :=
  if Py.startswith (py"//") rest
  then
    let stop c := mem_char c (py"/?#") in
    (Py.before stop (drop 2 rest), Py.from stop (drop 2 rest))
  else ([], rest).

Definition parse (url : pystr) : result (pystr * pystr * pystr) :=
  let '(sch, rest) := split_scheme url in
  let '(loc, path) := split_netloc rest in
  if xorb (mem_char 91 loc) (mem_char 93 loc)
  then Raise (Exception (py"ValueError") (py"Invalid IPv6 URL"))
  else Ok (sch, loc, path).

(** The directory of a path: up to and including its last [/]. *)
Definition directory (path : pystr) : pystr :=
  rev (Py.from (N.eqb 47) (rev (Py.before (fun c => mem_char c (py"?#")) path))).

(** [urlparse] and [urljoin] on the URLs of the sample pages: a URL
    with a scheme and a host, and references that are such a URL, start
    with [/] or name a file next to the base.  It agrees with
    [urllib.parse] on those only: it does not remove dot segments
    ([.] and [..]), does not treat a query, a fragment or parameters
    apart from the path, and does not strip the white space and the
    control characters that [urllib.parse] takes off a URL. *)
#[global] Instance urllib : Urllib := {|
  urlparse url :=
    p ← parse url;
    Ok {| scheme := fst (fst p); netloc := snd (fst p) |};
  urljoin base url :=
    if negb (Py.truthy base) then Ok url
    else if negb (Py.truthy url) then Ok base
    else
      b ← parse base;
      r ← parse url;
      let '(bscheme, bnetloc, bpath) := b in
      let '(rscheme, rnetloc, rpath) := r in
      if Py.truthy rscheme && negb (Html.str_eqb rscheme bscheme)
      then Ok url
      else if Py.truthy rnetloc
      then Ok (bscheme ++ py":" ++ py"//" ++ rnetloc ++ rpath)
      else if Py.startswith (py"/") rpath
      then Ok (bscheme ++ py":" ++ py"//" ++ bnetloc ++ rpath)
      else Ok (bscheme ++ py":" ++ py"//" ++ bnetloc
               ++ Py.or_else (directory bpath) (py"/") ++ rpath)
|}.

#[global] Instance unicode : Unicode := {|
  lower := map Py.ascii_lower;
  lower_ascii := fun s _ => eq_refl
|}.

(** [s] starts with the lower-case [p], letter case apart. *)
Definition istartswith (p s : pystr) : bool :=
  Py.startswith p (map Py.ascii_lower (take (length p) s)).

Definition match_title (s : pystr) : option pystr :=
  if istartswith (py"<title") s
  then
    match Py.from (N.eqb 62) (drop 6 s) with
    | _ :: body =>
      let group1 := Py.before (N.eqb 60) body in
      if Py.truthy group1 &&
         istartswith (py"</title>") (Py.from (N.eqb 60) body)
      then Some group1 else None
    | [] => None
    end
  else None.

Fixpoint search (s : pystr) : option pystr :=
  match match_title s with
  | Some group1 => Some group1
  | None => match s with [] => None | _ :: s' => search s' end
  end.

(** What follows the first [close] in [s]. *)
Fixpoint after_close (close s : pystr) : option pystr :=
  if istartswith close s then Some (drop (length close) s)
  else match s with [] => None | _ :: s' => after_close close s' end.

(** [re.sub(r'<open[^>]*>.*?</open>', '', s, flags=re.DOTALL | re.IGNORECASE)] *)
Fixpoint sub_block (fuel : nat) (open close s : pystr) : pystr :=
  match fuel, s with
  | S fuel, c :: s' =>
    let matched :=
      if istartswith open s
      then match Py.from (N.eqb 62) (drop (length open) s) with
           | _ :: body => after_close close body
           | [] => None
           end
      else None in
    match matched with
    | Some rest => sub_block fuel open close rest
    | None => c :: sub_block fuel open close s'
    end
  | _, _ => s
  end.

(** [re.sub(r'<[^>]+>', '', s)] *)
Fixpoint sub_markup (fuel : nat) (s : pystr) : pystr :=
  match fuel, s with
  | S fuel, c :: s' =>
    if (c =? 60)%N && Py.truthy (Py.before (N.eqb 62) s')
       && Py.truthy (Py.from (N.eqb 62) s')
    then sub_markup fuel (drop 1 (Py.from (N.eqb 62) s'))
    else c :: sub_markup fuel s'
  | _, _ => s
  end.

#[global] Instance re : Re := {|
  search_title := search;
  sub_script s := sub_block (length s) (py"<script") (py"</script>") s;
  sub_style s := sub_block (length s) (py"<style") (py"</style>") s;
  sub_tags s := sub_markup (length s) s
|}.

(** [Session.get_adapter]: adapters are mounted for the prefixes
    [https://] and [http://], which are compared with the lowered
    URL. *)
Definition mounted (url : pystr) : bool :=
  is_http (map Py.ascii_lower url).

(** [InvalidSchema], a [RequestException], raised before any
    connection is made.  Its text is [requests]'s for a URL that holds
    a colon, does not start with [http] and has no quote or backslash:
    the URL is then shown as it was given, between single quotes. *)
Definition no_adapter (url : pystr) : exn :=
  RequestException
    (py"No connection adapters were found for '" ++ url ++ py"'").

(** A server that answers every request it gets with [page].  The
    client sends a request only for an [http://] or [https://] URL and
    refuses any other, and [raise_for_status] raises for the status
    codes 400 to 599, as [requests] does. *)
Definition server (page : Response) : Requests := {|
  get request :=
    if mounted (req_url request) then Ok page
    else Raise (no_adapter (req_url request));
  raise_for_status r :=
    if (400 <=? status_code r) && (status_code r <? 600)
    then Raise (HTTPError (Py.str_of_int (status_code r) ++ py" Error")
                          (status_code r))
    else Ok ()
|}.

(** A client whose every request fails with [e]. *)
Definition failing (e : exn) : Requests := {|
  get _ := Raise e;
  raise_for_status _ := Ok ()
|}.

(** A parser that reads every page as [d]. *)
Definition parser (d : Html.document) : pystr -> pystr -> result Html.document :=
  fun _ _ => Ok d.

Definition response_of (status : Z) (body : pystr) : Response := {|
  status_code := status;
  encoding := Some (py"utf-8");
  apparent_encoding := None;
  text _ := body
|}.

End Ref.

(** ** Sample pages

    Concrete documents and clients on which the plugin is run. *)

Module Sample.

Import Html.

Definition base : pystr := py"https://example.com/page".

Definition anchor (href text : pystr) : node :=
  Element (py"a") [(py"href", href)] [Text text].

Definition image (k src : pystr) : node := Element (py"img") [(k, src)] [].

Definition page_of (body : list node) : document :=
  [Element (py"html") []
     [Element (py"head") [] [Element (py"title") [] [Text (py"Sample")]];
      Element (py"body") [] body]].

(** Twelve anchors and seven images, all different. *)
Definition crowded : document :=
  page_of
    (map (fun i => anchor (py"/p" ++ Py.str_of_int i) (py"page")) (seqZ 1 12)
     ++ map (fun i => image (py"src") (py"/img" ++ Py.str_of_int i ++ py".png"))
            (seqZ 1 7)).

(** References that occur more than once. *)
Definition repeated : document :=
  page_of
    [anchor (py"/about") (py"About");
     anchor (py"mailto:team@example.com") (py"Mail");
     anchor (py"https://example.com/about") (py"About us");
     anchor (py"/contact") (py"Contact");
     anchor (py"/about") (py"More");
     image (py"src") (py"/a.png");
     image (py"data-src") (py"/a.png");
     image (py"src") (py"/b.png")].

(** An article next to a [.content] division. *)
Definition article_and_content : document :=
  page_of
    [Element (py"div") [(py"class", py"content")] [Text (py"Side text")];
     Element (py"article") [] [Text (py"Article text")]].

(** An article inside an [aside], and a [.content] division. *)
Definition article_in_aside : document :=
  page_of
    [Element (py"aside") []
       [Element (py"article") [] [Text (py"Teaser text")]];
     Element (py"div") [(py"class", py"content")] [Text (py"Body text")]].

(** Images with their source in different attributes. *)
Definition gallery : document :=
  page_of
    [image (py"src") (py"/logo.png");
     image (py"src") (py"/photo.png");
     Element (py"img") [(py"src", []); (py"data-src", py"/lazy.png")] [];
     image (py"data-lazy-src") (py"/late.png");
     image (py"src") (py"/Pixel.gif");
     image (py"src") (py"data:image/png;base64,AAAA");
     Element (py"img") [(py"alt", py"nothing")] []].

(** A server that answers 200 with a page, and one that answers 404. *)
Definition up : Requests :=
  Ref.server (Ref.response_of 200 (py"<html><body>Hello</body></html>")).

Definition missing : Requests := Ref.server (Ref.response_of 404 []).

End Sample.

(** Further pages and settings. *)

Module Cases.

Import Html.

(** An anchor and an image whose references are white space only. *)
Definition blank_anchor : node := Sample.anchor (py"  ") (py"Blank").

Definition blank_image : node := Sample.image (py"src") (py" ").

Definition blank : document :=
  Sample.page_of
    [Sample.anchor (py"/first") (py"First");
     blank_anchor;
     Sample.anchor (py"/second") (py"Second");
     Sample.image (py"src") (py"/x.png");
     blank_image;
     Sample.image (py"src") (py"/y.png")].

(** A page with a reference that [urljoin] rejects. *)
Definition broken_anchor : node :=
  Sample.anchor (py"http://[::1") (py"Broken").

Definition broken : document :=
  Sample.page_of [Sample.anchor (py"/fine") (py"Fine"); broken_anchor].

(** A description element without content, before an [og:description]
    element that has one. *)
Definition bare_description : node :=
  Element (py"meta") [(py"name", py"description")] [].

Definition shadowed : document :=
  [Element (py"html") []
     [Element (py"head") []
        [bare_description;
         Element (py"meta") [(py"property", py"og:description");
                             (py"content", py"From Open Graph")] []];
      Element (py"body") [] [Text (py"Text")]]].

(** A description that holds the words of the truncation notice after
    two line feeds. *)
Definition marked_description : pystr :=
  py"Notes" ++ [Py.nl; Py.nl] ++ py"... (内容已截断)".

Definition marked_head : node :=
  Element (py"head") []
    [Element (py"meta") [(py"name", py"description");
                         (py"content", marked_description)] []].

(** A page with that description and a short text, and one with that
    description and no text. *)
Definition marked : document :=
  [Element (py"html") []
     [marked_head; Element (py"body") [] [Text (py"Short text")]]].

Definition marked_empty : document :=
  [Element (py"html") [] [marked_head; Element (py"body") [] []]].

(** The configuration with both extractions switched off. *)
Definition quiet : WebReaderConfig := {|
  DEFAULT_TIMEOUT := DEFAULT_TIMEOUT default_config;
  MAX_CONTENT_LENGTH := MAX_CONTENT_LENGTH default_config;
  USER_AGENT := USER_AGENT default_config;
  EXTRACT_LINKS := false;
  EXTRACT_IMAGES := false
|}.

(** A response that declares no encoding; [gbk] is detected. *)
Definition undeclared : Response := {|
  status_code := 200;
  encoding := Some [];
  apparent_encoding := Some (py"gbk");
  text _ := []
|}.

End Cases.

(** ** Definitions used to state the properties *)

(** The request [fetch_webpage] sends for [url]. *)
Definition request_for (config : WebReaderConfig) (url : pystr)
    (timeout : option Z) : Request :=
  {| req_url := url;
     req_timeout := effective_timeout config timeout;
     req_headers := [(py"User-Agent", USER_AGENT config)];
     req_allow_redirects := true |}.

(** The class of an exception, as the [except] clauses see it. *)
Inductive exn_class : Type :=
| IsTimeout | IsConnectionError | IsHTTPError | IsRequestException | IsOther.

Definition class_of (e : exn) : exn_class :=
  match e with
  | Timeout _ => IsTimeout
  | ConnectionError _ => IsConnectionError
  | HTTPError _ _ => IsHTTPError
  | RequestException _ => IsRequestException
  | Exception _ _ => IsOther
  end.

(** The name of a class holds no space. *)
Definition class_name_ok (e : exn) : Prop :=
  match e with
  | Exception type_name _ => Py.space ∉ type_name
  | _ => True
  end.

(** The characters of a rendered integer: a minus sign or a digit. *)
Definition numeric (c : N) : Prop := (c = 45 \/ 48 <= c <= 57)%N.

Definition chars_of (s : string) : pystr :=
  map N_of_ascii (list_ascii_of_string s).

(** De-duplication as the specification words it: of the entries with one
    key the first is kept, and the entries kept stay in their order. *)
Fixpoint first_by {A : Type} (key : A -> pystr) (l : list A) : list A :=
  match l with
  | [] => []
  | x :: rest => x :: filter (fun y => key y <> key x) (first_by key rest)
  end.

(** What is left of the entries kept once those with a key in [seen] and
    those that [keep] rejects are taken out. *)
Definition unseen_kept {A : Type} (key : A -> pystr) (keep : A -> bool)
    (seen : gset pystr) (l : list A) : list A :=
  filter (fun x => keep x = true)
    (filter (fun x => key x ∉ seen) (first_by key l)).

(** The words of the truncation notice, which follow its two line
    feeds. *)
Definition truncation_words : pystr := py"... (内容已截断)".

(** A string without a line feed. *)
Definition one_line (s : pystr) : Prop := Py.nl ∉ s.

(** No line feed in what the report takes from the request, the response
    and the page, the main text apart. *)
Definition one_line_fields (url : pystr) (metadata : Metadata) (enc : pystr)
    (links : list Link) (images : list pystr) : Prop :=
  one_line url
  /\ one_line (title metadata) /\ one_line (description metadata)
  /\ one_line (author metadata) /\ one_line (keywords metadata)
  /\ one_line enc
  /\ Forall (fun link => one_line (link_text link)
                          /\ one_line (link_url link)) links
  /\ Forall one_line images.

(** Lines between which the truncation notice cannot arise when they are
    joined by line feeds: none holds a line feed, and none that follows
    an empty line starts with the words of the notice. *)
Fixpoint quiet (lines : list pystr) : Prop :=
  match lines with
  | [] => True
  | a :: rest =>
    Py.nl ∉ a
    /\ (a = [] -> match rest with
                  | b :: _ => Py.startswith truncation_words b = false
                  | [] => True
                  end)
    /\ quiet rest
  end.

(** An anchor whose href is empty or white space only. *)
Definition blank_href {soup tag : Type} `{!DocumentTree soup tag}
    (a_tag : tag) : bool :=
  forallb Py.isspace (default [] (attr a_tag (py"href"))).

(** The first three lines of every report. *)
Definition report_banner : pystr :=
  rule ++ [Py.nl] ++ py"📄 网页信息" ++ [Py.nl] ++ rule.

(** White space as [clean_text] leaves it inside a text: single spaces,
    never two in a row.  [after_space] tells that the character before
    [s] was a space. *)
Fixpoint single_spaced (after_space : bool) (s : pystr) : bool :=
  match s with
  | [] => true
  | c :: s' =>
    if Py.isspace c
    then negb after_space && (c =? Py.space)%N && single_spaced true s'
    else single_spaced false s'
  end.

(** The characters of a text that are not white space. *)
Definition visible (s : pystr) : pystr :=
  List.filter (fun c => negb (Py.isspace c)) s.

Section Specification.
Context {soup tag : Type}.
Context `{!DocumentTree soup tag} `{!Urllib} `{!Unicode}.

(** The link an anchor stands for: none when its href is empty, a
    fragment or a [javascript:] URI, or does not resolve. *)
Definition anchor_link (base_url : pystr) (a_tag : tag) : option Link :=
  let href := Py.strip (default [] (attr a_tag (py"href"))) in
  let text := Py.strip (get_text a_tag [] false) in
  if negb (Py.truthy href) || Py.startswith (py"#") href
     || Py.startswith (py"javascript:") href
  then None
  else match urljoin base_url href with
       | Ok absolute_url =>
         Some {| link_text := if Py.truthy text then Py.slice_to text 50
                              else py"无文本";
                 link_url := absolute_url |}
       | Raise _ => None
       end.

Definition link_kept (link : Link) : bool := is_http (link_url link).

(** Link extraction in the words of the specification: the anchors with
    a href in document order, resolved, de-duplicated by URL, the
    http(s) ones kept, up to [limit] of them. *)
Definition spec_links (s : soup) (base_url : pystr) (limit : Z) : list Link :=
  take (Z.to_nat limit)
    (filter (fun link => link_kept link = true)
       (first_by link_url
          (omap (anchor_link base_url)
             (find_all s (py"a") (Some (py"href")))))).

(** The URL an image element stands for: none without a source, or
    when the source does not resolve. *)
Definition image_url (base_url : pystr) (img_tag : tag) : option pystr :=
  let src := image_src img_tag in
  if falsy src then None
  else match urljoin base_url (Py.strip (default [] src)) with
       | Ok absolute_url => Some absolute_url
       | Raise _ => None
       end.

Definition image_kept (absolute_url : pystr) : bool :=
  is_http absolute_url &&
  negb (existsb (fun x => Py.contains x (lower absolute_url)) excluded_words).

(** Image extraction in the words of the specification. *)
Definition spec_images (s : soup) (base_url : pystr) (limit : Z)
    : list pystr :=
  take (Z.to_nat limit)
    (filter (fun u => image_kept u = true)
       (first_by id (omap (image_url base_url) (find_all s (py"img") None)))).

End Specification.

(** * Properties *)

(** ** Strings *)

Section Strings.

Lemma startswith_app (x s : pystr) : Py.startswith x (x ++ s) = true.
Proof.
  induction x as [|a x IH]; simpl; [reflexivity|].
  rewrite N.eqb_refl. exact IH.
Qed.

Lemma contains_startswith (x s : pystr) :
  Py.startswith x s = true -> Py.contains x s = true.
Proof. destruct s; simpl; intros ->; reflexivity. Qed.

Lemma contains_app (x a b : pystr) : Py.contains x (a ++ x ++ b) = true.
Proof.
  induction a as [|c a IH]; simpl.
  - apply contains_startswith, startswith_app.
  - rewrite IH. apply orb_true_r.
Qed.

Lemma join_split (sep p : pystr) (parts : list pystr) :
  p ∈ parts -> exists a b, Py.join sep parts = a ++ p ++ b.
Proof.
  induction parts as [|q parts IH]; intros Hin.
  - inversion Hin.
  - apply elem_of_cons in Hin as [->|Hin].
    + exists [], (match parts with [] => [] | _ => sep ++ Py.join sep parts end).
      destruct parts; simpl; [rewrite app_nil_r|]; reflexivity.
    + destruct (IH Hin) as (a & b & E). exists (q ++ sep ++ a), b.
      destruct parts as [|r parts]; [inversion Hin|].
      change (Py.join sep (q :: r :: parts))
        with (q ++ sep ++ Py.join sep (r :: parts)).
      rewrite E, <- !app_assoc. reflexivity.
Qed.

Lemma contains_join (sep p : pystr) (parts : list pystr) :
  p ∈ parts -> Py.contains p (Py.join sep parts) = true.
Proof.
  intros Hin. destruct (join_split sep p parts Hin) as (a & b & ->).
  apply contains_app.
Qed.

(** A string that lacks the first character of [x] does not contain [x]. *)
Lemma contains_absent_head (c : N) (x s : pystr) :
  c ∉ s -> Py.contains (c :: x) s = false.
Proof.
  induction s as [|d s IH]; intros Hc; simpl; [reflexivity|].
  apply not_elem_of_cons in Hc as [Hne Hc].
  apply N.eqb_neq in Hne. rewrite Hne, (IH Hc). reflexivity.
Qed.

Lemma sub_ws_no_nl (in_run : bool) (s : pystr) : Py.nl ∉ Py.sub_ws in_run s.
Proof.
  revert in_run. induction s as [|c s IH]; intros in_run; simpl.
  - apply not_elem_of_nil.
  - destruct (Py.isspace c) eqn:Hc.
    + destruct in_run; [apply IH|].
      apply not_elem_of_cons. split; [discriminate|apply IH].
    + apply not_elem_of_cons. split; [|apply IH].
      intros <-. discriminate Hc.
Qed.

Lemma lstrip_elem (c : N) (s : pystr) : c ∈ Py.lstrip s -> c ∈ s.
Proof.
  induction s as [|d s IH]; simpl; [tauto|].
  destruct (Py.isspace d); [|tauto].
  intros H. apply elem_of_cons. right. exact (IH H).
Qed.

Lemma strip_elem (c : N) (s : pystr) : c ∈ Py.strip s -> c ∈ s.
Proof.
  unfold Py.strip, Py.rstrip. intros H.
  apply lstrip_elem. apply list_elem_of_In, in_rev, list_elem_of_In.
  apply lstrip_elem. apply list_elem_of_In, in_rev, list_elem_of_In.
  exact H.
Qed.

Lemma slice_to_short (s : pystr) (n : Z) :
  Py.len s <= n -> Py.slice_to s n = s.
Proof.
  unfold Py.slice_to, Py.len. intros H.
  destruct (0 <=? n) eqn:E; [|lia].
  apply take_ge. lia.
Qed.

Lemma slice_to_long (s : pystr) (n : Z) :
  0 <= n -> n < Py.len s ->
  Py.slice_to s n = take (Z.to_nat n) s /\
  Py.len (take (Z.to_nat n) s) = n.
Proof.
  unfold Py.slice_to, Py.len. intros H0 H.
  destruct (0 <=? n) eqn:E; [|lia].
  split; [reflexivity|]. rewrite length_take. lia.
Qed.

Lemma truthy_nonempty (s : pystr) : Py.truthy s = true <-> s <> [].
Proof. destruct s; simpl; split; congruence. Qed.

End Strings.

(** ** The formatter: truncation, character count, empty text *)

Section Formatter.
Context {soup tag : Type}.
Context `{!DocumentTree soup tag}.

Lemma clean_text_no_nl (text : pystr) : Py.nl ∉ clean_text text.
Proof.
  unfold clean_text. intros H. apply strip_elem in H.
  exact (sub_ws_no_nl false text H).
Qed.

(** The text [extract_main_content] returns has no line feed. *)
Lemma extracted_text_no_nl (s : soup) : Py.nl ∉ (extract_main_content s).2.
Proof.
  unfold extract_main_content.
  destruct (select_first _ _); simpl; [apply clean_text_no_nl|].
  destruct (find _ _ _); simpl; [apply clean_text_no_nl|].
  apply not_elem_of_nil.
Qed.

Lemma marker_absent (s : pystr) :
  Py.nl ∉ s -> Py.contains truncation_marker s = false.
Proof. apply contains_absent_head. Qed.

Lemma content_preview_short (max_length : Z) (main_text : pystr) :
  Py.len main_text <= max_length -> main_text <> [] ->
  content_preview max_length main_text = main_text.
Proof.
  intros Hlen Hne. unfold content_preview.
  apply truthy_nonempty in Hne. rewrite Hne.
  rewrite slice_to_short by exact Hlen.
  destruct (Py.len main_text >? max_length) eqn:E; [lia|reflexivity].
Qed.

Lemma content_preview_long (max_length : Z) (main_text : pystr) :
  0 <= max_length -> Py.len main_text > max_length ->
  content_preview max_length main_text =
    take (Z.to_nat max_length) main_text ++ truncation_marker.
Proof.
  intros H0 Hlen. unfold content_preview.
  assert (Py.truthy main_text = true) as ->.
  { destruct main_text; [unfold Py.len in Hlen; simpl in Hlen; lia|reflexivity]. }
  destruct (slice_to_long main_text max_length H0) as [-> _]; [lia|].
  destruct (Py.len main_text >? max_length) eqn:E; [reflexivity|lia].
Qed.

Lemma content_preview_no_marker (max_length : Z) (main_text : pystr) :
  Py.len main_text <= max_length -> Py.nl ∉ main_text ->
  Py.contains truncation_marker (content_preview max_length main_text) = false.
Proof.
  intros Hlen Hnl. destruct main_text as [|c main_text].
  - vm_compute. reflexivity.
  - rewrite content_preview_short by (exact Hlen || discriminate).
    apply marker_absent, Hnl.
Qed.

Lemma output_parts_entries (config : WebReaderConfig) (url : pystr)
    (metadata : Metadata) (status : Z) (enc : pystr) (main_text : pystr)
    (links : list Link) (images : list pystr) :
  content_preview (MAX_CONTENT_LENGTH config) main_text
    ∈ output_parts config url metadata status enc main_text links images
  /\ total_line main_text
    ∈ output_parts config url metadata status enc main_text links images.
Proof.
  unfold output_parts. split.
  - apply elem_of_app; right. apply elem_of_app; left.
    apply elem_of_cons; left. reflexivity.
  - apply elem_of_app; right. apply elem_of_app; right.
    apply elem_of_app; left. apply elem_of_cons; left. reflexivity.
Qed.

Lemma content_preview_empty (max_length : Z) :
  content_preview max_length [] = py"（未找到主要内容）".
Proof. reflexivity. Qed.

Lemma output_parts_empty (config : WebReaderConfig) (url : pystr)
    (metadata : Metadata) (status : Z) (enc : pystr)
    (links : list Link) (images : list pystr) :
  output_parts config url metadata status enc [] links images =
    report_info url metadata status enc
    ++ [[]; rule; py"📖 主要内容"; rule; py"（未找到主要内容）";
        [Py.nl] ++ py"📊 总字数: " ++ Py.str_of_int 0]
    ++ report_links links ++ report_images images.
Proof.
  unfold output_parts, report_head.
  generalize (report_info url metadata status enc)
             (report_links links ++ report_images images).
  intros info rest.
  rewrite content_preview_empty, <- app_assoc. reflexivity.
Qed.

End Formatter.

(** ** [fetch_webpage]: dependencies, validation, time-out *)

Section Fetch.
Context {soup tag : Type}.
Context `{!DocumentTree soup tag} `{!Urllib} `{!Unicode} `{!Re}.

(** C1.  With [requests] present and [bs4] missing, [fetch_webpage]
    sends no request and returns the warning alone, whatever the URL:
    the check at the top of the [try] block returns before the page is
    fetched, so the simplified mode is never entered. *)
Theorem missing_parser_returns_warning (requests : Requests)
    (config : WebReaderConfig) (url : pystr) (timeout : option Z) :
  fetch_webpage (Some requests) (@None (pystr -> pystr -> result soup))
    config url timeout
  = ([], py"⚠️ 警告：BeautifulSoup未安装，将使用简化模式").
Proof. reflexivity. Qed.

(** What the simplified mode would report, were the branch reached. *)
Lemma simplified_report_ok (config : WebReaderConfig) (url content : pystr)
    (response : Response) :
  exists report, simplified_report config url content response = Ok report.
Proof. eexists. reflexivity. Qed.

Lemma effective_timeout_zero (config : WebReaderConfig) :
  effective_timeout config (Some 0) = effective_timeout config None.
Proof. reflexivity. Qed.


(** The requests sent all carry the effective time-out. *)
Lemma requests_sent (requests : option Requests)
    (bs4 : option (pystr -> pystr -> result soup))
    (config : WebReaderConfig) (url : pystr) (timeout : option Z) :
  (fetch_webpage requests bs4 config url timeout).1 = []
  \/ (fetch_webpage requests bs4 config url timeout).1
     = [request_for config url timeout].
Proof.
  unfold fetch_webpage, fetch_webpage_try. simpl.
  destruct requests as [requests|]; [|left; reflexivity].
  destruct bs4 as [BeautifulSoup|]; [|left; reflexivity].
  destruct (negb (Py.truthy url)); [left; reflexivity|].
  destruct (urlparse url) as [parsed|e0]; [|left; reflexivity].
  destruct (negb _); [left; reflexivity|].
  right. reflexivity.
Qed.


(** C6, as the code has it.  With both packages present, an empty URL,
    a URL that [urlparse] rejects and a URL without scheme or without
    host each end the call with their own error string and without a
    request.  Every other URL passes the check, whatever its scheme,
    and is handed to the HTTP client in one request; the check of the
    scheme is the client's: when it refuses the request, as [requests]
    does for a scheme other than http and https, the call ends with
    the error string of a request that failed. *)
Theorem url_validation (requests : Requests)
    (BeautifulSoup : pystr -> pystr -> result soup)
    (config : WebReaderConfig) (url : pystr) (timeout : option Z) :
  let out :=
    fetch_webpage (Some requests) (Some BeautifulSoup) config url timeout in
  (url = [] -> out = ([], py"❌ 错误：URL不能为空"))
  /\ (forall e, url <> [] -> urlparse url = Raise e ->
      out = ([], py"❌ 错误：URL解析失败 - " ++ exn_str e))
  /\ (forall parsed, url <> [] -> urlparse url = Ok parsed ->
      scheme parsed = [] \/ netloc parsed = [] ->
      out = ([], py"❌ 错误：无效的URL '" ++ url
                 ++ py"'，需要包含 http:// 或 https://"))
  /\ (forall parsed, url <> [] -> urlparse url = Ok parsed ->
      scheme parsed <> [] -> netloc parsed <> [] ->
      out.1 = [request_for config url timeout]
      /\ forall m,
           get requests (request_for config url timeout)
           = Raise (RequestException m) ->
           out.2 = py"❌ 错误：请求异常 - " ++ m).
Proof.
  intros out. subst out. unfold fetch_webpage, fetch_webpage_try.
  split; [intros ->; reflexivity|].
  split; [|split].
  - intros e Hne Hparse. apply truthy_nonempty in Hne.
    rewrite Hne, Hparse. reflexivity.
  - intros parsed Hne Hparse Hmissing. apply truthy_nonempty in Hne.
    rewrite Hne, Hparse. simpl negb at 1. cbv iota.
    assert (Py.truthy (scheme parsed) && Py.truthy (netloc parsed) = false)
      as ->.
    { destruct Hmissing as [-> | ->]; [reflexivity|apply andb_false_r]. }
    reflexivity.
  - intros parsed Hne Hparse Hs Hn.
    apply truthy_nonempty in Hne, Hs, Hn.
    rewrite Hne, Hparse, Hs, Hn. split; [reflexivity|].
    intros m Hrefused. cbn [run_result run_timeout snd].
    fold (request_for config url timeout). rewrite Hrefused. reflexivity.
Qed.

End Fetch.

(** ** [fetch_webpage]: failures *)

Section Digits.

Lemma string_of_uint_numeric (d : Decimal.uint) :
  Forall numeric (chars_of (NilEmpty.string_of_uint d)).
Proof.
  induction d; simpl; try constructor; try assumption;
    unfold numeric; right; cbn; lia.
Qed.

Lemma str_of_int_numeric (z : Z) : Forall numeric (Py.str_of_int z).
Proof.
  unfold Py.str_of_int. fold (chars_of (NilZero.string_of_int (Z.to_int z))).
  destruct (Z.to_int z) as [d|d]; simpl.
  - unfold NilZero.string_of_uint.
    destruct d; try apply string_of_uint_numeric.
    constructor; [right; cbn; lia|constructor].
  - constructor; [left; reflexivity|].
    unfold NilZero.string_of_uint.
    destruct d; try apply string_of_uint_numeric.
    constructor; [right; cbn; lia|constructor].
Qed.

Lemma numeric_absent (c : N) (s : pystr) :
  ~ numeric c -> Forall numeric s -> c ∉ s.
Proof.
  intros Hc Hs Hin. rewrite Forall_forall in Hs. exact (Hc (Hs c Hin)).
Qed.

Lemma fmt_timeout_plain (c : N) (timeout : option Z) :
  ~ numeric c -> c ∉ py"None" -> c ∉ fmt_timeout timeout.
Proof.
  intros Hc Hnone. destruct timeout as [t|]; simpl; [|exact Hnone].
  apply numeric_absent; [exact Hc|apply str_of_int_numeric].
Qed.

End Digits.

(** Compare two strings from their first characters on. *)
Ltac peel H := repeat (first [discriminate H | injection H as H]).

Lemma absent_by_eval (c : N) (s : pystr) :
  bool_decide (c ∈ s) = false -> c ∉ s.
Proof. apply bool_decide_eq_false. Qed.

Lemma present_by_eval (c : N) (s : pystr) :
  bool_decide (c ∈ s) = true -> c ∈ s.
Proof. apply bool_decide_eq_true. Qed.

Ltac closed_absent := apply absent_by_eval; vm_compute; reflexivity.

Section Messages.

Lemma colon_not_numeric : ~ numeric 58.
Proof. unfold numeric. lia. Qed.

(** The messages of the first three clauses hold no ASCII colon. *)
Lemma message_without_colon (timeout : option Z) (e : exn) :
  class_of e = IsTimeout \/ class_of e = IsConnectionError
  \/ class_of e = IsHTTPError ->
  58%N ∉ on_exception timeout e.
Proof.
  intros Hclass.
  destruct e as [m|m|m status|m|type_name m]; simpl in Hclass;
    try (exfalso; destruct Hclass as [?|[?|?]]; discriminate);
    unfold on_exception.
  - apply not_elem_of_app. split; [closed_absent|].
    apply not_elem_of_app. split; [|closed_absent].
    apply fmt_timeout_plain; [exact colon_not_numeric|closed_absent].
  - closed_absent.
  - apply not_elem_of_app. split; [closed_absent|].
    apply not_elem_of_app. split; [|closed_absent].
    apply numeric_absent; [exact colon_not_numeric|apply str_of_int_numeric].
Qed.

(** The message of the last clause holds one. *)
Lemma message_with_colon (timeout : option Z) (type_name m : pystr) :
  58%N ∈ on_exception timeout (Exception type_name m).
Proof.
  unfold on_exception, exn_str.
  apply elem_of_app. right. apply elem_of_app. right.
  apply elem_of_app. left. apply present_by_eval.
  vm_compute. reflexivity.
Qed.

Lemma before_app (stop : N -> bool) (k rest : pystr) :
  Forall (fun c => stop c = false) k ->
  Py.before stop (k ++ rest) = k ++ Py.before stop rest.
Proof.
  induction 1 as [|c k Hc _ IH]; simpl; [reflexivity|].
  rewrite Hc, IH. reflexivity.
Qed.

(** Up to its first space the message of the last clause is the class
    name and a colon; that of a request failure is four other
    characters. *)
Lemma other_is_not_request (t1 t2 : option Z) (type_name m m' : pystr) :
  Py.space ∉ type_name ->
  on_exception t1 (Exception type_name m)
    <> on_exception t2 (RequestException m').
Proof.
  intros Hname Heq. unfold on_exception, exn_str in Heq.
  simpl in Heq. peel Heq.
  apply (f_equal (Py.before (N.eqb Py.space))) in Heq.
  rewrite before_app in Heq.
  - simpl in Heq. apply (f_equal (@rev N)) in Heq.
    rewrite rev_app_distr in Heq. simpl in Heq. discriminate Heq.
  - apply Forall_forall. intros c Hc. apply N.eqb_neq.
    intros <-. exact (Hname Hc).
Qed.

(** Two exceptions of different classes get different messages. *)
Lemma messages_distinct (t1 t2 : option Z) (e1 e2 : exn) :
  class_of e1 <> class_of e2 -> class_name_ok e1 -> class_name_ok e2 ->
  on_exception t1 e1 <> on_exception t2 e2.
Proof.
  intros Hclass Hok1 Hok2 Heq.
  destruct e1 as [m1|m1|m1 s1|m1|k1 m1], e2 as [m2|m2|m2 s2|m2|k2 m2];
    simpl in Hclass; try (exfalso; apply Hclass; reflexivity);
    try (unfold on_exception, exn_str in Heq; simpl in Heq;
         discriminate Heq).
  - apply (message_without_colon t1 (Timeout m1)); [left; reflexivity|].
    rewrite Heq. apply message_with_colon.
  - apply (message_without_colon t1 (ConnectionError m1));
      [right; left; reflexivity|].
    rewrite Heq. apply message_with_colon.
  - apply (message_without_colon t1 (HTTPError m1 s1));
      [right; right; reflexivity|].
    rewrite Heq. apply message_with_colon.
  - exact (other_is_not_request t2 t1 k2 m2 m1 Hok2 (eq_sym Heq)).
  - apply (message_without_colon t2 (Timeout m2)); [left; reflexivity|].
    rewrite <- Heq. apply message_with_colon.
  - apply (message_without_colon t2 (ConnectionError m2));
      [right; left; reflexivity|].
    rewrite <- Heq. apply message_with_colon.
  - apply (message_without_colon t2 (HTTPError m2 s2));
      [right; right; reflexivity|].
    rewrite <- Heq. apply message_with_colon.
  - exact (other_is_not_request t1 t2 k1 m1 m2 Hok1 Heq).
Qed.

End Messages.

Section Failures.
Context {soup tag : Type}.
Context `{!DocumentTree soup tag} `{!Urllib} `{!Unicode} `{!Re}.

(** An exception leaves the [try] block only after the request was
    sent, when the local [timeout] holds the value used. *)
Lemma raise_after_request (requests : option Requests)
    (bs4 : option (pystr -> pystr -> result soup))
    (config : WebReaderConfig) (url : pystr) (timeout : option Z) (e : exn) :
  run_result (fetch_webpage_try requests bs4 config url timeout) = Raise e ->
  run_timeout (fetch_webpage_try requests bs4 config url timeout)
    = Some (effective_timeout config timeout).
Proof.
  unfold fetch_webpage_try.
  destruct requests as [requests|]; [|discriminate].
  destruct bs4 as [BeautifulSoup|]; [|discriminate].
  destruct (negb (Py.truthy url)); [discriminate|].
  destruct (urlparse url) as [parsed|e0]; [|discriminate].
  destruct (negb _); [discriminate|].
  reflexivity.
Qed.

Lemma fetch_webpage_raise (requests : option Requests)
    (bs4 : option (pystr -> pystr -> result soup))
    (config : WebReaderConfig) (url : pystr) (timeout : option Z) (e : exn) :
  run_result (fetch_webpage_try requests bs4 config url timeout) = Raise e ->
  (fetch_webpage requests bs4 config url timeout).2
    = on_exception (Some (effective_timeout config timeout)) e.
Proof.
  intros Hraise. unfold fetch_webpage. simpl.
  rewrite (raise_after_request _ _ _ _ _ _ Hraise), Hraise. reflexivity.
Qed.

(** C7.  [fetch_webpage] always returns a string: the value of the
    [try] block, or, when the block raises, the message of the clause
    that catches the exception.  A time-out is reported with the
    time-out value used, a connection failure with a fixed text, an
    HTTP error with the status code of its response, another request
    failure with its description, every other exception with the name
    of its class and its description; exceptions of different classes
    get different messages. *)
Theorem failures_become_messages (requests : option Requests)
    (bs4 : option (pystr -> pystr -> result soup))
    (config : WebReaderConfig) (url : pystr) (timeout : option Z) :
  let run := fetch_webpage_try requests bs4 config url timeout in
  let returned := (fetch_webpage requests bs4 config url timeout).2 in
  let used := effective_timeout config timeout in
  (run_result run = Ok returned
   \/ exists e, run_result run = Raise e
                /\ returned = on_exception (Some used) e)
  /\ (forall m, run_result run = Raise (Timeout m) ->
      returned = py"❌ 错误：请求超时（" ++ Py.str_of_int used
                 ++ py"秒），目标网站响应过慢")
  /\ (forall m, run_result run = Raise (ConnectionError m) ->
      returned = py"❌ 错误：连接失败，请检查网络或目标网站是否可访问")
  /\ (forall m status, run_result run = Raise (HTTPError m status) ->
      returned = py"❌ 错误：HTTP " ++ Py.str_of_int status
                 ++ py" - 服务器返回错误")
  /\ (forall m, run_result run = Raise (RequestException m) ->
      returned = py"❌ 错误：请求异常 - " ++ m)
  /\ (forall type_name m, run_result run = Raise (Exception type_name m) ->
      returned = py"❌ 错误：" ++ type_name ++ py": " ++ m)
  /\ (forall t1 t2 e1 e2,
      class_of e1 <> class_of e2 -> class_name_ok e1 -> class_name_ok e2 ->
      on_exception t1 e1 <> on_exception t2 e2).
Proof.
  intros run returned used.
  split.
  { destruct (run_result run) as [report|e] eqn:E.
    - left. subst returned. unfold fetch_webpage. simpl.
      fold run. rewrite E. reflexivity.
    - right. exists e. split; [reflexivity|].
      apply fetch_webpage_raise. exact E. }
  split; [intros m E; exact (fetch_webpage_raise _ _ _ _ _ _ E)|].
  split; [intros m E; exact (fetch_webpage_raise _ _ _ _ _ _ E)|].
  split; [intros m status E; exact (fetch_webpage_raise _ _ _ _ _ _ E)|].
  split; [intros m E; exact (fetch_webpage_raise _ _ _ _ _ _ E)|].
  split; [intros k m E; exact (fetch_webpage_raise _ _ _ _ _ _ E)|].
  intros t1 t2 e1 e2. apply messages_distinct.
Qed.

End Failures.

(** ** De-duplication *)

Lemma map_sublist {A B : Type} (f : A -> B) (l1 l2 : list A) :
  l1 `sublist_of` l2 -> map f l1 `sublist_of` map f l2.
Proof. induction 1; simpl; [constructor| apply sublist_skip | apply sublist_cons]; assumption. Qed.

Lemma elem_of_map {A B : Type} (f : A -> B) (l : list A) (y : B) :
  y ∈ map f l <-> exists x, y = f x /\ x ∈ l.
Proof. exact (list_elem_of_fmap f l y). Qed.

Section FirstBy.
Context {A : Type} (key : A -> pystr).

Lemma first_by_sublist (l : list A) : first_by key l `sublist_of` l.
Proof.
  induction l as [|x l IH]; simpl; [constructor|].
  apply sublist_skip. etransitivity; [apply sublist_filter|exact IH].
Qed.

Lemma first_by_keys (l : list A) (x : A) :
  x ∈ l -> exists y, y ∈ first_by key l /\ key y = key x.
Proof.
  induction l as [|a l IH]; intros Hin; [inversion Hin|].
  apply elem_of_cons in Hin as [->|Hin].
  - exists a. split; [left|reflexivity].
  - destruct (IH Hin) as (y & Hy & Hk).
    destruct (decide (key y = key a)) as [E|E].
    + exists a. split; [left|congruence].
    + exists y. split; [|exact Hk]. simpl. right.
      apply list_elem_of_filter. split; assumption.
Qed.

Lemma first_by_NoDup (l : list A) : NoDup (map key (first_by key l)).
Proof.
  induction l as [|a l IH]; simpl; [constructor|].
  apply NoDup_cons. split.
  - intros Hin. apply elem_of_map in Hin as (y & Hk & Hy).
    apply list_elem_of_filter in Hy as [Hne _]. congruence.
  - eapply sublist_NoDup; [exact IH|apply map_sublist, sublist_filter].
Qed.

(** An entry is kept exactly when no earlier entry has its key. *)
Lemma first_by_first (l : list A) (x : A) :
  x ∈ first_by key l <->
  exists i, l !! i = Some x /\
            forall j y, (j < i)%nat -> l !! j = Some y -> key y <> key x.
Proof.
  revert x. induction l as [|a l IH]; intros x; simpl.
  - split; [intros H; inversion H|intros (i & Hi & _); destruct i; discriminate].
  - rewrite elem_of_cons, list_elem_of_filter, IH. split.
    + intros [->|(Hne & i & Hi & Hfirst)].
      * exists 0%nat. split; [reflexivity|]. intros j y Hj. lia.
      * exists (S i). split; [exact Hi|]. intros [|j] y Hj Hy.
        -- injection Hy as <-. congruence.
        -- apply (Hfirst j y); [lia|exact Hy].
    + intros ([|i] & Hi & Hfirst).
      * left. injection Hi as ->. reflexivity.
      * right. split.
        -- intros E. exact (Hfirst 0%nat a ltac:(lia) eq_refl (eq_sym E)).
        -- exists i. split; [exact Hi|]. intros j y Hj Hy.
           apply (Hfirst (S j) y); [lia|exact Hy].
Qed.

Context (keep : A -> bool).

Lemma unseen_kept_nil (seen : gset pystr) : unseen_kept key keep seen [] = [].
Proof. reflexivity. Qed.

Lemma unseen_kept_NoDup (seen : gset pystr) (l : list A) :
  NoDup (map key (unseen_kept key keep seen l)).
Proof.
  eapply sublist_NoDup; [apply (first_by_NoDup l)|].
  apply map_sublist. unfold unseen_kept.
  etransitivity; apply sublist_filter.
Qed.

Lemma unseen_kept_fresh (seen : gset pystr) (l : list A) (x : A) :
  x ∈ unseen_kept key keep seen l -> (key x ∉ seen) /\ keep x = true.
Proof.
  unfold unseen_kept. rewrite !list_elem_of_filter. tauto.
Qed.

(** An entry whose key was seen adds nothing. *)
Lemma unseen_kept_seen (seen : gset pystr) (c : A) (l : list A) :
  key c ∈ seen ->
  unseen_kept key keep seen (c :: l) = unseen_kept key keep seen l.
Proof.
  intros Hseen. unfold unseen_kept. simpl. f_equal.
  rewrite filter_cons_False by (intros H; exact (H Hseen)).
  rewrite list_filter_filter. apply list_filter_iff.
  intros y. split; [tauto|]. intros Hy. split; [exact Hy|].
  intros E. rewrite E in Hy. exact (Hy Hseen).
Qed.

(** A new entry that is kept comes first; its key is seen from then on. *)
Lemma unseen_kept_keep (seen : gset pystr) (c : A) (l : list A) :
  key c ∉ seen -> keep c = true ->
  unseen_kept key keep seen (c :: l)
  = c :: unseen_kept key keep ({[key c]} ∪ seen) l.
Proof.
  intros Hnew Hkeep. unfold unseen_kept. simpl.
  rewrite filter_cons_True by exact Hnew.
  rewrite filter_cons_True by exact Hkeep.
  do 2 f_equal. rewrite list_filter_filter. apply list_filter_iff.
  intros y. set_solver.
Qed.

(** A new entry that is not kept, its key marked as seen. *)
Lemma unseen_kept_mark (seen : gset pystr) (c : A) (l : list A) :
  key c ∉ seen -> keep c = false ->
  unseen_kept key keep seen (c :: l)
  = unseen_kept key keep ({[key c]} ∪ seen) l.
Proof.
  intros Hnew Hkeep. unfold unseen_kept. simpl.
  rewrite filter_cons_True by exact Hnew.
  rewrite filter_cons_False by (rewrite Hkeep; discriminate).
  f_equal. rewrite list_filter_filter. apply list_filter_iff.
  intros y. set_solver.
Qed.

(** A new entry that is not kept, its key left unmarked: the entries
    with that key are all rejected later. *)
Lemma unseen_kept_skip (seen : gset pystr) (c : A) (l : list A) :
  keep c = false -> (forall y, key y = key c -> keep y = keep c) ->
  unseen_kept key keep seen (c :: l) = unseen_kept key keep seen l.
Proof.
  intros Hkeep Hsame. unfold unseen_kept. simpl.
  destruct (decide (key c ∈ seen)) as [Hseen|Hnew].
  - rewrite filter_cons_False by (intros H; exact (H Hseen)).
    f_equal. rewrite list_filter_filter. apply list_filter_iff.
    intros y. split; [tauto|]. intros Hy. split; [exact Hy|].
    intros E. rewrite E in Hy. exact (Hy Hseen).
  - rewrite filter_cons_True by exact Hnew.
    rewrite filter_cons_False by (rewrite Hkeep; discriminate).
    rewrite !list_filter_filter. apply list_filter_iff.
    intros y. split; [tauto|]. intros [Hk Hy]. repeat split; try assumption.
    intros E. rewrite (Hsame y E), Hkeep in Hk. discriminate.
Qed.

Lemma unseen_kept_empty (l : list A) :
  unseen_kept key keep ∅ l
  = filter (fun x => keep x = true) (first_by key l).
Proof.
  unfold unseen_kept. f_equal.
  induction (first_by key l) as [|x k IH]; [reflexivity|].
  rewrite filter_cons_True by set_solver. f_equal. exact IH.
Qed.

End FirstBy.

(** ** Link and image extraction *)

Section Loops.
Context {soup tag : Type}.
Context `{!DocumentTree soup tag} `{!Urllib} `{!Unicode}.

Lemma take_limit_full {A : Type} (limit : Z) (l k : list A) :
  (Py.len_list l >=? limit) = true -> Py.len_list l <= limit ->
  take (Z.to_nat limit) (l ++ k) = l.
Proof.
  unfold Py.len_list. intros Hge Hle.
  rewrite Z.geb_leb in Hge. apply Z.leb_le in Hge.
  apply take_app_length'. lia.
Qed.

Lemma below_limit {A : Type} (limit : Z) (l : list A) (x : A) :
  (Py.len_list l >=? limit) = false -> Py.len_list (l ++ [x]) <= limit.
Proof.
  unfold Py.len_list. intros Hlt.
  rewrite Z.geb_leb in Hlt. apply Z.leb_gt in Hlt.
  rewrite length_app. simpl. lia.
Qed.

Lemma take_limit_all {A : Type} (limit : Z) (l : list A) :
  Py.len_list l <= limit -> take (Z.to_nat limit) (l ++ []) = l.
Proof.
  unfold Py.len_list. intros Hle. rewrite app_nil_r.
  apply take_ge. lia.
Qed.

(** The loop of [extract_links] carries out the specification: from any
    state within the limit, it returns [links] followed by the entries
    the rest of the anchors contribute, cut at the limit. *)
Lemma links_loop_spec (base_url : pystr) (limit : Z) (tags : list tag) :
  forall (links : list Link) (seen_urls : gset pystr) (r : list Link),
    Py.len_list links <= limit ->
    links_loop base_url limit tags links seen_urls = Ok r ->
    r = take (Z.to_nat limit)
          (links ++ unseen_kept link_url link_kept seen_urls
                      (omap (anchor_link base_url) tags)).
Proof.
  induction tags as [|a_tag rest IH]; intros links seen_urls r Hle Hrun.
  - simpl in Hrun. injection Hrun as <-. symmetry.
    apply take_limit_all, Hle.
  - simpl in Hrun.
    destruct (Py.len_list links >=? limit) eqn:Hfull.
    { injection Hrun as <-. symmetry. apply take_limit_full; assumption. }
    change (omap (anchor_link base_url) (a_tag :: rest))
      with (match anchor_link base_url a_tag with
            | Some link => link :: omap (anchor_link base_url) rest
            | None => omap (anchor_link base_url) rest
            end).
    unfold anchor_link at 1.
    destruct (negb (Py.truthy _) || _ || _); [exact (IH _ _ _ Hle Hrun)|].
    destruct (urljoin base_url _) as [absolute_url|e]; [|discriminate].
    simpl in Hrun.
    destruct (decide (absolute_url ∈ seen_urls)) as [Hseen|Hnew].
    { rewrite unseen_kept_seen by exact Hseen. exact (IH _ _ _ Hle Hrun). }
    destruct (is_http absolute_url) eqn:Hhttp.
    + rewrite unseen_kept_keep by assumption.
      rewrite (IH _ _ _ (below_limit _ _ _ Hfull) Hrun).
      rewrite <- app_assoc. reflexivity.
    + rewrite unseen_kept_mark by assumption.
      exact (IH _ _ _ Hle Hrun).
Qed.

(** The same for the loop of [extract_images]. *)
Lemma images_loop_spec (base_url : pystr) (limit : Z) (tags : list tag) :
  forall (images : list pystr) (seen_urls : gset pystr) (r : list pystr),
    Py.len_list images <= limit ->
    images_loop base_url limit tags images seen_urls = Ok r ->
    r = take (Z.to_nat limit)
          (images ++ unseen_kept id image_kept seen_urls
                       (omap (image_url base_url) tags)).
Proof.
  induction tags as [|img_tag rest IH]; intros images seen_urls r Hle Hrun.
  - simpl in Hrun. injection Hrun as <-. symmetry.
    apply take_limit_all, Hle.
  - simpl in Hrun.
    destruct (Py.len_list images >=? limit) eqn:Hfull.
    { injection Hrun as <-. symmetry. apply take_limit_full; assumption. }
    change (omap (image_url base_url) (img_tag :: rest))
      with (match image_url base_url img_tag with
            | Some u => u :: omap (image_url base_url) rest
            | None => omap (image_url base_url) rest
            end).
    unfold image_url at 1.
    destruct (falsy (image_src img_tag)); [exact (IH _ _ _ Hle Hrun)|].
    destruct (urljoin base_url _) as [absolute_url|e]; [|discriminate].
    simpl in Hrun.
    destruct (decide (absolute_url ∈ seen_urls)) as [Hseen|Hnew].
    { rewrite bool_decide_eq_true_2 in Hrun by exact Hseen. simpl in Hrun.
      rewrite unseen_kept_seen by exact Hseen. exact (IH _ _ _ Hle Hrun). }
    rewrite bool_decide_eq_false_2 in Hrun by exact Hnew. simpl in Hrun.
    destruct (is_http absolute_url) eqn:Hhttp; simpl in Hrun.
    2:{ rewrite unseen_kept_skip.
        - exact (IH _ _ _ Hle Hrun).
        - unfold image_kept. rewrite Hhttp. reflexivity.
        - intros y E. unfold id in E. subst y. reflexivity. }
    match type of Hrun with
    | (if ?b then _ else _) = _ => destruct b eqn:Hword
    end.
    + rewrite unseen_kept_skip.
      * exact (IH _ _ _ Hle Hrun).
      * unfold image_kept. rewrite Hhttp. simpl. rewrite Hword. reflexivity.
      * intros y E. unfold id in E. subst y. reflexivity.
    + rewrite unseen_kept_keep;
        [|exact Hnew
         |unfold image_kept; rewrite Hhttp; simpl; rewrite Hword; reflexivity].
      rewrite (IH _ _ _ (below_limit _ _ _ Hfull) Hrun).
      rewrite <- app_assoc. reflexivity.
Qed.

Lemma extract_links_spec (s : soup) (base_url : pystr) (limit : Z)
    (links : list Link) :
  0 <= limit -> extract_links s base_url limit = Ok links ->
  links = spec_links s base_url limit.
Proof.
  intros Hlimit Hrun. unfold extract_links in Hrun.
  rewrite (links_loop_spec base_url limit _ [] ∅ links Hlimit Hrun).
  unfold spec_links. rewrite unseen_kept_empty. reflexivity.
Qed.

Lemma extract_images_spec (s : soup) (base_url : pystr) (limit : Z)
    (images : list pystr) :
  0 <= limit -> extract_images s base_url limit = Ok images ->
  images = spec_images s base_url limit.
Proof.
  intros Hlimit Hrun. unfold extract_images in Hrun.
  rewrite (images_loop_spec base_url limit _ [] ∅ images Hlimit Hrun).
  unfold spec_images. rewrite unseen_kept_empty. reflexivity.
Qed.

Lemma links_loop_returns (base_url : pystr) (limit : Z) (tags : list tag) :
  (forall b h, exists u, urljoin b h = Ok u) ->
  forall links seen_urls,
    exists r, links_loop base_url limit tags links seen_urls = Ok r.
Proof.
  intros Htotal.
  induction tags as [|a_tag rest IH]; intros links seen_urls; simpl.
  - eexists. reflexivity.
  - destruct (Py.len_list links >=? limit); [eexists; reflexivity|].
    destruct (negb (Py.truthy _) || _ || _); [apply IH|].
    destruct (Htotal base_url
                (Py.strip (default [] (attr a_tag (py"href"))))) as [u ->].
    simpl. destruct (decide (u ∈ seen_urls)); [apply IH|].
    destruct (is_http u); apply IH.
Qed.

Lemma images_loop_returns (base_url : pystr) (limit : Z) (tags : list tag) :
  (forall b h, exists u, urljoin b h = Ok u) ->
  forall images seen_urls,
    exists r, images_loop base_url limit tags images seen_urls = Ok r.
Proof.
  intros Htotal.
  induction tags as [|img_tag rest IH]; intros images seen_urls; simpl.
  - eexists. reflexivity.
  - destruct (Py.len_list images >=? limit); [eexists; reflexivity|].
    destruct (falsy (image_src img_tag)); [apply IH|].
    destruct (Htotal base_url
                (Py.strip (default [] (image_src img_tag)))) as [u ->].
    simpl. destruct (bool_decide (u ∈ seen_urls) || negb (is_http u));
      [apply IH|].
    match goal with
    | |- context [if ?b then _ else _] => destruct b
    end; apply IH.
Qed.

Lemma spec_links_length (s : soup) (base_url : pystr) (limit : Z) :
  0 <= limit -> Py.len_list (spec_links s base_url limit) <= limit.
Proof.
  intros Hlimit. unfold Py.len_list, spec_links. rewrite length_take. lia.
Qed.

Lemma spec_images_length (s : soup) (base_url : pystr) (limit : Z) :
  0 <= limit -> Py.len_list (spec_images s base_url limit) <= limit.
Proof.
  intros Hlimit. unfold Py.len_list, spec_images. rewrite length_take. lia.
Qed.

(** C3.  The list of links [fetch_webpage] extracts has at most 10
    entries and the list of images at most 5, whatever the document;
    in general each extraction returns at most [limit] entries.  The
    extractions do return when [urljoin] resolves every reference. *)
Theorem extraction_limits (config : WebReaderConfig) (s : soup)
    (url : pystr) :
  (forall links, fetch_links config s url = Ok links ->
                 (length links <= 10)%nat)
  /\ (forall images, fetch_images config s url = Ok images ->
                     (length images <= 5)%nat)
  /\ (forall limit links, 0 <= limit ->
        extract_links s url limit = Ok links -> Py.len_list links <= limit)
  /\ (forall limit images, 0 <= limit ->
        extract_images s url limit = Ok images ->
        Py.len_list images <= limit)
  /\ ((forall b h, exists u, urljoin b h = Ok u) ->
      (exists links, fetch_links config s url = Ok links)
      /\ (exists images, fetch_images config s url = Ok images)).
Proof.
  assert (Hlinks : forall limit links, 0 <= limit ->
            extract_links s url limit = Ok links ->
            Py.len_list links <= limit).
  { intros limit links Hlimit Hrun.
    rewrite (extract_links_spec _ _ _ _ Hlimit Hrun).
    apply spec_links_length, Hlimit. }
  assert (Himages : forall limit images, 0 <= limit ->
            extract_images s url limit = Ok images ->
            Py.len_list images <= limit).
  { intros limit images Hlimit Hrun.
    rewrite (extract_images_spec _ _ _ _ Hlimit Hrun).
    apply spec_images_length, Hlimit. }
  split; [|split; [|split; [exact Hlinks|split; [exact Himages|]]]].
  - intros links. unfold fetch_links.
    destruct (EXTRACT_LINKS config).
    + intros Hrun. pose proof (Hlinks 10 links ltac:(lia) Hrun) as Hlen.
      unfold Py.len_list in Hlen. lia.
    + intros [= <-]. simpl. lia.
  - intros images. unfold fetch_images.
    destruct (EXTRACT_IMAGES config).
    + intros Hrun. pose proof (Himages 5 images ltac:(lia) Hrun) as Hlen.
      unfold Py.len_list in Hlen. lia.
    + intros [= <-]. simpl. lia.
  - intros Htotal. unfold fetch_links, fetch_images. split.
    + destruct (EXTRACT_LINKS config); [|eexists; reflexivity].
      apply links_loop_returns, Htotal.
    + destruct (EXTRACT_IMAGES config); [|eexists; reflexivity].
      apply images_loop_returns, Htotal.
Qed.

Lemma elem_of_take_in {A : Type} (n : nat) (l : list A) (x : A) :
  x ∈ take n l -> x ∈ l.
Proof.
  intros (i & Hi & _)%elem_of_take. exact (list_elem_of_lookup_2 _ _ _ Hi).
Qed.

Lemma take_all_below {A : Type} (n : nat) (l : list A) :
  (length (take n l) < n)%nat -> take n l = l.
Proof. rewrite length_take. intros Hlt. apply take_ge. lia. Qed.

(** C4.  Each extraction returns what the specification describes:
    the references in document order, resolved, of the entries with one
    URL the first, the http(s) ones (for images those without an
    excluded word), cut at the limit.  So no URL occurs twice, every
    entry returned is the first of the document with its URL, the
    entries keep the order of the document, and below the limit no
    http(s) URL of the document is missing. *)
Theorem extraction_dedup (s : soup) (base_url : pystr) (limit : Z) :
  0 <= limit ->
  let anchors :=
    omap (anchor_link base_url) (find_all s (py"a") (Some (py"href"))) in
  let sources := omap (image_url base_url) (find_all s (py"img") None) in
  (forall links, extract_links s base_url limit = Ok links ->
     links = spec_links s base_url limit
     /\ NoDup (map link_url links)
     /\ links `sublist_of` anchors
     /\ (forall link, link ∈ links ->
          exists i, anchors !! i = Some link /\
            forall j earlier, (j < i)%nat -> anchors !! j = Some earlier ->
                              link_url earlier <> link_url link)
     /\ (Py.len_list links < limit ->
          forall link, link ∈ anchors -> is_http (link_url link) = true ->
                       link_url link ∈ map link_url links))
  /\ (forall images, extract_images s base_url limit = Ok images ->
     images = spec_images s base_url limit
     /\ NoDup images
     /\ images `sublist_of` sources
     /\ (forall u, u ∈ images ->
          exists i, sources !! i = Some u /\
            forall j earlier, (j < i)%nat -> sources !! j = Some earlier ->
                              earlier <> u)
     /\ (Py.len_list images < limit ->
          forall u, u ∈ sources -> image_kept u = true -> u ∈ images)).
Proof.
  intros Hlimit anchors sources. split.
  - intros links Hrun.
    pose proof (extract_links_spec _ _ _ _ Hlimit Hrun) as Hspec.
    fold anchors in Hspec. unfold spec_links in Hspec. fold anchors in Hspec.
    split; [exact Hspec|].
    assert (Hsub : links `sublist_of` filter (fun l => link_kept l = true)
                                        (first_by link_url anchors)).
    { rewrite Hspec. apply sublist_take. }
    split; [|split; [|split]].
    + eapply sublist_NoDup; [apply (first_by_NoDup link_url anchors)|].
      apply map_sublist. etransitivity; [exact Hsub|apply sublist_filter].
    + etransitivity; [exact Hsub|].
      etransitivity; [apply sublist_filter|apply first_by_sublist].
    + intros link Hin. apply first_by_first.
      eapply elem_of_sublist; [exact Hin|].
      etransitivity; [exact Hsub|apply sublist_filter].
    + intros Hbelow link Hin Hhttp.
      destruct (first_by_keys link_url anchors link Hin) as (y & Hy & Hkey).
      apply elem_of_map. exists y. split; [congruence|].
      rewrite Hspec, take_all_below.
      * apply list_elem_of_filter. split; [|exact Hy].
        unfold link_kept. rewrite Hkey. exact Hhttp.
      * rewrite <- Hspec. unfold Py.len_list in Hbelow. lia.
  - intros images Hrun.
    pose proof (extract_images_spec _ _ _ _ Hlimit Hrun) as Hspec.
    unfold spec_images in Hspec. fold sources in Hspec.
    split; [exact Hspec|].
    assert (Hsub : images `sublist_of` filter (fun u => image_kept u = true)
                                         (first_by id sources)).
    { rewrite Hspec. apply sublist_take. }
    split; [|split; [|split]].
    + eapply sublist_NoDup.
      * pose proof (first_by_NoDup id sources) as Hnd.
        rewrite map_id in Hnd. exact Hnd.
      * etransitivity; [exact Hsub|apply sublist_filter].
    + etransitivity; [exact Hsub|].
      etransitivity; [apply sublist_filter|apply first_by_sublist].
    + intros u Hin. apply (first_by_first id).
      eapply elem_of_sublist; [exact Hin|].
      etransitivity; [exact Hsub|apply sublist_filter].
    + intros Hbelow u Hin Hkept.
      destruct (first_by_keys id sources u Hin) as (y & Hy & Hkey).
      unfold id in Hkey. subst y.
      rewrite Hspec, take_all_below.
      * apply list_elem_of_filter. split; [exact Hkept|exact Hy].
      * rewrite <- Hspec. unfold Py.len_list in Hbelow. lia.
Qed.

End Loops.

(** ** Image sources and filters *)

Section Images.
Context {soup tag : Type}.
Context `{!DocumentTree soup tag} `{!Urllib} `{!Unicode}.

(** [src] when it is a non-empty string, else [data-src] when that is
    one, else [data-lazy-src]. *)
Lemma image_src_order (img_tag : tag) :
  image_src img_tag =
    if negb (falsy (attr img_tag (py"src")))
    then attr img_tag (py"src")
    else if negb (falsy (attr img_tag (py"data-src")))
         then attr img_tag (py"data-src")
         else attr img_tag (py"data-lazy-src").
Proof.
  unfold image_src, str_or, falsy.
  destruct (attr img_tag (py"src")) as [[|c src]|];
    destruct (attr img_tag (py"data-src")) as [[|d dsrc]|]; reflexivity.
Qed.

Lemma is_ascii_check (s : pystr) :
  forallb (fun c => (c <? 128)%N) s = true -> Py.is_ascii s.
Proof.
  intros Hall. apply Forall_forall. intros c Hc.
  rewrite forallb_forall in Hall. apply N.ltb_lt, Hall.
  apply list_elem_of_In, Hc.
Qed.

Lemma image_kept_sound (u : pystr) :
  image_kept u = true ->
  is_http u = true /\
  forall word, word ∈ excluded_words -> Py.contains word (lower u) = false.
Proof.
  unfold image_kept. intros [Hhttp Hwords]%andb_true_iff.
  split; [exact Hhttp|]. intros word Hword.
  apply negb_true_iff in Hwords.
  destruct (Py.contains word (lower u)) eqn:E; [|reflexivity].
  rewrite <- Hwords. symmetry. apply existsb_exists.
  exists word. split; [apply list_elem_of_In, Hword|exact E].
Qed.

Lemma image_kept_word (u word : pystr) :
  word ∈ excluded_words -> Py.contains word (lower u) = true ->
  image_kept u = false.
Proof.
  intros Hword Hin. destruct (image_kept u) eqn:E; [|reflexivity].
  destruct (image_kept_sound u E) as [_ Hnone].
  rewrite (Hnone word Hword) in Hin. discriminate.
Qed.

Lemma logo_not_kept :
  image_kept (py"https://example.com/logo.png") = false
  /\ image_kept (py"https://example.com/LOGO.png") = false.
Proof.
  split; apply (image_kept_word _ (py"logo"));
    try (apply list_elem_of_In; simpl; tauto);
    rewrite lower_ascii by (apply is_ascii_check; reflexivity);
    vm_compute; reflexivity.
Qed.

Lemma extract_images_negative (s : soup) (base_url : pystr) (limit : Z)
    (images : list pystr) :
  limit < 0 -> extract_images s base_url limit = Ok images -> images = [].
Proof.
  intros Hneg. unfold extract_images.
  destruct (find_all s (py"img") None) as [|img_tag rest]; simpl.
  - intros [= <-]. reflexivity.
  - assert ((Py.len_list (@nil pystr) >=? limit) = true) as ->.
    { unfold Py.len_list. simpl. rewrite Z.geb_leb. apply Z.leb_le. lia. }
    intros [= <-]. reflexivity.
Qed.

Lemma extract_images_kept (s : soup) (base_url : pystr) (limit : Z)
    (images : list pystr) (u : pystr) :
  extract_images s base_url limit = Ok images -> u ∈ images ->
  image_kept u = true
  /\ u ∈ omap (image_url base_url) (find_all s (py"img") None).
Proof.
  intros Hrun Hin. destruct (Z.lt_ge_cases limit 0) as [Hneg|Hlimit].
  { rewrite (extract_images_negative _ _ _ _ Hneg Hrun) in Hin.
    inversion Hin. }
  rewrite (extract_images_spec _ _ _ _ Hlimit Hrun) in Hin.
  unfold spec_images in Hin. apply elem_of_take_in in Hin.
  apply list_elem_of_filter in Hin as [Hkept Hin].
  split; [exact Hkept|].
  eapply elem_of_sublist; [exact Hin|apply first_by_sublist].
Qed.

(** C8.  Every URL [extract_images] returns comes from an image element
    of the document: it is the element's [src], or else [data-src], or
    else [data-lazy-src] (the first that is a non-empty string),
    stripped and resolved against the base URL; it starts with
    [http://] or [https://]; and lowered it contains none of [icon],
    [logo], [1x1], [pixel].  So [https://example.com/logo.png] is never
    returned, in whatever letter case. *)
Theorem image_extraction (s : soup) (base_url : pystr) (limit : Z)
    (images : list pystr) :
  extract_images s base_url limit = Ok images ->
  (forall u, u ∈ images ->
     exists img_tag src,
       img_tag ∈ find_all s (py"img") None
       /\ image_src img_tag = Some src /\ src <> []
       /\ urljoin base_url (Py.strip src) = Ok u
       /\ is_http u = true
       /\ forall word, word ∈ excluded_words ->
                       Py.contains word (lower u) = false)
  /\ (forall img_tag,
        image_src img_tag =
          if negb (falsy (attr img_tag (py"src")))
          then attr img_tag (py"src")
          else if negb (falsy (attr img_tag (py"data-src")))
               then attr img_tag (py"data-src")
               else attr img_tag (py"data-lazy-src"))
  /\ excluded_words = [py"icon"; py"logo"; py"1x1"; py"pixel"]
  /\ (py"https://example.com/logo.png") ∉ images
  /\ (py"https://example.com/LOGO.png") ∉ images.
Proof.
  intros Hrun. split; [|split; [exact image_src_order|split; [reflexivity|]]].
  - intros u Hin.
    destruct (extract_images_kept _ _ _ _ u Hrun Hin) as [Hkept Hsrc].
    apply list_elem_of_omap in Hsrc as (img_tag & Htag & Hurl).
    unfold image_url in Hurl.
    destruct (image_src img_tag) as [src|] eqn:Esrc; [|discriminate].
    simpl in Hurl. destruct (Py.truthy src) eqn:Etruthy; [|discriminate].
    simpl in Hurl.
    destruct (urljoin base_url (Py.strip src)) as [v|e] eqn:Ejoin;
      [|discriminate].
    injection Hurl as ->.
    exists img_tag, src. split; [exact Htag|]. split; [exact Esrc|].
    split; [apply truthy_nonempty, Etruthy|]. split; [exact Ejoin|].
    apply image_kept_sound, Hkept.
  - destruct logo_not_kept as [Hlower Hupper].
    split; intros Hin;
      destruct (extract_images_kept _ _ _ _ _ Hrun Hin) as [Hkept _];
      congruence.
Qed.

End Images.

(** ** Selection of the main content *)

Section MainContent.
Context {soup tag : Type}.
Context `{!DocumentTree soup tag}.

Lemma select_first_none (s : soup) (selectors : list pystr) :
  (forall selector, selector ∈ selectors -> select_one s selector = None) ->
  select_first s selectors = None.
Proof.
  induction selectors as [|selector rest IH]; intros Hnone; simpl.
  - reflexivity.
  - rewrite (Hnone selector) by (left).
    apply IH. intros sel Hsel. apply Hnone. right. exact Hsel.
Qed.

(** The first selector that matches decides. *)
Lemma select_first_match (s : soup) (selectors : list pystr) :
  forall (i : nat) (selector : pystr) (t : tag),
    selectors !! i = Some selector ->
    select_one s selector = Some t ->
    (forall j earlier, (j < i)%nat -> selectors !! j = Some earlier ->
                       select_one s earlier = None) ->
    select_first s selectors = Some t.
Proof.
  induction selectors as [|first rest IH]; intros i selector t Hi Hmatch Hnone.
  - destruct i; discriminate.
  - simpl. destruct i as [|i].
    + injection Hi as ->. rewrite Hmatch. reflexivity.
    + rewrite (Hnone 0%nat first ltac:(lia) eq_refl).
      apply (IH i selector t Hi Hmatch).
      intros j earlier Hj Hearlier.
      apply (Hnone (S j) earlier); [lia|exact Hearlier].
Qed.

(** C5, as the code has it.  [extract_main_content] first removes the
    script, style, nav, header, footer, aside, iframe and noscript
    elements from the document.  On what is left it tries the selectors
    in their order and returns the cleaned text of the first match, so
    an article element that is left decides whatever else matches;
    when no selector matches it returns the cleaned text of the body,
    and the empty string when there is no body. *)
Theorem main_content_selection (s : soup) :
  let pruned := decompose_all s removed_tags in
  let main_text := (extract_main_content s).2 in
  (extract_main_content s).1 = pruned
  /\ removed_tags = [py"script"; py"style"; py"nav"; py"header";
                    py"footer"; py"aside"; py"iframe"; py"noscript"]
  /\ content_selectors =
       [py"article"; py"[role=" ++ [Py.dquote] ++ py"main" ++ [Py.dquote] ++ py"]";
        py"main"; py".article-content"; py".post-content";
        py".entry-content"; py"#content"; py".content"]
  /\ (forall i selector t,
        content_selectors !! i = Some selector ->
        select_one pruned selector = Some t ->
        (forall j earlier, (j < i)%nat ->
           content_selectors !! j = Some earlier ->
           select_one pruned earlier = None) ->
        main_text = clean_text (get_text t [Py.nl] true))
  /\ (forall article,
        select_one pruned (py"article") = Some article ->
        main_text = clean_text (get_text article [Py.nl] true))
  /\ ((forall selector, selector ∈ content_selectors ->
                        select_one pruned selector = None) ->
      (forall body, find pruned (py"body") [] = Some body ->
                    main_text = clean_text (get_text body [Py.nl] true))
      /\ (find pruned (py"body") [] = None -> main_text = [])).
Proof.
  intros pruned main_text.
  assert (Hmatch : forall i selector t,
        content_selectors !! i = Some selector ->
        select_one pruned selector = Some t ->
        (forall j earlier, (j < i)%nat ->
           content_selectors !! j = Some earlier ->
           select_one pruned earlier = None) ->
        main_text = clean_text (get_text t [Py.nl] true)).
  { intros i selector t Hi Hsel Hnone. subst main_text.
    unfold extract_main_content. fold pruned.
    rewrite (select_first_match pruned content_selectors i selector t
               Hi Hsel Hnone).
    reflexivity. }
  split.
  { unfold extract_main_content. fold pruned.
    destruct (select_first pruned content_selectors); [reflexivity|].
    destruct (find pruned (py"body") []); reflexivity. }
  split; [reflexivity|]. split; [reflexivity|].
  split; [exact Hmatch|]. split.
  - intros article Harticle.
    apply (Hmatch 0%nat (py"article") article eq_refl Harticle).
    intros j earlier Hj. lia.
  - intros Hnone. subst main_text. unfold extract_main_content. fold pruned.
    rewrite (select_first_none pruned content_selectors Hnone).
    split.
    + intros body ->. reflexivity.
    + intros ->. reflexivity.
Qed.

End MainContent.

(** ** The properties on the sample pages *)

(** A page with twelve anchors and seven images yields ten links and
    five images at most. *)
Lemma extraction_limits_witness :
  exists links images,
    fetch_links default_config Sample.crowded Sample.base = Ok links
    /\ fetch_images default_config Sample.crowded Sample.base = Ok images
    /\ (length links <= 10)%nat /\ (length images <= 5)%nat
    /\ (12 <= length (find_all Sample.crowded (py"a") (Some (py"href"))))%nat
    /\ (7 <= length (find_all Sample.crowded (py"img") None))%nat.
Proof.
  destruct (extraction_limits default_config Sample.crowded Sample.base)
    as (Hlinks & Himages & _).
  destruct (fetch_links default_config Sample.crowded Sample.base)
    as [links|e] eqn:Elinks; [|vm_compute in Elinks; discriminate Elinks].
  destruct (fetch_images default_config Sample.crowded Sample.base)
    as [images|e] eqn:Eimages; [|vm_compute in Eimages; discriminate Eimages].
  exists links, images.
  split; [reflexivity|]. split; [reflexivity|].
  split; [exact (Hlinks links eq_refl)|].
  split; [exact (Himages images eq_refl)|].
  split; vm_compute; lia.
Defined.

(** On a page that repeats its references each URL is returned once, in
    the order of first appearance. *)
Lemma extraction_dedup_witness :
  0 <= 10
  /\ exists links images,
       extract_links Sample.repeated Sample.base 10 = Ok links
       /\ extract_images Sample.repeated Sample.base 10 = Ok images
       /\ NoDup (map link_url links) /\ NoDup images
       /\ map link_url links = [py"https://example.com/about";
                                py"https://example.com/contact"]
       /\ images = [py"https://example.com/a.png";
                    py"https://example.com/b.png"].
Proof.
  assert (Hlimit : 0 <= 10) by lia.
  split; [exact Hlimit|].
  destruct (extraction_dedup Sample.repeated Sample.base 10 Hlimit)
    as (Hlinks & Himages).
  destruct (extract_links Sample.repeated Sample.base 10)
    as [links|e] eqn:Elinks; [|vm_compute in Elinks; discriminate Elinks].
  destruct (extract_images Sample.repeated Sample.base 10)
    as [images|e] eqn:Eimages; [|vm_compute in Eimages; discriminate Eimages].
  exists links, images.
  split; [reflexivity|]. split; [reflexivity|].
  split; [exact (proj1 (proj2 (Hlinks links eq_refl)))|].
  split; [exact (proj1 (proj2 (Himages images eq_refl)))|].
  vm_compute in Elinks. vm_compute in Eimages.
  injection Elinks as <-. injection Eimages as <-.
  split; reflexivity.
Defined.

(** Of the images of the gallery the logo, the pixel and the data URL are
    left out; the sources come from [src], [data-src], [data-lazy-src]. *)
Lemma image_extraction_witness :
  exists images,
    extract_images Sample.gallery Sample.base 5 = Ok images
    /\ (py"https://example.com/logo.png") ∉ images
    /\ images = [py"https://example.com/photo.png";
                 py"https://example.com/lazy.png";
                 py"https://example.com/late.png"].
Proof.
  destruct (extract_images Sample.gallery Sample.base 5)
    as [images|e] eqn:Eimages; [|vm_compute in Eimages; discriminate Eimages].
  exists images. split; [reflexivity|].
  destruct (image_extraction Sample.gallery Sample.base 5 images Eimages)
    as (_ & _ & _ & Hlogo & _).
  split; [exact Hlogo|].
  vm_compute in Eimages. injection Eimages as <-. reflexivity.
Defined.

(** An article that is left after the removal decides, although the
    [.content] division comes first in the document. *)
Lemma main_content_selection_witness :
  let pruned := decompose_all Sample.article_and_content removed_tags in
  exists article division,
    select_one pruned (py"article") = Some article
    /\ select_one pruned (py".content") = Some division
    /\ get_text article [Py.nl] true = py"Article text"
    /\ get_text division [Py.nl] true = py"Side text"
    /\ (extract_main_content Sample.article_and_content).2 = py"Article text".
Proof.
  intros pruned.
  destruct (main_content_selection Sample.article_and_content)
    as (_ & _ & _ & _ & Harticle & _).
  fold pruned in Harticle.
  destruct (select_one pruned (py"article")) as [article|] eqn:Earticle;
    [|vm_compute in Earticle; discriminate Earticle].
  destruct (select_one pruned (py".content")) as [division|] eqn:Edivision;
    [|vm_compute in Edivision; discriminate Edivision].
  exists article, division.
  split; [reflexivity|]. split; [reflexivity|].
  rewrite (Harticle article eq_refl).
  vm_compute in Earticle. vm_compute in Edivision.
  injection Earticle as <-. injection Edivision as <-.
  split; [reflexivity|]. split; reflexivity.
Defined.

(** C5 as stated fails on a page whose article element lies inside an
    [aside]: the page contains an article element and a [.content]
    division with different text, and the main text is that of the
    division, the article having been removed with the [aside]. *)
Lemma article_inside_aside_is_skipped :
  let s := Sample.article_in_aside in
  exists article division,
    select_one s (py"article") = Some article
    /\ select_one s (py".content") = Some division
    /\ clean_text (get_text article [Py.nl] true) = py"Teaser text"
    /\ clean_text (get_text division [Py.nl] true) = py"Body text"
    /\ (extract_main_content s).2 = py"Body text"
    /\ (extract_main_content s).2 <> clean_text (get_text article [Py.nl] true).
Proof.
  eexists. eexists.
  split; [vm_compute; reflexivity|]. split; [vm_compute; reflexivity|].
  split; [vm_compute; reflexivity|]. split; [vm_compute; reflexivity|].
  split; [vm_compute; reflexivity|]. vm_compute. discriminate.
Qed.

(** The three error strings of the validation, a URL that passes, and an
    [ftp://] URL that passes and is refused by the client. *)
Lemma url_validation_witness :
  let fetch :=
    fetch_webpage (Some Sample.up) (Some (Ref.parser Sample.article_and_content))
      default_config in
  fetch [] None = ([], py"❌ 错误：URL不能为空")
  /\ fetch (py"not-a-url") None
     = ([], py"❌ 错误：无效的URL 'not-a-url'，需要包含 http:// 或 https://")
  /\ fetch (py"http://[::1") None
     = ([], py"❌ 错误：URL解析失败 - Invalid IPv6 URL")
  /\ (fetch (py"https://example.com/page") (Some 7)).1
     = [request_for default_config (py"https://example.com/page") (Some 7)]
  /\ (fetch (py"ftp://example.com/file.txt") None).1
     = [request_for default_config (py"ftp://example.com/file.txt") None]
  /\ (fetch (py"ftp://example.com/file.txt") None).2
     = py"❌ 错误：请求异常 - No connection adapters were found for 'ftp://example.com/file.txt'".
Proof.
  intros fetch.
  split.
  { exact (proj1 (url_validation Sample.up
                    (Ref.parser Sample.article_and_content) default_config
                    [] None) eq_refl). }
  split.
  { destruct (url_validation Sample.up
                (Ref.parser Sample.article_and_content) default_config
                (py"not-a-url") None) as (_ & _ & Hmissing & _).
    apply (Hmissing {| scheme := []; netloc := [] |}).
    - discriminate.
    - vm_compute. reflexivity.
    - left. reflexivity. }
  split.
  { destruct (url_validation Sample.up
                (Ref.parser Sample.article_and_content) default_config
                (py"http://[::1") None) as (_ & Hraise & _).
    apply (Hraise (Exception (py"ValueError") (py"Invalid IPv6 URL"))).
    - discriminate.
    - vm_compute. reflexivity. }
  split.
  { destruct (url_validation Sample.up
                (Ref.parser Sample.article_and_content) default_config
                (py"https://example.com/page") (Some 7))
      as (_ & _ & _ & Hpasses).
    apply (Hpasses {| scheme := py"https"; netloc := py"example.com" |}).
    - discriminate.
    - vm_compute. reflexivity.
    - discriminate.
    - discriminate. }
  destruct (url_validation Sample.up
              (Ref.parser Sample.article_and_content) default_config
              (py"ftp://example.com/file.txt") None) as (_ & _ & _ & Hpasses).
  destruct (Hpasses {| scheme := py"ftp"; netloc := py"example.com" |})
    as [Hsent Hrefused].
  - discriminate.
  - vm_compute. reflexivity.
  - discriminate.
  - discriminate.
  - split; [exact Hsent|].
    apply (Hrefused (py"No connection adapters were found for 'ftp://example.com/file.txt'")).
    vm_compute. reflexivity.
Defined.

(** C6 as stated fails where it names the string returned.  For a URL
    that [urlparse] rejects the call returns the string of a failed
    parse, and for the empty URL, which has neither scheme nor host, the
    string of an empty URL: neither is the string of an invalid URL,
    which [not-a-url] gets. *)
Lemma validation_strings_differ :
  let fetch :=
    fetch_webpage (Some Sample.up) (Some (Ref.parser Sample.article_and_content))
      default_config in
  urlparse (py"http://[::1")
  = Raise (Exception (py"ValueError") (py"Invalid IPv6 URL"))
  /\ fetch (py"http://[::1") None
     = ([], py"❌ 错误：URL解析失败 - Invalid IPv6 URL")
  /\ (fetch (py"http://[::1") None).2 <> msg_invalid_url (py"http://[::1")
  /\ urlparse [] = Ok {| scheme := []; netloc := [] |}
  /\ fetch [] None = ([], py"❌ 错误：URL不能为空")
  /\ (fetch [] None).2 <> msg_invalid_url []
  /\ fetch (py"not-a-url") None = ([], msg_invalid_url (py"not-a-url")).
Proof.
  split; [vm_compute; reflexivity|]. split; [vm_compute; reflexivity|].
  split; [vm_compute; discriminate|]. split; [vm_compute; reflexivity|].
  split; [vm_compute; reflexivity|]. split; [vm_compute; discriminate|].
  vm_compute. reflexivity.
Qed.

(** A time-out with a time-out of 7 seconds, and a 404 answer. *)
Lemma failures_become_messages_witness :
  let fetch requests :=
    (fetch_webpage (Some requests)
       (Some (Ref.parser Sample.article_and_content)) default_config
       (py"https://example.com/page")) in
  (fetch (Ref.failing (Timeout (py"Read timed out."))) (Some 7)).2
  = py"❌ 错误：请求超时（7秒），目标网站响应过慢"
  /\ (fetch Sample.missing None).2 = py"❌ 错误：HTTP 404 - 服务器返回错误".
Proof.
  intros fetch. split.
  - destruct (failures_become_messages
                (Some (Ref.failing (Timeout (py"Read timed out."))))
                (Some (Ref.parser Sample.article_and_content)) default_config
                (py"https://example.com/page") (Some 7))
      as (_ & Htimeout & _).
    apply (Htimeout (py"Read timed out.")). vm_compute. reflexivity.
  - destruct (failures_become_messages (Some Sample.missing)
                (Some (Ref.parser Sample.article_and_content)) default_config
                (py"https://example.com/page") None)
      as (_ & _ & _ & Hstatus & _).
    apply (Hstatus (py"404 Error") 404). vm_compute. reflexivity.
Defined.

(** ** The truncation notice in the report *)

Section Notice.

Lemma contains_past (c : N) (x a rest : pystr) :
  c ∉ a -> Py.contains (c :: x) (a ++ rest) = Py.contains (c :: x) rest.
Proof.
  induction a as [|d a IH]; intros Hc; [reflexivity|].
  apply not_elem_of_cons in Hc as [Hne Hc].
  change (Py.contains (c :: x) ((d :: a) ++ rest))
    with (Py.startswith (c :: x) (d :: a ++ rest)
          || Py.contains (c :: x) (a ++ rest)).
  change (Py.startswith (c :: x) (d :: a ++ rest))
    with ((c =? d)%N && Py.startswith x (a ++ rest)).
  apply N.eqb_neq in Hne. rewrite Hne. simpl. apply IH, Hc.
Qed.

(** A string of one line that does not start a line does not start
    what follows the line either. *)
Lemma startswith_past (m : pystr) :
  Py.nl ∉ m ->
  forall y rest, Py.startswith m y = false ->
                 Py.startswith m (y ++ Py.nl :: rest) = false.
Proof.
  induction m as [|c m IH]; intros Hm y rest Hy; [discriminate Hy|].
  apply not_elem_of_cons in Hm as [Hne Hm].
  destruct y as [|d y].
  - change (Py.startswith (c :: m) ([] ++ Py.nl :: rest))
      with ((c =? Py.nl)%N && Py.startswith m rest).
    assert ((c =? Py.nl)%N = false) as ->
      by (apply N.eqb_neq; congruence).
    reflexivity.
  - change (Py.startswith (c :: m) ((d :: y) ++ Py.nl :: rest))
      with ((c =? d)%N && Py.startswith m (y ++ Py.nl :: rest)).
    change (Py.startswith (c :: m) (d :: y))
      with ((c =? d)%N && Py.startswith m y) in Hy.
    destruct (c =? d)%N; [|reflexivity].
    simpl in Hy |- *. apply (IH Hm), Hy.
Qed.

Lemma join_cons (sep a : pystr) (l : list pystr) :
  l <> [] -> Py.join sep (a :: l) = a ++ sep ++ Py.join sep l.
Proof. destruct l; [congruence|reflexivity]. Qed.

Lemma startswith_join (m y : pystr) (rest : list pystr) :
  Py.nl ∉ m -> Py.startswith m y = false ->
  Py.startswith m (Py.join [Py.nl] (y :: rest)) = false.
Proof.
  intros Hm Hy. destruct rest as [|z rest]; [exact Hy|].
  rewrite (join_cons [Py.nl] y (z :: rest)) by discriminate.
  apply (startswith_past m Hm), Hy.
Qed.

Lemma truncation_words_one_line : Py.nl ∉ truncation_words.
Proof. apply absent_by_eval. vm_compute. reflexivity. Qed.

(** Joined by line feeds, quiet lines do not hold the notice. *)
Lemma quiet_join (lines : list pystr) :
  quiet lines ->
  Py.contains truncation_marker (Py.join [Py.nl] lines) = false.
Proof.
  change truncation_marker with (Py.nl :: Py.nl :: truncation_words).
  induction lines as [|a rest IH]; [reflexivity|].
  intros (Ha & _ & Hrest). specialize (IH Hrest).
  destruct rest as [|b rest].
  - apply contains_absent_head, Ha.
  - rewrite (join_cons [Py.nl] a (b :: rest)) by discriminate.
    rewrite (contains_past _ _ a _ Ha).
    change ([Py.nl] ++ Py.join [Py.nl] (b :: rest))
      with (Py.nl :: Py.join [Py.nl] (b :: rest)).
    change (Py.contains (Py.nl :: Py.nl :: truncation_words)
              (Py.nl :: Py.join [Py.nl] (b :: rest)))
      with ((Py.nl =? Py.nl)%N
            && Py.startswith (Py.nl :: truncation_words)
                 (Py.join [Py.nl] (b :: rest))
            || Py.contains (Py.nl :: Py.nl :: truncation_words)
                 (Py.join [Py.nl] (b :: rest))).
    rewrite IH, orb_false_r, N.eqb_refl, andb_true_l.
    destruct Hrest as (Hb & Hblank & _).
    destruct b as [|d b].
    + destruct rest as [|y rest]; [reflexivity|].
      rewrite (join_cons [Py.nl] [] (y :: rest)) by discriminate.
      change (Py.startswith (Py.nl :: truncation_words)
                ([] ++ [Py.nl] ++ Py.join [Py.nl] (y :: rest)))
        with ((Py.nl =? Py.nl)%N
              && Py.startswith truncation_words
                   (Py.join [Py.nl] (y :: rest))).
      rewrite N.eqb_refl, andb_true_l.
      apply startswith_join;
        [exact truncation_words_one_line|exact (Hblank eq_refl)].
    + apply not_elem_of_cons in Hb as [Hne _].
      assert (Hhead : forall tail,
                Py.startswith (Py.nl :: truncation_words) (d :: tail)
                = false).
      { intros tail.
        change (Py.startswith (Py.nl :: truncation_words) (d :: tail))
          with ((Py.nl =? d)%N && Py.startswith truncation_words tail).
        apply N.eqb_neq in Hne. rewrite Hne. reflexivity. }
      destruct rest as [|y rest]; [apply Hhead|].
      rewrite (join_cons [Py.nl] (d :: b) (y :: rest)) by discriminate.
      apply Hhead.
Qed.

(** A line that starts with a line feed counts as an empty line and
    the rest of it. *)
Lemma join_split_line (before : list pystr) (t : pystr)
    (after : list pystr) :
  Py.join [Py.nl] (before ++ (Py.nl :: t) :: after)
  = Py.join [Py.nl] (before ++ [] :: t :: after).
Proof.
  induction before as [|a before IH].
  - destruct after; reflexivity.
  - change ((a :: before) ++ (Py.nl :: t) :: after)
      with (a :: (before ++ (Py.nl :: t) :: after)).
    change ((a :: before) ++ [] :: t :: after)
      with (a :: (before ++ [] :: t :: after)).
    rewrite (join_cons [Py.nl] a (before ++ (Py.nl :: t) :: after))
      by (destruct before; discriminate).
    rewrite (join_cons [Py.nl] a (before ++ [] :: t :: after))
      by (destruct before; discriminate).
    rewrite IH. reflexivity.
Qed.

Lemma quiet_solid (a : pystr) (rest : list pystr) :
  Py.nl ∉ a -> a <> [] -> quiet rest -> quiet (a :: rest).
Proof. intros Ha Hne Hrest. split; [exact Ha|]. split; [congruence|exact Hrest]. Qed.

Lemma quiet_blank (r : pystr) (rest : list pystr) :
  Py.startswith truncation_words r = false ->
  quiet (r :: rest) -> quiet ([] :: r :: rest).
Proof.
  intros Hr Hrest. split; [apply not_elem_of_nil|].
  split; [intros _; exact Hr|exact Hrest].
Qed.

Lemma quiet_solid_app (lines rest : list pystr) :
  Forall (fun a => Py.nl ∉ a /\ a <> []) lines ->
  quiet rest -> quiet (lines ++ rest).
Proof.
  induction 1 as [|a lines [Ha Hne] _ IH]; intros Hrest; [exact Hrest|].
  apply quiet_solid; [exact Ha|exact Hne|apply IH, Hrest].
Qed.

Lemma str_of_int_one_line (z : Z) : Py.nl ∉ Py.str_of_int z.
Proof.
  apply numeric_absent; [|apply str_of_int_numeric].
  unfold numeric, Py.nl. lia.
Qed.

Lemma one_line_app (a b : pystr) : Py.nl ∉ a -> Py.nl ∉ b -> Py.nl ∉ a ++ b.
Proof. intros Ha Hb. apply not_elem_of_app. split; assumption. Qed.

Lemma rule_one_line : Py.nl ∉ rule.
Proof. apply absent_by_eval. vm_compute. reflexivity. Qed.

Ltac one_line_literal := apply absent_by_eval; vm_compute; reflexivity.

Lemma report_info_solid (url : pystr) (metadata : Metadata) (status : Z)
    (enc : pystr) :
  one_line url -> one_line (title metadata) ->
  one_line (description metadata) -> one_line (author metadata) ->
  one_line (keywords metadata) -> one_line enc ->
  Forall (fun a => Py.nl ∉ a /\ a <> [])
    (report_info url metadata status enc).
Proof.
  unfold one_line. intros Hurl Htitle Hdesc Hauthor Hkeys Henc.
  unfold report_info. repeat apply Forall_app_2.
  - repeat constructor; try discriminate;
      try exact rule_one_line; try one_line_literal;
      apply one_line_app; try one_line_literal;
      try assumption; apply str_of_int_one_line.
  - destruct (Py.truthy (description metadata)); repeat constructor;
      [apply one_line_app; [one_line_literal|assumption]|discriminate].
  - destruct (Py.truthy (author metadata)); repeat constructor;
      [apply one_line_app; [one_line_literal|assumption]|discriminate].
  - destruct (Py.truthy (keywords metadata)); repeat constructor;
      [apply one_line_app; [one_line_literal|assumption]|discriminate].
Qed.

Lemma link_lines_solid (links : list Link) :
  Forall (fun link => one_line (link_text link)
                      /\ one_line (link_url link)) links ->
  forall start,
    Forall (fun a => Py.nl ∉ a /\ a <> [])
      (enumerate_from
         (fun i link => [Py.str_of_int i ++ py". " ++ link_text link;
                         py"   " ++ link_url link]) start links).
Proof.
  unfold one_line.
  induction 1 as [|link links [Htext Hurl] _ IH]; intros start;
    [constructor|].
  cbn [enumerate_from]. apply Forall_app_2; [|apply IH].
  constructor; [|constructor; [|constructor]].
  - split.
    + apply one_line_app; [apply str_of_int_one_line|].
      apply one_line_app; [one_line_literal|exact Htext].
    + intros Hnil. apply app_eq_nil in Hnil as [_ Hnil]. discriminate Hnil.
  - split; [apply one_line_app; [one_line_literal|exact Hurl]|discriminate].
Qed.

Lemma image_lines_solid (images : list pystr) :
  Forall one_line images ->
  forall start,
    Forall (fun a => Py.nl ∉ a /\ a <> [])
      (enumerate_from
         (fun i img_url => [Py.str_of_int i ++ py". " ++ img_url])
         start images).
Proof.
  unfold one_line.
  induction 1 as [|img_url images Hurl _ IH]; intros start; [constructor|].
  cbn [enumerate_from]. apply Forall_app_2; [|apply IH].
  constructor; [|constructor]. split.
  - apply one_line_app; [apply str_of_int_one_line|].
    apply one_line_app; [one_line_literal|exact Hurl].
  - intros Hnil. apply app_eq_nil in Hnil as [_ Hnil]. discriminate Hnil.
Qed.

Lemma rule_is_no_notice : Py.startswith truncation_words rule = false.
Proof. vm_compute. reflexivity. Qed.

Lemma report_links_quiet (links : list Link) (rest : list pystr) :
  Forall (fun link => one_line (link_text link)
                      /\ one_line (link_url link)) links ->
  quiet rest -> quiet (report_links links ++ rest).
Proof.
  intros Hlinks Hrest. unfold report_links.
  destruct links as [|link links]; [exact Hrest|].
  rewrite <- app_assoc.
  apply quiet_blank; [exact rule_is_no_notice|].
  apply quiet_solid; [exact rule_one_line|discriminate|].
  apply quiet_solid.
  { apply one_line_app; [one_line_literal|].
    apply one_line_app; [apply str_of_int_one_line|one_line_literal]. }
  { discriminate. }
  apply quiet_solid; [exact rule_one_line|discriminate|].
  apply quiet_solid_app; [apply link_lines_solid, Hlinks|exact Hrest].
Qed.

Lemma report_images_quiet (images : list pystr) :
  Forall one_line images -> quiet (report_images images).
Proof.
  intros Himages. unfold report_images.
  destruct images as [|img_url images]; [exact I|].
  apply quiet_blank; [exact rule_is_no_notice|].
  apply quiet_solid; [exact rule_one_line|discriminate|].
  apply quiet_solid.
  { apply one_line_app; [one_line_literal|].
    apply one_line_app; [apply str_of_int_one_line|one_line_literal]. }
  { discriminate. }
  apply quiet_solid; [exact rule_one_line|discriminate|].
  rewrite <- (app_nil_r (enumerate_from _ _ _)).
  apply quiet_solid_app; [apply image_lines_solid, Himages|exact I].
Qed.

(** The report holds no notice when the entry of the main text is one
    line and the fields are. *)
Lemma report_without_notice (config : WebReaderConfig) (url : pystr)
    (metadata : Metadata) (status : Z) (enc main_text : pystr)
    (links : list Link) (images : list pystr) :
  one_line_fields url metadata enc links images ->
  Py.nl ∉ content_preview (MAX_CONTENT_LENGTH config) main_text ->
  content_preview (MAX_CONTENT_LENGTH config) main_text <> [] ->
  Py.contains truncation_marker
    (format_report config url metadata status enc main_text links images)
  = false.
Proof.
  intros (Hurl & Htitle & Hdesc & Hauthor & Hkeys & Henc & Hlinks & Himages)
         Hshown Hne.
  unfold format_report, output_parts, report_head, total_line.
  set (shown := content_preview (MAX_CONTENT_LENGTH config) main_text) in *.
  set (count := py"📊 总字数: " ++ Py.str_of_int (Py.len main_text)).
  set (info := report_info url metadata status enc).
  replace ((info ++ [[]; rule; py"📖 主要内容"; rule]) ++ [shown]
           ++ [[Py.nl] ++ count]
           ++ report_links links ++ report_images images)
    with ((info ++ [[]; rule; py"📖 主要内容"; rule; shown])
          ++ (Py.nl :: count)
             :: (report_links links ++ report_images images))
    by (rewrite <- !app_assoc; reflexivity).
  rewrite join_split_line. apply quiet_join.
  rewrite <- app_assoc.
  apply quiet_solid_app.
  { apply report_info_solid; assumption. }
  apply quiet_blank; [exact rule_is_no_notice|].
  apply quiet_solid; [exact rule_one_line|discriminate|].
  apply quiet_solid; [one_line_literal|discriminate|].
  apply quiet_solid; [exact rule_one_line|discriminate|].
  apply quiet_solid; [exact Hshown|exact Hne|].
  apply quiet_blank; [reflexivity|].
  apply quiet_solid.
  { apply one_line_app; [one_line_literal|apply str_of_int_one_line]. }
  { discriminate. }
  apply report_links_quiet; [exact Hlinks|].
  apply report_images_quiet, Himages.
Qed.

End Notice.

(** ** The formatter: truncation, character count, empty text *)

Section Truncation.
Context {soup tag : Type}.
Context `{!DocumentTree soup tag}.

Lemma content_preview_fits (max_length : Z) (main_text : pystr) :
  Py.len main_text <= max_length -> Py.nl ∉ main_text ->
  Py.nl ∉ content_preview max_length main_text
  /\ content_preview max_length main_text <> [].
Proof.
  intros Hlen Hnl. destruct main_text as [|c main_text].
  - split; [apply absent_by_eval; vm_compute; reflexivity|discriminate].
  - rewrite content_preview_short by (exact Hlen || discriminate).
    split; [exact Hnl|discriminate].
Qed.

(** C2, as the code has it.  Under a configuration within the declared
    bounds, the report shows the main text in one entry of its lines,
    followed by the line of the character count.  When the text is no
    longer than [MAX_CONTENT_LENGTH] that entry is the whole text and
    no truncation notice is appended: for a text without line feed,
    as extraction returns it, the entry does not contain the notice,
    and neither does the report as a whole when the URL, the fields of
    the metadata, the encoding, the texts of the links and the URLs of
    the links and images are without line feed; a field that holds the
    notice is written into the report as it is.  When the text is
    longer the entry is exactly its first [MAX_CONTENT_LENGTH]
    characters followed by the notice.  In both cases the count line
    reports the length of the text before any cut. *)
Theorem report_truncation (config : WebReaderConfig) (url : pystr)
    (metadata : Metadata) (status : Z) (enc : pystr)
    (links : list Link) (images : list pystr) (main_text : pystr) :
  config_ok config ->
  let max_length := MAX_CONTENT_LENGTH config in
  let shown := content_preview max_length main_text in
  let report :=
    format_report config url metadata status enc main_text links images in
  report = Py.join [Py.nl]
             (report_head url metadata status enc
              ++ [shown; total_line main_text]
              ++ report_links links ++ report_images images)
  /\ Py.contains shown report = true
  /\ Py.contains (total_line main_text) report = true
  /\ total_line main_text =
       [Py.nl] ++ py"📊 总字数: " ++ Py.str_of_int (Py.len main_text)
  /\ (Py.len main_text <= max_length ->
        (main_text <> [] -> shown = main_text)
        /\ (Py.nl ∉ main_text ->
            Py.contains truncation_marker shown = false)
        /\ (forall s : soup, main_text = (extract_main_content s).2 ->
            Py.contains truncation_marker shown = false)
        /\ (one_line_fields url metadata enc links images ->
            Py.nl ∉ main_text ->
            Py.contains truncation_marker report = false)
        /\ (one_line_fields url metadata enc links images ->
            forall s : soup, main_text = (extract_main_content s).2 ->
            Py.contains truncation_marker report = false))
  /\ (Py.len main_text > max_length ->
        shown = take (Z.to_nat max_length) main_text ++ truncation_marker
        /\ Py.len (take (Z.to_nat max_length) main_text) = max_length).
Proof.
  intros [_ Hmax] max_length shown report.
  destruct (output_parts_entries config url metadata status enc main_text
              links images) as [Hshown Htotal].
  split; [reflexivity|].
  split; [exact (contains_join _ _ _ Hshown)|].
  split; [exact (contains_join _ _ _ Htotal)|].
  split; [reflexivity|].
  split.
  - intros Hlen.
    assert (Hwhole : one_line_fields url metadata enc links images ->
              Py.nl ∉ main_text ->
              Py.contains truncation_marker report = false).
    { intros Hfields Hnl.
      destruct (content_preview_fits max_length main_text Hlen Hnl)
        as [Hline Hne].
      apply report_without_notice; assumption. }
    split; [apply content_preview_short, Hlen|].
    split; [apply content_preview_no_marker, Hlen|].
    split.
    { intros s ->. apply content_preview_no_marker; [exact Hlen|].
      apply extracted_text_no_nl. }
    split; [exact Hwhole|].
    intros Hfields s Hs. apply (Hwhole Hfields). rewrite Hs.
    apply extracted_text_no_nl.
  - intros Hlen. split.
    + apply content_preview_long; [subst max_length; lia|exact Hlen].
    + apply slice_to_long; subst max_length; lia.
Qed.

(** C10, as the code has it.  With an empty main text the lines of the
    report are the head, which ends with the heading of the main
    content, then the fixed line that says no main content was found,
    then the count line with 0.  No truncation notice is appended:
    neither of the two lines contains it, and neither does the report
    as a whole when the URL, the fields of the metadata, the encoding,
    the texts of the links and the URLs of the links and images are
    without line feed; a field that holds the notice is written into
    the report as it is. *)
Theorem empty_main_text_report (config : WebReaderConfig) (url : pystr)
    (metadata : Metadata) (status : Z) (enc : pystr)
    (links : list Link) (images : list pystr) :
  let zero_line := [Py.nl] ++ py"📊 总字数: " ++ Py.str_of_int 0 in
  let report :=
    format_report config url metadata status enc [] links images in
  report = Py.join [Py.nl]
             (report_info url metadata status enc
              ++ [[]; rule; py"📖 主要内容"; rule;
                  py"（未找到主要内容）"; zero_line]
              ++ report_links links ++ report_images images)
  /\ content_preview (MAX_CONTENT_LENGTH config) [] = py"（未找到主要内容）"
  /\ total_line [] = zero_line
  /\ Py.str_of_int (Py.len []) = py"0"
  /\ Py.contains truncation_marker
       (content_preview (MAX_CONTENT_LENGTH config) []) = false
  /\ Py.contains truncation_marker (total_line []) = false
  /\ Py.contains (py"（未找到主要内容）") report = true
  /\ Py.contains zero_line report = true
  /\ (one_line_fields url metadata enc links images ->
      Py.contains truncation_marker report = false).
Proof.
  intros zero_line report.
  destruct (output_parts_entries config url metadata status enc []
              links images) as [Hshown Htotal].
  split.
  { subst report zero_line. unfold format_report.
    rewrite output_parts_empty. reflexivity. }
  split; [reflexivity|]. split; [reflexivity|].
  split; [vm_compute; reflexivity|].
  split; [vm_compute; reflexivity|].
  split; [vm_compute; reflexivity|].
  rewrite content_preview_empty in Hshown.
  split; [exact (contains_join _ _ _ Hshown)|].
  split; [exact (contains_join _ _ _ Htotal)|].
  intros Hfields. apply report_without_notice; [exact Hfields| |].
  - apply absent_by_eval. vm_compute. reflexivity.
  - discriminate.
Qed.

End Truncation.

(** A text of 15001 characters is cut at 15000 and gets the notice; a
    short text is shown whole, and the report of it holds no notice. *)
Lemma report_truncation_witness :
  let long_text := replicate (Z.to_nat 15001) 97%N in
  let short_text := py"Hello" in
  let max_length := MAX_CONTENT_LENGTH default_config in
  let metadata := {| title := py"Sample"; description := [];
                     keywords := []; author := [] |} in
  config_ok default_config
  /\ Py.len long_text > max_length
  /\ content_preview max_length long_text
     = take (Z.to_nat max_length) long_text ++ truncation_marker
  /\ Py.len short_text <= max_length
  /\ content_preview max_length short_text = short_text
  /\ Py.contains truncation_marker (content_preview max_length short_text)
     = false
  /\ one_line_fields Sample.base metadata (py"utf-8") [] []
  /\ Py.contains truncation_marker
       (format_report default_config Sample.base metadata 200 (py"utf-8")
          short_text [] []) = false.
Proof.
  intros long_text short_text max_length metadata.
  assert (Hok : config_ok default_config).
  { unfold config_ok. simpl. lia. }
  assert (Hlong : Py.len long_text > max_length).
  { vm_compute. reflexivity. }
  assert (Hshort : Py.len short_text <= max_length).
  { vm_compute. discriminate. }
  assert (Hfields : one_line_fields Sample.base metadata (py"utf-8") [] []).
  { unfold one_line_fields, one_line.
    repeat split; try (apply absent_by_eval; vm_compute; reflexivity);
      constructor. }
  assert (Hline : Py.nl ∉ short_text).
  { apply absent_by_eval. vm_compute. reflexivity. }
  destruct (report_truncation (soup := Html.document) default_config
              Sample.base metadata 200 (py"utf-8") [] [] long_text Hok)
    as (_ & _ & _ & _ & _ & Hcut).
  destruct (report_truncation (soup := Html.document) default_config
              Sample.base metadata 200 (py"utf-8") [] [] short_text Hok)
    as (_ & _ & _ & _ & Hwhole & _).
  destruct (Hwhole Hshort) as (Hsame & Hclean & _ & Hreport & _).
  split; [exact Hok|]. split; [exact Hlong|].
  split; [exact (proj1 (Hcut Hlong))|]. split; [exact Hshort|].
  split; [apply Hsame; discriminate|].
  split; [exact (Hclean Hline)|].
  split; [exact Hfields|exact (Hreport Hfields Hline)].
Defined.

(** C2 as stated fails on a page whose description holds the words of
    the notice after two line feeds: the main text has 10 characters,
    far below [MAX_CONTENT_LENGTH], it is shown whole, and the report
    contains the notice, which the description line brings. *)
Lemma notice_from_description :
  let s := Cases.marked in
  let main_text := (extract_main_content s).2 in
  let out :=
    fetch_webpage (Some Sample.up) (Some (Ref.parser s)) default_config
      Sample.base None in
  main_text = py"Short text"
  /\ Py.len main_text <= MAX_CONTENT_LENGTH default_config
  /\ description (extract_metadata s) = Cases.marked_description
  /\ out.2 = format_report default_config Sample.base (extract_metadata s)
               200 (py"utf-8") main_text [] []
  /\ content_preview (MAX_CONTENT_LENGTH default_config) main_text
     = main_text
  /\ Py.contains truncation_marker out.2 = true.
Proof.
  split; [vm_compute; reflexivity|]. split; [vm_compute; discriminate|].
  split; [vm_compute; reflexivity|]. split; [vm_compute; reflexivity|].
  split; vm_compute; reflexivity.
Qed.

(** An empty main text gets the fixed line and the count 0, and the
    report of it holds no notice. *)
Lemma empty_main_text_report_witness :
  let metadata := {| title := py"Sample"; description := [];
                     keywords := []; author := [] |} in
  let report :=
    format_report default_config Sample.base metadata 200 (py"utf-8")
      [] [] [] in
  one_line_fields Sample.base metadata (py"utf-8") [] []
  /\ Py.contains (py"（未找到主要内容）") report = true
  /\ Py.contains truncation_marker report = false.
Proof.
  intros metadata report.
  assert (Hfields : one_line_fields Sample.base metadata (py"utf-8") [] []).
  { unfold one_line_fields, one_line.
    repeat split; try (apply absent_by_eval; vm_compute; reflexivity);
      constructor. }
  destruct (empty_main_text_report default_config Sample.base metadata 200
              (py"utf-8") [] [])
    as (_ & _ & _ & _ & _ & _ & Hline & _ & Hreport).
  split; [exact Hfields|]. split; [exact Hline|exact (Hreport Hfields)].
Defined.

(** C10 as stated fails on a page without text whose description holds
    the words of the notice after two line feeds: the main text is
    empty, the report shows the fixed line and the count 0, and it
    contains the notice, which the description line brings. *)
Lemma notice_with_empty_text :
  let s := Cases.marked_empty in
  let out :=
    fetch_webpage (Some Sample.up) (Some (Ref.parser s)) default_config
      Sample.base None in
  (extract_main_content s).2 = []
  /\ description (extract_metadata s) = Cases.marked_description
  /\ out.2 = format_report default_config Sample.base (extract_metadata s)
               200 (py"utf-8") [] [] []
  /\ Py.contains (py"（未找到主要内容）") out.2 = true
  /\ Py.contains (total_line []) out.2 = true
  /\ Py.contains truncation_marker out.2 = true.
Proof.
  split; [vm_compute; reflexivity|]. split; [vm_compute; reflexivity|].
  split; [vm_compute; reflexivity|]. split; [vm_compute; reflexivity|].
  split; vm_compute; reflexivity.
Qed.

(** * Further properties *)

(** ** [clean_text] *)

Section Cleaning.

Lemma single_spaced_weaken (s : pystr) :
  single_spaced true s = true -> single_spaced false s = true.
Proof.
  destruct s as [|c s]; simpl; [reflexivity|].
  destruct (Py.isspace c); [discriminate|tauto].
Qed.

Lemma sub_ws_single_spaced (in_run : bool) (s : pystr) :
  single_spaced in_run (Py.sub_ws in_run s) = true.
Proof.
  revert in_run. induction s as [|c s IH]; intros in_run; simpl.
  - reflexivity.
  - destruct (Py.isspace c) eqn:Hc.
    + destruct in_run; [apply IH|]. simpl. apply IH.
    + simpl. rewrite Hc. apply IH.
Qed.

Lemma single_spaced_fixed (in_run : bool) (s : pystr) :
  single_spaced in_run s = true -> Py.sub_ws in_run s = s.
Proof.
  revert in_run. induction s as [|c s IH]; intros in_run; simpl.
  - reflexivity.
  - destruct (Py.isspace c) eqn:Hc.
    + intros [[Hrun Hspace]%andb_true_iff Hrest]%andb_true_iff.
      apply negb_true_iff in Hrun. subst in_run.
      apply N.eqb_eq in Hspace. subst c.
      rewrite (IH true Hrest). reflexivity.
    + intros Hrest. rewrite (IH false Hrest). reflexivity.
Qed.

Lemma single_spaced_prefix (in_run : bool) (s w : pystr) :
  single_spaced in_run (s ++ w) = true -> single_spaced in_run s = true.
Proof.
  revert in_run. induction s as [|c s IH]; intros in_run; simpl.
  - reflexivity.
  - destruct (Py.isspace c).
    + intros [Hhead Hrest]%andb_true_iff.
      rewrite Hhead. apply (IH true Hrest).
    + apply IH.
Qed.

Lemma single_spaced_suffix (in_run : bool) (w s : pystr) :
  single_spaced in_run (w ++ s) = true -> single_spaced false s = true.
Proof.
  revert in_run. induction w as [|c w IH]; intros in_run; simpl.
  - destruct in_run; [apply single_spaced_weaken|tauto].
  - destruct (Py.isspace c).
    + intros [_ Hrest]%andb_true_iff. apply (IH true Hrest).
    + apply IH.
Qed.

Lemma single_spaced_spaces (in_run : bool) (s : pystr) :
  single_spaced in_run s = true ->
  Forall (fun c => Py.isspace c = true -> c = Py.space) s.
Proof.
  revert in_run. induction s as [|c s IH]; intros in_run; simpl.
  - constructor.
  - destruct (Py.isspace c) eqn:Hc.
    + intros [[_ Hspace]%andb_true_iff Hrest]%andb_true_iff.
      constructor; [intros _; apply N.eqb_eq, Hspace|apply (IH true Hrest)].
    + intros Hrest. constructor; [congruence|apply (IH false Hrest)].
Qed.

Lemma contains_cons (x : pystr) (c : N) (s : pystr) :
  Py.contains x (c :: s) = Py.startswith x (c :: s) || Py.contains x s.
Proof. reflexivity. Qed.

Lemma startswith_cons (a : N) (p : pystr) (b : N) (s : pystr) :
  Py.startswith (a :: p) (b :: s) = (a =? b)%N && Py.startswith p s.
Proof. reflexivity. Qed.

Lemma not_space (c : N) : Py.isspace c = false -> (Py.space =? c)%N = false.
Proof.
  intros Hc. destruct (N.eqb_spec Py.space c) as [<-|Hne];
    [discriminate Hc|reflexivity].
Qed.

Lemma single_spaced_no_pair (in_run : bool) (s : pystr) :
  single_spaced in_run s = true ->
  Py.contains [Py.space; Py.space] s = false.
Proof.
  revert in_run. induction s as [|c s IH]; intros in_run Hs.
  - reflexivity.
  - rewrite contains_cons. simpl in Hs.
    destruct (Py.isspace c) eqn:Hc.
    + apply andb_true_iff in Hs as [_ Hrest].
      rewrite (IH true Hrest), orb_false_r.
      destruct s as [|d s]; [apply andb_false_r|].
      simpl in Hrest. destruct (Py.isspace d) eqn:Hd; [discriminate|].
      rewrite !startswith_cons, (not_space d Hd).
      apply andb_false_r.
    + rewrite (IH false Hs), orb_false_r.
      rewrite startswith_cons, (not_space c Hc). reflexivity.
Qed.

(** What [lstrip] and [rstrip] take off is white space. *)
Lemma lstrip_split (s : pystr) :
  exists w, s = w ++ Py.lstrip s /\ Forall (fun c => Py.isspace c = true) w.
Proof.
  induction s as [|c s IH]; simpl.
  - exists []. split; [reflexivity|constructor].
  - destruct (Py.isspace c) eqn:Hc.
    + destruct IH as (w & Hs & Hw). exists (c :: w).
      split; [simpl; congruence|constructor; assumption].
    + exists []. split; [reflexivity|constructor].
Qed.

Lemma rstrip_split (s : pystr) :
  exists w, s = Py.rstrip s ++ w /\ Forall (fun c => Py.isspace c = true) w.
Proof.
  unfold Py.rstrip. destruct (lstrip_split (rev s)) as (w & Hs & Hw).
  exists (rev w). split.
  - rewrite <- rev_app_distr, <- Hs, rev_involutive. reflexivity.
  - apply Forall_forall. intros c Hc. rewrite Forall_forall in Hw.
    apply Hw. apply list_elem_of_In, in_rev, list_elem_of_In, Hc.
Qed.

Lemma strip_split (s : pystr) :
  exists w1 w2, s = w1 ++ Py.strip s ++ w2
    /\ Forall (fun c => Py.isspace c = true) w1
    /\ Forall (fun c => Py.isspace c = true) w2.
Proof.
  unfold Py.strip.
  destruct (lstrip_split s) as (w1 & Hs & Hw1).
  destruct (rstrip_split (Py.lstrip s)) as (w2 & Hl & Hw2).
  exists w1, w2. split; [|split; assumption].
  rewrite <- Hl. exact Hs.
Qed.

Lemma lstrip_head (s : pystr) (c : N) :
  head (Py.lstrip s) = Some c -> Py.isspace c = false.
Proof.
  induction s as [|d s IH]; simpl; [discriminate|].
  destruct (Py.isspace d) eqn:Hd; [exact IH|].
  simpl. intros [= <-]. exact Hd.
Qed.

Lemma lstrip_id (s : pystr) :
  (forall c, head s = Some c -> Py.isspace c = false) -> Py.lstrip s = s.
Proof.
  destruct s as [|c s]; simpl; [reflexivity|].
  intros Hhead. rewrite (Hhead c eq_refl). reflexivity.
Qed.

Lemma head_rev (s : pystr) : head (rev s) = last s.
Proof.
  induction s as [|c s IH] using rev_ind; [reflexivity|].
  rewrite rev_app_distr, last_snoc. reflexivity.
Qed.

Lemma last_rev (s : pystr) : last (rev s) = head s.
Proof. rewrite <- head_rev, rev_involutive. reflexivity. Qed.

Lemma rstrip_last (s : pystr) (c : N) :
  last (Py.rstrip s) = Some c -> Py.isspace c = false.
Proof. unfold Py.rstrip. rewrite last_rev. apply lstrip_head. Qed.

Lemma rstrip_id (s : pystr) :
  (forall c, last s = Some c -> Py.isspace c = false) -> Py.rstrip s = s.
Proof.
  intros Hlast. unfold Py.rstrip. rewrite lstrip_id.
  - apply rev_involutive.
  - intros c. rewrite head_rev. apply Hlast.
Qed.

Lemma rstrip_head (s : pystr) (c : N) :
  head (Py.rstrip s) = Some c -> head s = Some c.
Proof.
  destruct (rstrip_split s) as (w & Hs & _).
  destruct (Py.rstrip s) as [|d r]; [discriminate|].
  rewrite Hs. simpl. tauto.
Qed.

Lemma strip_head (s : pystr) (c : N) :
  head (Py.strip s) = Some c -> Py.isspace c = false.
Proof.
  unfold Py.strip. intros Hhead.
  apply (lstrip_head s), rstrip_head, Hhead.
Qed.

Lemma strip_last (s : pystr) (c : N) :
  last (Py.strip s) = Some c -> Py.isspace c = false.
Proof. unfold Py.strip. apply rstrip_last. Qed.

Lemma strip_id (s : pystr) :
  (forall c, head s = Some c -> Py.isspace c = false) ->
  (forall c, last s = Some c -> Py.isspace c = false) ->
  Py.strip s = s.
Proof.
  intros Hhead Hlast. unfold Py.strip.
  rewrite (lstrip_id s Hhead). apply rstrip_id, Hlast.
Qed.

Lemma strip_idempotent (s : pystr) : Py.strip (Py.strip s) = Py.strip s.
Proof. apply strip_id; [apply strip_head|apply strip_last]. Qed.

Lemma visible_app (a b : pystr) : visible (a ++ b) = visible a ++ visible b.
Proof. unfold visible. apply List.filter_app. Qed.

Lemma visible_space (w : pystr) :
  Forall (fun c => Py.isspace c = true) w -> visible w = [].
Proof.
  induction 1 as [|c w Hc _ IH]; [reflexivity|].
  unfold visible in *. simpl. rewrite Hc. exact IH.
Qed.

Lemma visible_nil (s : pystr) :
  visible s = [] -> Forall (fun c => Py.isspace c = true) s.
Proof.
  induction s as [|c s IH]; [constructor|].
  unfold visible in *. simpl.
  destruct (Py.isspace c) eqn:Hc; simpl; [|discriminate].
  intros Hrest. constructor; [exact Hc|apply IH, Hrest].
Qed.

Lemma visible_sub_ws (in_run : bool) (s : pystr) :
  visible (Py.sub_ws in_run s) = visible s.
Proof.
  revert in_run. induction s as [|c s IH]; intros in_run; [reflexivity|].
  unfold visible in *. simpl.
  destruct (Py.isspace c) eqn:Hc; simpl.
  - destruct in_run; [apply IH|]. simpl. apply IH.
  - rewrite Hc. simpl. f_equal. apply IH.
Qed.

Lemma visible_strip (s : pystr) : visible (Py.strip s) = visible s.
Proof.
  destruct (strip_split s) as (w1 & w2 & Hs & Hw1 & Hw2).
  rewrite Hs at 2. rewrite !visible_app.
  rewrite (visible_space w1 Hw1), (visible_space w2 Hw2), app_nil_r.
  reflexivity.
Qed.

Lemma sub_ws_length (in_run : bool) (s : pystr) :
  (length (Py.sub_ws in_run s) <= length s)%nat.
Proof.
  revert in_run. induction s as [|c s IH]; intros in_run; simpl; [lia|].
  destruct (Py.isspace c).
  - destruct in_run; simpl.
    + specialize (IH true). lia.
    + specialize (IH true). lia.
  - simpl. specialize (IH false). lia.
Qed.

Lemma strip_length (s : pystr) : (length (Py.strip s) <= length s)%nat.
Proof.
  destruct (strip_split s) as (w1 & w2 & Hs & _).
  rewrite Hs at 2. rewrite !length_app. lia.
Qed.

Lemma clean_text_single_spaced (text : pystr) :
  single_spaced false (clean_text text) = true.
Proof.
  unfold clean_text.
  destruct (strip_split (Py.sub_ws false text)) as (w1 & w2 & Hs & _).
  pose proof (sub_ws_single_spaced false text) as Hsp.
  rewrite Hs in Hsp.
  apply single_spaced_suffix in Hsp.
  exact (single_spaced_prefix _ _ _ Hsp).
Qed.

(** [clean_text] leaves a text in which the only white space is the
    single space between two words: every white-space character of the
    result is U+0020, no two of them are adjacent, and the result
    neither starts nor ends with one. *)
Theorem clean_text_normal_form (text : pystr) :
  let cleaned := clean_text text in
  Forall (fun c => Py.isspace c = true -> c = Py.space) cleaned
  /\ Py.contains [Py.space; Py.space] cleaned = false
  /\ (forall c, head cleaned = Some c -> Py.isspace c = false)
  /\ (forall c, last cleaned = Some c -> Py.isspace c = false)
  /\ Py.nl ∉ cleaned.
Proof.
  intros cleaned.
  pose proof (clean_text_single_spaced text) as Hsp. fold cleaned in Hsp.
  split; [exact (single_spaced_spaces _ _ Hsp)|].
  split; [exact (single_spaced_no_pair _ _ Hsp)|].
  split; [intros c; apply strip_head|].
  split; [intros c; apply strip_last|].
  apply clean_text_no_nl.
Qed.

(** Cleaning a cleaned text changes nothing. *)
Theorem clean_text_idempotent (text : pystr) :
  clean_text (clean_text text) = clean_text text.
Proof.
  unfold clean_text at 1.
  rewrite (single_spaced_fixed false _ (clean_text_single_spaced text)).
  unfold clean_text. apply strip_idempotent.
Qed.

(** [clean_text] keeps the characters that are not white space, all of
    them and in their order; the result is never longer than the text,
    and it is empty exactly when the text is white space only. *)
Theorem clean_text_keeps_visible (text : pystr) :
  visible (clean_text text) = visible text
  /\ (length (clean_text text) <= length text)%nat
  /\ (clean_text text = []
      <-> Forall (fun c => Py.isspace c = true) text).
Proof.
  assert (Hvis : visible (clean_text text) = visible text).
  { unfold clean_text. rewrite visible_strip. apply visible_sub_ws. }
  split; [exact Hvis|]. split.
  - unfold clean_text.
    etransitivity; [apply strip_length|apply sub_ws_length].
  - split.
    + intros Hnil. apply visible_nil. rewrite <- Hvis, Hnil. reflexivity.
    + intros Hws. apply visible_space in Hws. rewrite <- Hvis in Hws.
      apply visible_nil in Hws.
      destruct (clean_text text) as [|c r] eqn:E; [reflexivity|].
      exfalso. inversion Hws as [|? ? Hc _]; subst.
      assert (Hhead : Py.isspace c = false).
      { apply (strip_head (Py.sub_ws false text)).
        fold (clean_text text). rewrite E. reflexivity. }
      congruence.
Qed.

End Cleaning.

(** ** [extract_metadata] *)

Section MetadataFields.
Context {soup tag : Type}.
Context `{!DocumentTree soup tag}.

Lemma content_of_stripped (t : option tag) :
  Py.strip (content_of t) = content_of t.
Proof.
  destruct t as [t|]; simpl; [apply strip_idempotent|reflexivity].
Qed.

(** No field of the metadata starts or ends with white space: each is
    a stripped string, the empty string, or the fixed title of a page
    without a title element. *)
Theorem metadata_fields_stripped (s : soup) :
  let metadata := extract_metadata s in
  Py.strip (title metadata) = title metadata
  /\ Py.strip (description metadata) = description metadata
  /\ Py.strip (keywords metadata) = keywords metadata
  /\ Py.strip (author metadata) = author metadata.
Proof.
  intros metadata. subst metadata. unfold extract_metadata. simpl.
  split; [|split; [|split]]; try apply content_of_stripped.
  destruct (find s (py"title") []) as [t|];
    [apply strip_idempotent|vm_compute; reflexivity].
Qed.

(** The fallbacks of the metadata go by the presence of an element,
    not by its content.  A page without a title element gets the fixed
    title.  A [description] (an [author]) element decides the field
    even when it has no content, or a blank one: the field is then
    empty although an [og:description] (an [article:author]) element
    may have a content; the second element is read only when the first
    is absent, and without both the field is empty. *)
Theorem metadata_fallbacks (s : soup) :
  let metadata := extract_metadata s in
  let content t := Py.strip (default [] (attr t (py"content"))) in
  let named k v := find s (py"meta") [(k, v)] in
  (find s (py"title") [] = None -> title metadata = py"无标题")
  /\ (forall t, named (py"name") (py"description") = Some t ->
        description metadata = content t
        /\ (attr t (py"content") = None -> description metadata = []))
  /\ (named (py"name") (py"description") = None ->
        forall t, named (py"property") (py"og:description") = Some t ->
                  description metadata = content t)
  /\ (named (py"name") (py"description") = None ->
        named (py"property") (py"og:description") = None ->
        description metadata = [])
  /\ (forall t, named (py"name") (py"author") = Some t ->
        author metadata = content t
        /\ (attr t (py"content") = None -> author metadata = []))
  /\ (named (py"name") (py"author") = None ->
        forall t, named (py"property") (py"article:author") = Some t ->
                  author metadata = content t)
  /\ (named (py"name") (py"author") = None ->
        named (py"property") (py"article:author") = None ->
        author metadata = [])
  /\ (forall t, named (py"name") (py"keywords") = Some t ->
        keywords metadata = content t)
  /\ (named (py"name") (py"keywords") = None -> keywords metadata = []).
Proof.
  intros metadata content named. subst metadata content named.
  unfold extract_metadata. simpl.
  split; [intros ->; reflexivity|].
  split; [intros t ->; simpl; split; [reflexivity|intros ->; reflexivity]|].
  split; [intros -> t ->; reflexivity|].
  split; [intros -> ->; reflexivity|].
  split; [intros t ->; simpl; split; [reflexivity|intros ->; reflexivity]|].
  split; [intros -> t ->; reflexivity|].
  split; [intros -> ->; reflexivity|].
  split; [intros t ->; reflexivity|intros ->; reflexivity].
Qed.

End MetadataFields.

(** ** The entries of [extract_links] and [extract_images] *)

Section Entries.
Context {soup tag : Type}.
Context `{!DocumentTree soup tag} `{!Urllib} `{!Unicode}.

Lemma no_room (A : Type) (l : list A) (limit : Z) :
  limit <= 0 -> (Py.len_list l >=? limit) = true.
Proof.
  intros Hlimit. unfold Py.len_list. rewrite Z.geb_leb. apply Z.leb_le. lia.
Qed.

(** With a limit of zero or less both loops end at their first test:
    the result is empty and no reference is resolved. *)
Theorem nonpositive_limit (s : soup) (base_url : pystr) (limit : Z) :
  limit <= 0 ->
  extract_links s base_url limit = Ok []
  /\ extract_images s base_url limit = Ok [].
Proof.
  intros Hlimit. unfold extract_links, extract_images. split.
  - destruct (find_all s (py"a") (Some (py"href"))) as [|a_tag rest];
      simpl; [reflexivity|].
    rewrite (no_room _ [] limit Hlimit). reflexivity.
  - destruct (find_all s (py"img") None) as [|img_tag rest];
      simpl; [reflexivity|].
    rewrite (no_room _ [] limit Hlimit). reflexivity.
Qed.

Lemma slice_to_length (s : pystr) (n : Z) :
  0 <= n -> Py.len (Py.slice_to s n) <= n.
Proof.
  intros Hn. unfold Py.slice_to, Py.len.
  destruct (0 <=? n) eqn:E; [|apply Z.leb_gt in E; lia].
  rewrite length_take. lia.
Qed.

Lemma anchor_link_entry (base_url : pystr) (a_tag : tag) (link : Link) :
  anchor_link base_url a_tag = Some link ->
  let href := Py.strip (default [] (attr a_tag (py"href"))) in
  let text := Py.strip (get_text a_tag [] false) in
  href <> []
  /\ Py.startswith (py"#") href = false
  /\ Py.startswith (py"javascript:") href = false
  /\ urljoin base_url href = Ok (link_url link)
  /\ (text = [] -> link_text link = py"无文本")
  /\ (text <> [] -> link_text link = take 50 text).
Proof.
  intros Hlink href text. unfold anchor_link in Hlink.
  fold href text in Hlink.
  destruct (Py.truthy href) eqn:Ehref;
    destruct (Py.startswith (py"#") href) eqn:Efrag;
    destruct (Py.startswith (py"javascript:") href) eqn:Ejs;
    simpl in Hlink; try discriminate Hlink.
  destruct (urljoin base_url href) as [absolute_url|e]; [|discriminate].
  injection Hlink as <-. simpl.
  split; [apply truthy_nonempty, Ehref|].
  split; [reflexivity|]. split; [reflexivity|]. split; [reflexivity|].
  split.
  - intros ->. reflexivity.
  - intros Htext. apply truthy_nonempty in Htext. rewrite Htext.
    reflexivity.
Qed.

Lemma extract_links_kept (s : soup) (base_url : pystr) (limit : Z)
    (links : list Link) (link : Link) :
  extract_links s base_url limit = Ok links -> link ∈ links ->
  is_http (link_url link) = true
  /\ link ∈ omap (anchor_link base_url)
              (find_all s (py"a") (Some (py"href"))).
Proof.
  intros Hrun Hin. destruct (Z.lt_ge_cases limit 0) as [Hneg|Hlimit].
  { destruct (nonpositive_limit s base_url limit ltac:(lia)) as [Hnil _].
    rewrite Hnil in Hrun. injection Hrun as <-. inversion Hin. }
  rewrite (extract_links_spec _ _ _ _ Hlimit Hrun) in Hin.
  unfold spec_links in Hin. apply elem_of_take_in in Hin.
  apply list_elem_of_filter in Hin as [Hkept Hin].
  split; [exact Hkept|].
  eapply elem_of_sublist; [exact Hin|apply first_by_sublist].
Qed.

(** Every link returned comes from an anchor whose stripped href is
    not empty, not a fragment and not a [javascript:] URI, and is that
    href resolved against the base URL; its URL starts with [http://]
    or [https://]; its text is the anchor's stripped text cut to 50
    characters, or the fixed text when the anchor has none, so it is
    never empty and never longer than 50. *)
Theorem link_entries (s : soup) (base_url : pystr) (limit : Z)
    (links : list Link) :
  extract_links s base_url limit = Ok links ->
  forall link, link ∈ links ->
    is_http (link_url link) = true
    /\ link_text link <> []
    /\ Py.len (link_text link) <= 50
    /\ exists a_tag,
         a_tag ∈ find_all s (py"a") (Some (py"href"))
         /\ let href := Py.strip (default [] (attr a_tag (py"href"))) in
            let text := Py.strip (get_text a_tag [] false) in
            href <> []
            /\ Py.startswith (py"#") href = false
            /\ Py.startswith (py"javascript:") href = false
            /\ urljoin base_url href = Ok (link_url link)
            /\ (text = [] -> link_text link = py"无文本")
            /\ (text <> [] -> link_text link = take 50 text).
Proof.
  intros Hrun link Hin.
  destruct (extract_links_kept _ _ _ _ _ Hrun Hin) as [Hhttp Hanchor].
  apply list_elem_of_omap in Hanchor as (a_tag & Htag & Hlink).
  pose proof (anchor_link_entry _ _ _ Hlink) as Hentry.
  cbv zeta in Hentry.
  destruct Hentry as (Hhref & Hfrag & Hjs & Hjoin & Hnone & Hsome).
  split; [exact Hhttp|].
  destruct (Py.strip (get_text a_tag [] false)) as [|c text] eqn:Etext.
  - rewrite (Hnone eq_refl). split; [discriminate|].
    split; [vm_compute; discriminate|].
    exists a_tag. split; [exact Htag|]. cbv zeta. rewrite Etext.
    repeat split; try assumption. intros Hne. congruence.
  - rewrite (Hsome ltac:(discriminate)). split; [discriminate|].
    split.
    { unfold Py.len. rewrite length_take. lia. }
    exists a_tag. split; [exact Htag|]. cbv zeta. rewrite Etext.
    repeat split; try assumption. intros Hne. discriminate.
Qed.

Lemma links_loop_raise (base_url : pystr) (limit : Z) (tags : list tag) :
  forall (links : list Link) (seen_urls : gset pystr) (e : exn),
    links_loop base_url limit tags links seen_urls = Raise e ->
    exists a_tag, a_tag ∈ tags /\
      urljoin base_url (Py.strip (default [] (attr a_tag (py"href"))))
      = Raise e.
Proof.
  induction tags as [|a_tag rest IH]; intros links seen_urls e; simpl.
  - discriminate.
  - assert (Hrest : forall links seen_urls,
              links_loop base_url limit rest links seen_urls = Raise e ->
              exists t, t ∈ a_tag :: rest /\
                urljoin base_url (Py.strip (default [] (attr t (py"href"))))
                = Raise e).
    { intros l u Hloop. destruct (IH l u e Hloop) as (t & Ht & Hjoin).
      exists t. split; [right; exact Ht|exact Hjoin]. }
    destruct (Py.len_list links >=? limit); [discriminate|].
    destruct (_ || _ || _); [apply Hrest|].
    destruct (urljoin base_url _) as [absolute_url|e'] eqn:Ejoin; simpl.
    + destruct (decide (absolute_url ∈ seen_urls)); [apply Hrest|].
      destruct (is_http absolute_url); apply Hrest.
    + intros [= <-]. exists a_tag. split; [left|exact Ejoin].
Qed.

Lemma images_loop_raise (base_url : pystr) (limit : Z) (tags : list tag) :
  forall (images : list pystr) (seen_urls : gset pystr) (e : exn),
    images_loop base_url limit tags images seen_urls = Raise e ->
    exists img_tag, img_tag ∈ tags /\
      urljoin base_url (Py.strip (default [] (image_src img_tag)))
      = Raise e.
Proof.
  induction tags as [|img_tag rest IH]; intros images seen_urls e; simpl.
  - discriminate.
  - assert (Hrest : forall images seen_urls,
              images_loop base_url limit rest images seen_urls = Raise e ->
              exists t, t ∈ img_tag :: rest /\
                urljoin base_url (Py.strip (default [] (image_src t)))
                = Raise e).
    { intros l u Hloop. destruct (IH l u e Hloop) as (t & Ht & Hjoin).
      exists t. split; [right; exact Ht|exact Hjoin]. }
    destruct (Py.len_list images >=? limit); [discriminate|].
    destruct (falsy (image_src img_tag)); [apply Hrest|].
    destruct (urljoin base_url _) as [absolute_url|e'] eqn:Ejoin; simpl.
    + destruct (_ || _); [apply Hrest|].
      match goal with
      | |- (if ?b then _ else _) = _ -> _ => destruct b
      end; apply Hrest.
    + intros [= <-]. exists img_tag. split; [left|exact Ejoin].
Qed.

(** An extraction fails only with the exception that [urljoin] raised
    on one of the references of the document; it raises none of its
    own. *)
Theorem extraction_errors_from_urljoin (s : soup) (base_url : pystr)
    (limit : Z) (e : exn) :
  (extract_links s base_url limit = Raise e ->
     exists a_tag, a_tag ∈ find_all s (py"a") (Some (py"href")) /\
       urljoin base_url (Py.strip (default [] (attr a_tag (py"href"))))
       = Raise e)
  /\ (extract_images s base_url limit = Raise e ->
     exists img_tag, img_tag ∈ find_all s (py"img") None /\
       urljoin base_url (Py.strip (default [] (image_src img_tag)))
       = Raise e).
Proof.
  split; [apply links_loop_raise|apply images_loop_raise].
Qed.

Lemma strip_blank (w : pystr) :
  Forall (fun c => Py.isspace c = true) w -> Py.strip w = [].
Proof.
  intros Hw. assert (Hl : Py.lstrip w = []).
  { induction Hw as [|c w Hc _ IH]; simpl; [reflexivity|].
    rewrite Hc. exact IH. }
  unfold Py.strip. rewrite Hl. reflexivity.
Qed.

Lemma blank_href_strip (a_tag : tag) :
  blank_href a_tag = true ->
  Py.strip (default [] (attr a_tag (py"href"))) = [].
Proof.
  unfold blank_href. intros Hblank. apply strip_blank.
  apply Forall_forall. intros c Hc. rewrite forallb_forall in Hblank.
  apply Hblank, list_elem_of_In, Hc.
Qed.

Lemma links_loop_full (base_url : pystr) (limit : Z) (tags : list tag)
    (links : list Link) (seen_urls : gset pystr) :
  (Py.len_list links >=? limit) = true ->
  links_loop base_url limit tags links seen_urls = Ok links.
Proof.
  intros Hfull. destruct tags as [|a_tag rest]; simpl; [reflexivity|].
  rewrite Hfull. reflexivity.
Qed.

(** The loop of [extract_links] does on a list of anchors what it does
    on the list without the blank ones. *)
Lemma links_loop_skips_blank (base_url : pystr) (limit : Z)
    (tags : list tag) :
  forall (links : list Link) (seen_urls : gset pystr),
    links_loop base_url limit tags links seen_urls
    = links_loop base_url limit
        (List.filter (fun a_tag => negb (blank_href a_tag)) tags)
        links seen_urls.
Proof.
  induction tags as [|a_tag rest IH]; intros links seen_urls;
    [reflexivity|].
  cbn [List.filter]. destruct (blank_href a_tag) eqn:Eblank; cbn [negb].
  - cbn [links_loop].
    destruct (Py.len_list links >=? limit) eqn:Efull.
    + symmetry. apply links_loop_full, Efull.
    + rewrite (blank_href_strip a_tag Eblank). simpl. apply IH.
  - cbn [links_loop].
    destruct (Py.len_list links >=? limit); [reflexivity|].
    destruct (_ || _ || _); [apply IH|].
    destruct (urljoin base_url _) as [absolute_url|e]; simpl;
      [|reflexivity].
    destruct (decide (absolute_url ∈ seen_urls)); [apply IH|].
    destruct (is_http absolute_url); apply IH.
Qed.

Lemma blank_source_resolves (base_url : pystr) (img_tag : tag)
    (src : pystr) :
  attr img_tag (py"src") = Some src -> src <> [] ->
  Forall (fun c => Py.isspace c = true) src ->
  urljoin base_url [] = Ok base_url ->
  image_url base_url img_tag = Some base_url.
Proof.
  intros Hsrc Hne Hws Hjoin. apply truthy_nonempty in Hne.
  assert (Esrc : image_src img_tag = Some src).
  { unfold image_src. rewrite Hsrc. simpl. rewrite Hne. simpl.
    rewrite Hne. reflexivity. }
  unfold image_url. rewrite Esrc. simpl. rewrite Hne. simpl.
  rewrite (strip_blank src Hws), Hjoin. reflexivity.
Qed.

(** A blank reference is treated differently by the two extractions,
    whatever else the page holds.  An anchor whose href is empty or
    white space only is skipped, since the href is stripped before it
    is tested: the links, or the exception, are those of the loop run
    on the anchors without the blank ones.  An image source is tested
    before it is stripped: a source of white space only is resolved as
    the empty reference, and when that resolves to the base URL, and
    the base URL passes the filters, the page's own URL is among the
    images returned unless the limit was reached. *)
Theorem blank_references (s : soup) (base_url : pystr) (limit : Z) :
  extract_links s base_url limit
  = links_loop base_url limit
      (List.filter (fun a_tag => negb (blank_href a_tag))
         (find_all s (py"a") (Some (py"href")))) [] ∅
  /\ (forall img_tag src images,
        img_tag ∈ find_all s (py"img") None ->
        attr img_tag (py"src") = Some src -> src <> [] ->
        Forall (fun c => Py.isspace c = true) src ->
        urljoin base_url [] = Ok base_url ->
        image_kept base_url = true ->
        extract_images s base_url limit = Ok images ->
        Py.len_list images < limit ->
        base_url ∈ images).
Proof.
  split; [apply links_loop_skips_blank|].
  intros img_tag src images Htag Hsrc Hne Hws Hjoin Hkept Hrun Hroom.
  assert (Hlimit : 0 <= limit) by (unfold Py.len_list in Hroom; lia).
  pose proof (blank_source_resolves base_url img_tag src Hsrc Hne Hws Hjoin)
    as Hurl.
  assert (Hin : base_url ∈ omap (image_url base_url)
                             (find_all s (py"img") None)).
  { apply list_elem_of_omap. exists img_tag. split; assumption. }
  rewrite (extract_images_spec _ _ _ _ Hlimit Hrun) in Hroom |- *.
  unfold spec_images in *.
  rewrite take_all_below by (unfold Py.len_list in Hroom; lia).
  apply list_elem_of_filter. split; [exact Hkept|].
  destruct (first_by_keys id _ base_url Hin) as (y & Hy & Hkey).
  unfold id in Hkey. subst y. exact Hy.
Qed.

End Entries.

(** ** [fetch_webpage]: the stages of a call *)

Section Stages.
Context {soup tag : Type}.
Context `{!DocumentTree soup tag} `{!Urllib} `{!Unicode} `{!Re}.

Lemma extract_main_content_document (s : soup) :
  (extract_main_content s).1 = decompose_all s removed_tags.
Proof.
  unfold extract_main_content.
  destruct (select_first _ content_selectors); [reflexivity|].
  destruct (find _ (py"body") []); reflexivity.
Qed.

(** The parser branch once the page is parsed. *)
Lemma parsed_report_parsed (config : WebReaderConfig)
    (BeautifulSoup : pystr -> pystr -> result soup)
    (url content : pystr) (response : Response) (s : soup) :
  BeautifulSoup content (py"html.parser") = Ok s ->
  parsed_report config BeautifulSoup url content response
  = (links ← fetch_links config (decompose_all s removed_tags) url;
     images ← fetch_images config (decompose_all s removed_tags) url;
     Ok (format_report config url (extract_metadata s)
           (status_code response) (response_encoding response)
           (extract_main_content s).2 links images)).
Proof.
  intros Hparse. unfold parsed_report. rewrite Hparse.
  rewrite <- (extract_main_content_document s).
  unfold mbind, result_bind.
  destruct (extract_main_content s) as [pruned main_text]. reflexivity.
Qed.

(** The [try] block for a URL that passes the validation. *)
Lemma fetch_webpage_try_valid (requests : Requests)
    (BeautifulSoup : pystr -> pystr -> result soup)
    (config : WebReaderConfig) (url : pystr) (timeout : option Z)
    (parsed : ParseResult) :
  url <> [] -> urlparse url = Ok parsed ->
  scheme parsed <> [] -> netloc parsed <> [] ->
  fetch_webpage_try (Some requests) (Some BeautifulSoup) config url timeout
  = {| run_timeout := Some (effective_timeout config timeout);
       run_requests := [request_for config url timeout];
       run_result :=
         response ← get requests (request_for config url timeout);
         _ ← raise_for_status requests response;
         parsed_report config BeautifulSoup url
           (text response (response_encoding response)) response |}.
Proof.
  intros Hurl Hparse Hscheme Hnetloc.
  apply truthy_nonempty in Hurl, Hscheme, Hnetloc.
  unfold fetch_webpage_try. rewrite Hurl, Hparse, Hscheme, Hnetloc.
  reflexivity.
Qed.

(** A call with a URL that passes the validation goes through five
    stages in this order: the request, the check of the status, the
    parser, the links, the images.  The first stage that raises ends
    the call with the message of its exception, what the later stages
    would give being of no effect.  When all succeed the report is
    made of the metadata of the page as it was parsed, and of the main
    text, the links and the images of the page after the removal of
    the elements that [extract_main_content] discards. *)
Theorem fetch_stages (requests : Requests)
    (BeautifulSoup : pystr -> pystr -> result soup)
    (config : WebReaderConfig) (url : pystr) (timeout : option Z)
    (parsed : ParseResult) :
  url <> [] -> urlparse url = Ok parsed ->
  scheme parsed <> [] -> netloc parsed <> [] ->
  let request := request_for config url timeout in
  let failed e := on_exception (Some (effective_timeout config timeout)) e in
  let out :=
    fetch_webpage (Some requests) (Some BeautifulSoup) config url timeout in
  out.1 = [request]
  /\ (forall e, get requests request = Raise e -> out.2 = failed e)
  /\ (forall response, get requests request = Ok response ->
      (forall e, raise_for_status requests response = Raise e ->
                 out.2 = failed e)
      /\ (raise_for_status requests response = Ok tt ->
          let content := text response (response_encoding response) in
          (forall e, BeautifulSoup content (py"html.parser") = Raise e ->
                     out.2 = failed e)
          /\ (forall s, BeautifulSoup content (py"html.parser") = Ok s ->
              let pruned := decompose_all s removed_tags in
              (forall e, fetch_links config pruned url = Raise e ->
                         out.2 = failed e)
              /\ (forall links, fetch_links config pruned url = Ok links ->
                  (forall e, fetch_images config pruned url = Raise e ->
                             out.2 = failed e)
                  /\ (forall images,
                        fetch_images config pruned url = Ok images ->
                        out.2 = format_report config url
                                  (extract_metadata s)
                                  (status_code response)
                                  (response_encoding response)
                                  (extract_main_content s).2
                                  links images))))).
Proof.
  intros Hurl Hparse Hscheme Hnetloc request failed out.
  pose proof (fetch_webpage_try_valid requests BeautifulSoup config url
                timeout parsed Hurl Hparse Hscheme Hnetloc) as Hrun.
  fold request in Hrun.
  assert (Hout : out = ([request],
            match
              (response ← get requests request;
               _ ← raise_for_status requests response;
               parsed_report config BeautifulSoup url
                 (text response (response_encoding response)) response)
            with
            | Ok report => report
            | Raise e => failed e
            end)).
  { subst out. unfold fetch_webpage. rewrite Hrun. reflexivity. }
  rewrite Hout. simpl fst. simpl snd.
  split; [reflexivity|].
  split; [intros e ->; reflexivity|].
  intros response ->. cbn [mbind result_bind].
  split; [intros e ->; reflexivity|].
  intros Hstatus. rewrite Hstatus. cbn [mbind result_bind].
  set (content := text response (response_encoding response)).
  split; [intros e Hraise; unfold parsed_report; fold content;
          rewrite Hraise; reflexivity|].
  intros s Hsoup. set (pruned := decompose_all s removed_tags).
  rewrite (parsed_report_parsed config BeautifulSoup url content response
             s Hsoup).
  fold pruned.
  split; [intros e ->; reflexivity|].
  intros links ->. cbn [mbind result_bind].
  split; [intros e ->; reflexivity|].
  intros images ->. reflexivity.
Qed.

End Stages.

(** ** [fetch_webpage]: what is sent and what is returned *)

Section Returned.
Context {soup tag : Type}.
Context `{!DocumentTree soup tag} `{!Urllib} `{!Unicode} `{!Re}.

Lemma join_banner (sep a b c : pystr) (rest : list pystr) :
  Py.startswith (a ++ sep ++ b ++ sep ++ c)
    (Py.join sep (a :: b :: c :: rest)) = true.
Proof.
  change (Py.join sep (a :: b :: c :: rest))
    with (a ++ sep ++ b ++ sep ++ Py.join sep (c :: rest)).
  destruct rest as [|d rest].
  - simpl Py.join. rewrite <- (app_nil_r (a ++ sep ++ b ++ sep ++ c)) at 2.
    apply startswith_app.
  - change (Py.join sep (c :: d :: rest))
      with (c ++ sep ++ Py.join sep (d :: rest)).
    replace (a ++ sep ++ b ++ sep ++ c ++ sep ++ Py.join sep (d :: rest))
      with ((a ++ sep ++ b ++ sep ++ c) ++ sep ++ Py.join sep (d :: rest))
      by (rewrite <- !app_assoc; reflexivity).
    apply startswith_app.
Qed.

Lemma format_report_banner (config : WebReaderConfig) (url : pystr)
    (metadata : Metadata) (status : Z) (enc main_text : pystr)
    (links : list Link) (images : list pystr) :
  Py.startswith report_banner
    (format_report config url metadata status enc main_text links images)
  = true.
Proof. apply join_banner. Qed.

Lemma on_exception_error (timeout : option Z) (e : exn) :
  Py.startswith (py"❌ 错误：") (on_exception timeout e) = true.
Proof. destruct e; reflexivity. Qed.

Lemma error_is_no_banner (s : pystr) :
  Py.startswith (py"❌ 错误：") s = true ->
  Py.startswith report_banner s = false.
Proof.
  destruct s as [|c s]; [discriminate|].
  intros Herr. apply andb_true_iff in Herr as [Hc _].
  apply N.eqb_eq in Hc. subst c. reflexivity.
Qed.

Lemma validation_error (s : pystr) :
  s = msg_no_requests \/ s = msg_empty_url
  \/ (exists e, s = msg_parse_failed e) \/ (exists url, s = msg_invalid_url url) ->
  Py.startswith (py"❌ 错误：") s = true.
Proof.
  intros [-> | [-> | [[e ->] | [url ->]]]]; reflexivity.
Qed.

(** The ways a call can end. *)
Lemma fetch_cases (requests : option Requests)
    (bs4 : option (pystr -> pystr -> result soup))
    (config : WebReaderConfig) (url : pystr) (timeout : option Z) :
  let run := fetch_webpage_try requests bs4 config url timeout in
  let out := fetch_webpage requests bs4 config url timeout in
  (out.1 = [] /\ run_result run = Ok out.2
   /\ Py.startswith (py"❌ 错误：") out.2 = true)
  \/ (out.1 = [] /\ run_result run = Ok out.2 /\ out.2 = msg_no_bs4)
  \/ (out.1 = [request_for config url timeout]
      /\ exists e, run_result run = Raise e)
  \/ (out.1 = [request_for config url timeout]
      /\ run_result run = Ok out.2
      /\ Py.startswith report_banner out.2 = true).
Proof.
  intros run out. subst run out.
  destruct requests as [requests|]; [|left; repeat split].
  destruct bs4 as [BeautifulSoup|]; [|right; left; repeat split].
  destruct (Py.truthy url) eqn:Eurl.
  2:{ left. unfold fetch_webpage, fetch_webpage_try. rewrite Eurl.
      repeat split. }
  destruct (urlparse url) as [parsed|e] eqn:Eparse.
  2:{ left. unfold fetch_webpage, fetch_webpage_try. rewrite Eurl, Eparse.
      repeat split. }
  destruct (Py.truthy (scheme parsed) && Py.truthy (netloc parsed))
    eqn:Evalid.
  2:{ left. unfold fetch_webpage, fetch_webpage_try.
      rewrite Eurl, Eparse, Evalid. repeat split. }
  apply andb_true_iff in Evalid as [Escheme Enetloc].
  apply truthy_nonempty in Eurl, Escheme, Enetloc.
  right. right. unfold fetch_webpage.
  rewrite (fetch_webpage_try_valid requests BeautifulSoup config url
             timeout parsed Eurl Eparse Escheme Enetloc).
  cbn [run_requests run_result run_timeout fst snd].
  destruct (get requests _) as [response|e];
    [|left; split; [reflexivity|exists e; reflexivity]].
  cbn [mbind result_bind].
  destruct (raise_for_status requests response) as [[]|e];
    [|left; split; [reflexivity|exists e; reflexivity]].
  cbn [mbind result_bind].
  destruct (BeautifulSoup (text response (response_encoding response))
              (py"html.parser")) as [s|e] eqn:Esoup.
  2:{ left. split; [reflexivity|]. exists e.
      unfold parsed_report. rewrite Esoup. reflexivity. }
  rewrite (parsed_report_parsed _ _ _ _ _ s Esoup).
  destruct (fetch_links config _ url) as [links|e];
    [|left; split; [reflexivity|exists e; reflexivity]].
  cbn [mbind result_bind].
  destruct (fetch_images config _ url) as [images|e];
    [|left; split; [reflexivity|exists e; reflexivity]].
  cbn [mbind result_bind].
  right. split; [reflexivity|]. split; [reflexivity|].
  apply format_report_banner.
Qed.

(** The string returned is of one of three kinds, told apart by its
    first character: an error, which starts with the error mark; the
    warning of the missing parser; a report, which starts with the
    banner.  Every exception ends in an error, and a report is only
    returned after the one request was sent and nothing raised. *)
Theorem returned_kinds (requests : option Requests)
    (bs4 : option (pystr -> pystr -> result soup))
    (config : WebReaderConfig) (url : pystr) (timeout : option Z) :
  let run := fetch_webpage_try requests bs4 config url timeout in
  let out := fetch_webpage requests bs4 config url timeout in
  (Py.startswith (py"❌ 错误：") out.2 = true
   \/ out.2 = py"⚠️ 警告：BeautifulSoup未安装，将使用简化模式"
   \/ Py.startswith report_banner out.2 = true)
  /\ (Py.startswith (py"❌ 错误：") out.2 = true ->
      Py.startswith report_banner out.2 = false)
  /\ (forall e, run_result run = Raise e ->
      Py.startswith (py"❌ 错误：") out.2 = true)
  /\ (Py.startswith report_banner out.2 = true ->
      out.1 = [request_for config url timeout]
      /\ run_result run = Ok out.2).
Proof.
  intros run out.
  assert (Hraise : forall e, run_result run = Raise e ->
            Py.startswith (py"❌ 错误：") out.2 = true).
  { intros e He. subst out.
    rewrite (fetch_webpage_raise _ _ _ _ _ _ He).
    apply on_exception_error. }
  pose proof (fetch_cases requests bs4 config url timeout) as Hcases.
  cbv zeta in Hcases. fold run out in Hcases.
  split; [|split; [apply error_is_no_banner|split; [exact Hraise|]]].
  - destruct Hcases
      as [(_ & _ & Herr) | [(_ & _ & Hwarn)
          | [(_ & e & He) | (_ & _ & Hbanner)]]].
    + left. exact Herr.
    + right. left. exact Hwarn.
    + left. exact (Hraise e He).
    + right. right. exact Hbanner.
  - intros Hbanner.
    destruct Hcases
      as [(_ & _ & Herr) | [(_ & _ & Hwarn)
          | [(_ & e & He) | (Hsent & Hok & _)]]].
    + rewrite (error_is_no_banner _ Herr) in Hbanner. discriminate.
    + rewrite Hwarn in Hbanner. discriminate.
    + rewrite (error_is_no_banner _ (Hraise e He)) in Hbanner.
      discriminate.
    + split; assumption.
Qed.

(** A request is sent exactly when both packages are present and the
    URL is not empty and parses with a scheme and a host; at most one
    is sent, for the URL as given, with the configured User-Agent as
    its only header and with redirects followed.  Without [requests]
    the call ends with its own error, whether or not [bs4] is there. *)
Theorem request_conditions (requests : option Requests)
    (bs4 : option (pystr -> pystr -> result soup))
    (config : WebReaderConfig) (url : pystr) (timeout : option Z) :
  let out := fetch_webpage requests bs4 config url timeout in
  (length out.1 <= 1)%nat
  /\ Forall (fun request =>
               req_url request = url
               /\ req_headers request = [(py"User-Agent", USER_AGENT config)]
               /\ req_allow_redirects request = true
               /\ req_timeout request = effective_timeout config timeout)
       out.1
  /\ (requests = None -> out = ([], py"❌ 错误：requests包未安装"))
  /\ (out.1 <> [] <->
      exists client BeautifulSoup parsed,
        requests = Some client /\ bs4 = Some BeautifulSoup
        /\ url <> [] /\ urlparse url = Ok parsed
        /\ scheme parsed <> [] /\ netloc parsed <> []).
Proof.
  intros out.
  assert (Hsent : out.1 = [] \/ out.1 = [request_for config url timeout])
    by apply requests_sent.
  split; [destruct Hsent as [-> | ->]; simpl; lia|].
  split.
  { destruct Hsent as [-> | ->]; constructor; [|constructor].
    repeat split. }
  split; [intros ->; reflexivity|].
  split.
  - intros Hne. subst out. unfold fetch_webpage, fetch_webpage_try in Hne.
    destruct requests as [client|]; [|exfalso; apply Hne; reflexivity].
    destruct bs4 as [BeautifulSoup|]; [|exfalso; apply Hne; reflexivity].
    destruct (Py.truthy url) eqn:Eurl;
      [|exfalso; apply Hne; reflexivity].
    destruct (urlparse url) as [parsed|e] eqn:Eparse;
      [|exfalso; apply Hne; reflexivity].
    destruct (Py.truthy (scheme parsed) && Py.truthy (netloc parsed))
      eqn:Evalid; [|exfalso; apply Hne; reflexivity].
    apply andb_true_iff in Evalid as [Escheme Enetloc].
    exists client, BeautifulSoup, parsed.
    repeat split; try reflexivity; apply truthy_nonempty; assumption.
  - intros (client & BeautifulSoup & parsed & -> & -> & Hurl & Hparse
            & Hscheme & Hnetloc).
    subst out. unfold fetch_webpage.
    rewrite (fetch_webpage_try_valid client BeautifulSoup config url
               timeout parsed Hurl Hparse Hscheme Hnetloc).
    discriminate.
Qed.

(** A time-out other than 0 is used as given, whatever its sign or
    size: the bounds of [DEFAULT_TIMEOUT] do not apply to it.  It is
    the time-out of every request sent and the number shown in the
    message of a time-out. *)
Theorem caller_timeout_is_used (requests : option Requests)
    (bs4 : option (pystr -> pystr -> result soup))
    (config : WebReaderConfig) (url : pystr) (t : Z) :
  t <> 0 ->
  let run := fetch_webpage_try requests bs4 config url (Some t) in
  let out := fetch_webpage requests bs4 config url (Some t) in
  effective_timeout config (Some t) = t
  /\ Forall (fun request => req_timeout request = t) out.1
  /\ (forall m, run_result run = Raise (Timeout m) ->
      out.2 = py"❌ 错误：请求超时（" ++ Py.str_of_int t
              ++ py"秒），目标网站响应过慢").
Proof.
  intros Ht run out.
  assert (Hused : effective_timeout config (Some t) = t).
  { unfold effective_timeout. destruct (Z.eqb_spec t 0); [lia|reflexivity]. }
  split; [exact Hused|]. split.
  - subst out.
    destruct (requests_sent requests bs4 config url (Some t)) as [-> | ->];
      constructor; [exact Hused|constructor].
  - intros m Hraise. subst out.
    rewrite (fetch_webpage_raise _ _ _ _ _ _ Hraise), Hused. reflexivity.
Qed.

(** The encoding shown in the report is never empty: it is the
    encoding the response declares, or else the one detected from the
    body, or else [utf-8]; an empty string counts as none. *)
Theorem encoding_fallbacks (response : Response) :
  let declared := default [] (encoding response) in
  let detected := default [] (apparent_encoding response) in
  response_encoding response <> []
  /\ (declared <> [] -> response_encoding response = declared)
  /\ (declared = [] -> detected <> [] ->
      response_encoding response = detected)
  /\ (declared = [] -> detected = [] ->
      response_encoding response = py"utf-8").
Proof.
  intros declared detected. subst declared detected.
  unfold response_encoding, Py.or_else.
  destruct (encoding response) as [[|c e]|];
    destruct (apparent_encoding response) as [[|d a]|]; simpl;
    repeat split; intros; congruence.
Qed.

(** With both extractions switched off in the configuration the report
    ends with the line of the character count, and it is returned
    whatever [urljoin] would do with the references of the page: none
    is resolved. *)
Theorem extraction_switched_off (config : WebReaderConfig)
    (BeautifulSoup : pystr -> pystr -> result soup)
    (url content : pystr) (response : Response) (s : soup) :
  EXTRACT_LINKS config = false -> EXTRACT_IMAGES config = false ->
  BeautifulSoup content (py"html.parser") = Ok s ->
  let main_text := (extract_main_content s).2 in
  parsed_report config BeautifulSoup url content response
  = Ok (Py.join [Py.nl]
          (report_head url (extract_metadata s) (status_code response)
             (response_encoding response)
           ++ [content_preview (MAX_CONTENT_LENGTH config) main_text;
               total_line main_text])).
Proof.
  intros Hlinks Himages Hsoup main_text.
  rewrite (parsed_report_parsed _ _ _ _ _ s Hsoup).
  unfold fetch_links, fetch_images. rewrite Hlinks, Himages.
  cbn [mbind result_bind].
  unfold format_report, output_parts. fold main_text.
  cbn [report_links report_images]. rewrite !app_nil_r. reflexivity.
Qed.

End Returned.

(** ** The limit as a cut *)

Section Limits.
Context {soup tag : Type}.
Context `{!DocumentTree soup tag} `{!Urllib} `{!Unicode}.

(** Raising the limit only adds entries at the end: what an
    extraction returns under a limit is the start of what it returns
    under a larger one. *)
Theorem limit_is_a_cut (s : soup) (base_url : pystr) (small large : Z) :
  small <= large ->
  (forall links more,
     extract_links s base_url small = Ok links ->
     extract_links s base_url large = Ok more ->
     links = take (Z.to_nat small) more)
  /\ (forall images more,
     extract_images s base_url small = Ok images ->
     extract_images s base_url large = Ok more ->
     images = take (Z.to_nat small) more).
Proof.
  intros Hle.
  destruct (Z.le_gt_cases small 0) as [Hneg|Hpos].
  - destruct (nonpositive_limit s base_url small Hneg) as [Hl Hi].
    replace (Z.to_nat small) with 0%nat by lia.
    split; intros l more Hrun _; rewrite ?Hl, ?Hi in Hrun;
      injection Hrun as <-; reflexivity.
  - assert (Hs : 0 <= small) by lia. assert (Hl : 0 <= large) by lia.
    split.
    + intros links more Hsmall Hlarge.
      rewrite (extract_links_spec _ _ _ _ Hs Hsmall).
      rewrite (extract_links_spec _ _ _ _ Hl Hlarge).
      unfold spec_links. rewrite take_take. f_equal. lia.
    + intros images more Hsmall Hlarge.
      rewrite (extract_images_spec _ _ _ _ Hs Hsmall).
      rewrite (extract_images_spec _ _ _ _ Hl Hlarge).
      unfold spec_images. rewrite take_take. f_equal. lia.
Qed.

End Limits.

(** ** The lines of the report *)


Section ReportLines.






End ReportLines.

(** ** The further properties on the sample pages *)

(** Runs of blanks, a line feed and a tab become single spaces. *)
Lemma clean_text_normal_form_witness :
  let text := py"  Hello" ++ [Py.nl; 9%N] ++ py" world  " in
  clean_text text = py"Hello world"
  /\ head (clean_text text) = Some 72%N
  /\ Py.isspace 72 = false.
Proof.
  intros text.
  destruct (clean_text_normal_form text) as (_ & _ & Hhead & _).
  assert (E : head (clean_text text) = Some 72%N) by (vm_compute; reflexivity).
  split; [vm_compute; reflexivity|].
  split; [exact E|exact (Hhead _ E)].
Defined.

(** A text of white space only cleans to the empty string. *)
Lemma clean_text_keeps_visible_witness :
  Forall (fun c => Py.isspace c = true) [Py.space; Py.nl; 9%N]
  /\ clean_text [Py.space; Py.nl; 9%N] = [].
Proof.
  assert (Hws : Forall (fun c => Py.isspace c = true) [Py.space; Py.nl; 9%N])
    by (repeat constructor).
  split; [exact Hws|].
  destruct (clean_text_keeps_visible [Py.space; Py.nl; 9%N])
    as (_ & _ & Hempty).
  exact (proj2 Hempty Hws).
Defined.

(** The description element without content hides the Open Graph one. *)
Lemma metadata_fallbacks_witness :
  find Cases.shadowed (py"meta") [(py"name", py"description")]
  = Some Cases.bare_description
  /\ attr Cases.bare_description (py"content") = None
  /\ description (extract_metadata Cases.shadowed) = [].
Proof.
  assert (Hfind : find Cases.shadowed (py"meta") [(py"name", py"description")]
                  = Some Cases.bare_description) by (vm_compute; reflexivity).
  assert (Hattr : attr Cases.bare_description (py"content") = None)
    by reflexivity.
  split; [exact Hfind|]. split; [exact Hattr|].
  destruct (metadata_fallbacks Cases.shadowed) as (_ & Hdesc & _).
  exact (proj2 (Hdesc Cases.bare_description Hfind) Hattr).
Defined.

(** A limit of 0 on the page with twelve anchors. *)
Lemma nonpositive_limit_witness :
  0 <= 0
  /\ extract_links Sample.crowded Sample.base 0 = Ok []
  /\ extract_images Sample.crowded Sample.base 0 = Ok [].
Proof.
  assert (Hlimit : 0 <= 0) by lia.
  split; [exact Hlimit|].
  exact (nonpositive_limit Sample.crowded Sample.base 0 Hlimit).
Defined.

(** The links of the page that repeats its references. *)
Lemma link_entries_witness :
  exists links,
    extract_links Sample.repeated Sample.base 10 = Ok links
    /\ length links = 2%nat
    /\ forall link, link ∈ links ->
         is_http (link_url link) = true
         /\ link_text link <> []
         /\ Py.len (link_text link) <= 50.
Proof.
  destruct (extract_links Sample.repeated Sample.base 10)
    as [links|e] eqn:Elinks; [|vm_compute in Elinks; discriminate Elinks].
  exists links. split; [reflexivity|]. split.
  - vm_compute in Elinks. injection Elinks as <-. reflexivity.
  - intros link Hin.
    destruct (link_entries Sample.repeated Sample.base 10 links Elinks
                link Hin) as (Hhttp & Htext & Hlen & _).
    split; [exact Hhttp|]. split; [exact Htext|exact Hlen].
Defined.

(** The exception of the rejected reference is the one raised. *)
Lemma extraction_errors_from_urljoin_witness :
  let e := Exception (py"ValueError") (py"Invalid IPv6 URL") in
  extract_links Cases.broken Sample.base 10 = Raise e
  /\ exists a_tag,
       a_tag ∈ find_all Cases.broken (py"a") (Some (py"href"))
       /\ urljoin Sample.base
            (Py.strip (default [] (attr a_tag (py"href")))) = Raise e.
Proof.
  intros e.
  assert (Hraise : extract_links Cases.broken Sample.base 10 = Raise e)
    by (vm_compute; reflexivity).
  split; [exact Hraise|].
  exact (proj1 (extraction_errors_from_urljoin Cases.broken Sample.base 10 e)
           Hraise).
Defined.

(** On a page with other anchors and images the blank href is skipped
    and the blank source yields the page's URL. *)
Lemma blank_references_witness :
  exists links images,
    extract_links Cases.blank Sample.base 5 = Ok links
    /\ extract_images Cases.blank Sample.base 5 = Ok images
    /\ map link_url links = [py"https://example.com/first";
                             py"https://example.com/second"]
    /\ Cases.blank_image ∈ find_all Cases.blank (py"img") None
    /\ Py.len_list images < 5
    /\ Sample.base ∈ images
    /\ images = [py"https://example.com/x.png"; Sample.base;
                 py"https://example.com/y.png"].
Proof.
  destruct (blank_references Cases.blank Sample.base 5) as [Hlinks Himages].
  destruct (extract_links Cases.blank Sample.base 5)
    as [links|e] eqn:Elinks; [|vm_compute in Elinks; discriminate Elinks].
  destruct (extract_images Cases.blank Sample.base 5)
    as [images|e] eqn:Eimages; [|vm_compute in Eimages; discriminate Eimages].
  assert (Htag : Cases.blank_image ∈ find_all Cases.blank (py"img") None).
  { apply list_elem_of_In. vm_compute. tauto. }
  assert (Hroom : Py.len_list images < 5).
  { vm_compute in Eimages. injection Eimages as <-. vm_compute. reflexivity. }
  exists links, images.
  split; [reflexivity|]. split; [reflexivity|].
  split.
  { vm_compute in Hlinks. injection Hlinks as ->. reflexivity. }
  split; [exact Htag|]. split; [exact Hroom|].
  split.
  - apply (Himages Cases.blank_image (py" ") images Htag).
    + reflexivity.
    + discriminate.
    + repeat constructor.
    + reflexivity.
    + vm_compute. reflexivity.
    + reflexivity.
    + exact Hroom.
  - vm_compute in Eimages. injection Eimages as <-. reflexivity.
Defined.

(** A call that goes through all five stages. *)
Lemma fetch_stages_witness :
  let out :=
    fetch_webpage (Some Sample.up) (Some (Ref.parser Sample.repeated))
      default_config Sample.base None in
  let pruned := decompose_all Sample.repeated removed_tags in
  exists links images,
    fetch_links default_config pruned Sample.base = Ok links
    /\ fetch_images default_config pruned Sample.base = Ok images
    /\ out.1 = [request_for default_config Sample.base None]
    /\ out.2 = format_report default_config Sample.base
                 (extract_metadata Sample.repeated) 200 (py"utf-8")
                 (extract_main_content Sample.repeated).2 links images.
Proof.
  intros out pruned.
  destruct (fetch_stages Sample.up (Ref.parser Sample.repeated)
              default_config Sample.base None
              {| scheme := py"https"; netloc := py"example.com" |})
    as (Hsent & _ & Hanswer).
  - discriminate.
  - vm_compute. reflexivity.
  - discriminate.
  - discriminate.
  - destruct (Hanswer (Ref.response_of 200
                         (py"<html><body>Hello</body></html>")) eq_refl)
      as (_ & Hchecked).
    destruct (Hchecked eq_refl) as (_ & Hparsed).
    destruct (Hparsed Sample.repeated eq_refl) as (_ & Hlinks).
    fold pruned in Hlinks.
    destruct (fetch_links default_config pruned Sample.base)
      as [links|e] eqn:Elinks; [|vm_compute in Elinks; discriminate Elinks].
    destruct (Hlinks links eq_refl) as (_ & Himages).
    destruct (fetch_images default_config pruned Sample.base)
      as [images|e] eqn:Eimages; [|vm_compute in Eimages; discriminate Eimages].
    exists links, images.
    split; [reflexivity|]. split; [reflexivity|].
    split; [exact Hsent|exact (Himages images eq_refl)].
Defined.

(** A report starts with the banner, and one request was sent for it. *)
Lemma returned_kinds_witness :
  let out :=
    fetch_webpage (Some Sample.up) (Some (Ref.parser Sample.repeated))
      default_config Sample.base None in
  Py.startswith report_banner out.2 = true
  /\ out.1 = [request_for default_config Sample.base None].
Proof.
  intros out.
  assert (Hbanner : Py.startswith report_banner out.2 = true)
    by (vm_compute; reflexivity).
  split; [exact Hbanner|].
  destruct (returned_kinds (Some Sample.up)
              (Some (Ref.parser Sample.repeated)) default_config
              Sample.base None) as (_ & _ & _ & Hreport).
  exact (proj1 (Hreport Hbanner)).
Defined.

(** The conditions hold for the sample URL, so a request is sent. *)
Lemma request_conditions_witness :
  (fetch_webpage (Some Sample.up) (Some (Ref.parser Sample.repeated))
     default_config Sample.base None).1 <> []
  /\ fetch_webpage (@None Requests) (Some (Ref.parser Sample.repeated))
       default_config Sample.base None
     = ([], py"❌ 错误：requests包未安装").
Proof.
  split.
  - destruct (request_conditions (Some Sample.up)
                (Some (Ref.parser Sample.repeated)) default_config
                Sample.base None) as (_ & _ & _ & Hiff).
    apply (proj2 Hiff).
    exists Sample.up, (Ref.parser Sample.repeated),
      {| scheme := py"https"; netloc := py"example.com" |}.
    split; [reflexivity|]. split; [reflexivity|].
    split; [discriminate|]. split; [vm_compute; reflexivity|].
    split; discriminate.
  - destruct (request_conditions (@None Requests)
                (Some (Ref.parser Sample.repeated)) default_config
                Sample.base None) as (_ & _ & Hnone & _).
    exact (Hnone eq_refl).
Defined.

(** A negative time-out is sent and shown as it is. *)
Lemma caller_timeout_is_used_witness :
  let client := Ref.failing (Timeout (py"Read timed out.")) in
  let out :=
    fetch_webpage (Some client) (Some (Ref.parser Sample.repeated))
      default_config Sample.base (Some (-1)) in
  -1 <> 0
  /\ Forall (fun request => req_timeout request = -1) out.1
  /\ out.2 = py"❌ 错误：请求超时（-1秒），目标网站响应过慢".
Proof.
  intros client out.
  assert (Ht : -1 <> 0) by lia.
  destruct (caller_timeout_is_used (Some client)
              (Some (Ref.parser Sample.repeated)) default_config
              Sample.base (-1) Ht) as (_ & Hsent & Hmessage).
  split; [exact Ht|]. split; [exact Hsent|].
  apply (Hmessage (py"Read timed out.")). vm_compute. reflexivity.
Defined.

(** An empty declared encoding gives way to the detected one. *)
Lemma encoding_fallbacks_witness :
  response_encoding Cases.undeclared = py"gbk".
Proof.
  destruct (encoding_fallbacks Cases.undeclared) as (_ & _ & Hdetected & _).
  apply Hdetected; [reflexivity|discriminate].
Defined.

(** With the extractions off the page with the rejected reference is
    reported. *)
Lemma extraction_switched_off_witness :
  let response := Ref.response_of 200 [] in
  extract_links Cases.broken Sample.base 10
  = Raise (Exception (py"ValueError") (py"Invalid IPv6 URL"))
  /\ parsed_report Cases.quiet (Ref.parser Cases.broken) Sample.base []
       response
     = Ok (Py.join [Py.nl]
             (report_head Sample.base (extract_metadata Cases.broken) 200
                (py"utf-8")
              ++ [content_preview 15000 (extract_main_content Cases.broken).2;
                  total_line (extract_main_content Cases.broken).2])).
Proof.
  intros response. split; [vm_compute; reflexivity|].
  exact (extraction_switched_off Cases.quiet (Ref.parser Cases.broken)
           Sample.base [] response Cases.broken eq_refl eq_refl eq_refl).
Defined.


(** Under the limit 1 the first of the links under the limit 10. *)
Lemma limit_is_a_cut_witness :
  1 <= 10
  /\ exists links more,
       extract_links Sample.repeated Sample.base 1 = Ok links
       /\ extract_links Sample.repeated Sample.base 10 = Ok more
       /\ links = take 1 more
       /\ length links = 1%nat /\ length more = 2%nat.
Proof.
  assert (Hle : 1 <= 10) by lia.
  split; [exact Hle|].
  destruct (limit_is_a_cut Sample.repeated Sample.base 1 10 Hle)
    as (Hlinks & _).
  destruct (extract_links Sample.repeated Sample.base 1)
    as [links|e] eqn:Esmall; [|vm_compute in Esmall; discriminate Esmall].
  destruct (extract_links Sample.repeated Sample.base 10)
    as [more|e] eqn:Elarge; [|vm_compute in Elarge; discriminate Elarge].
  exists links, more.
  split; [reflexivity|]. split; [reflexivity|].
  split; [exact (Hlinks links more eq_refl eq_refl)|].
  vm_compute in Esmall. vm_compute in Elarge.
  injection Esmall as <-. injection Elarge as <-.
  split; reflexivity.
Defined.
